(** * pycaen: the protocol engine of the CAEN 1471 driver

    A shallow embedding of [src/pycaen/_caen1471.py]: the reply decoder
    ([__check_error], [_parse_reply]), the exchange operation ([_command])
    with its busy flag, the status and alarm enumerations and the facade
    properties built on them, followed by the properties of the
    specification that were checked against this code. *)

From Stdlib Require Import ZArith List Bool Ascii String Lia QArith.
From Stdlib Require Import DecimalString DecimalPos.
From Stdlib Require Import Floats.SpecFloat.
Import ListNotations.

Local Open Scope string_scope.
Local Open Scope Z_scope.

(** ** Characters and text

    A Python [str] is modelled by a Rocq [string] whose characters are the
    code points 0..255; [bytes] objects use the same type.  Every text the
    driver handles is ASCII: outgoing text goes through [encode] to ascii,
    incoming bytes through [decode] from ascii. *)

Definition CR : ascii := "013"%char.
Definition LF : ascii := "010"%char.
Definition CRLF : string := String CR (String LF EmptyString).

Definition code (c : ascii) : Z := Z.of_nat (nat_of_ascii c).

Definition is_digit (c : ascii) : bool := (48 <=? code c) && (code c <=? 57).

Definition digit_val (c : ascii) : Z := code c - 48.

(** [str.isspace] on the code points below 256; it is the set that
    [str.lstrip()] removes. *)
Definition isspace (c : ascii) : bool :=
  let n := code c in
  ((9 <=? n) && (n <=? 13)) || ((28 <=? n) && (n <=? 32))
  || (n =? 133) || (n =? 160).

Fixpoint lstrip (s : string) : string :=
  match s with
  | String c s' => if isspace c then lstrip s' else s
  | EmptyString => EmptyString
  end.

Fixpoint forallb_str (p : ascii -> bool) (s : string) : bool :=
  match s with
  | String c s' => p c && forallb_str p s'
  | EmptyString => true
  end.

Definition is_ascii (s : string) : bool := forallb_str (fun c => code c <? 128) s.

(** ** Exceptions and results *)

Inductive exn : Set :=
| TimeoutError | ConnectionError
| UnknownCommandError | ChannelError | ParameterError | InvalidReplyError
| ValueError | PermissionError
| TypeError | OverflowError | UnicodeEncodeError | UnicodeDecodeError.

Inductive result (A : Type) : Type :=
| Ok (a : A)
| Raise (e : exn).
Arguments Ok {A} a.
Arguments Raise {A} e.

Declare Scope py_scope.
Delimit Scope py_scope with py.

(** ** The fragment of [re] the driver uses

    A backtracking matcher in continuation-passing style for the regular
    expressions of [__check_error] and [_parse_reply]: literal text, greedy
    bounded repetition of a character class, capture groups (never nested
    here), concatenation and [$]. *)

Module Re.

Inductive regex : Type :=
| Lit (s : string)
| Rep (p : ascii -> bool) (lo : nat) (hi : option nat)
| Grp (r : regex)
| Cat (r1 r2 : regex)
| Eol.

(** [lit l s]: what is left of [s] after the literal [l]. *)
Fixpoint lit (l s : string) : option string :=
  match l with
  | EmptyString => Some s
  | String a l' =>
      match s with
      | String c s' => if Ascii.eqb a c then lit l' s' else None
      | EmptyString => None
      end
  end.

(** Greedy repetition: take one more character when the class and the upper
    bound allow it and the rest of the pattern then matches; otherwise stop
    here, provided the lower bound is met. *)
Fixpoint rep {A} (p : ascii -> bool) (lo : nat) (hi : option nat) (s : string)
    (k : string -> option A) {struct s} : option A :=
  let stop := match lo with O => k s | S _ => None end in
  match hi, s with
  | Some O, _ => stop
  | _, String c s' =>
      if p c then
        match rep p (pred lo) (option_map pred hi) s' k with
        | Some r => Some r
        | None => stop
        end
      else stop
  | _, EmptyString => stop
  end.

(** [$] without [re.MULTILINE]: the end of the text, or just before a newline
    that ends the text. *)
Definition at_end (s : string) : bool :=
  match s with
  | EmptyString => true
  | String c EmptyString => Ascii.eqb c LF
  | _ => false
  end.

Fixpoint take (n : nat) (s : string) : string :=
  match n, s with
  | S n', String c s' => String c (take n' s')
  | _, _ => EmptyString
  end.

Fixpoint run {A} (r : regex) (s : string) (gs : list string)
    (k : string -> list string -> option A) : option A :=
  match r with
  | Lit l => match lit l s with Some s' => k s' gs | None => None end
  | Rep p lo hi => rep p lo hi s (fun s' => k s' gs)
  | Grp r1 =>
      run r1 s gs
        (fun s' gs' =>
           k s' (gs' ++ [take (String.length s - String.length s') s])%list)
  | Cat r1 r2 => run r1 s gs (fun s' gs' => run r2 s' gs' k)
  | Eol => if at_end s then k s gs else None
  end.

(** [re.match(r, s)]: match at the start of [s]; the groups of the match. *)
Definition re_match (r : regex) (s : string) : option (list string) :=
  run r s [] (fun _ gs => Some gs).

(** [m.group(i)] for [i >= 1]. *)
Definition group (m : list string) (i : nat) : string := nth (pred i) m "".

(** The class of [.]: any character but a newline. *)
Definition dot (c : ascii) : bool := negb (Ascii.eqb c LF).

End Re.

Import Re.

Declare Scope re_scope.
Delimit Scope re_scope with re.
Infix ">>" := Cat (at level 60, right associativity) : re_scope.

(** The pattern  #BD:[0-9]+,<what>:ERR\r\n$  of [__check_error]. *)
Definition err_pattern (what : string) : regex :=
  (Lit "#BD:" >> Rep is_digit 1 None >> Lit ("," ++ what ++ ":ERR" ++ CRLF) >> Eol)%re.

(** The pattern  #BD:([0-9]{2}),CMD:OK,VAL:(.* )\r\n  of [_parse_reply]
    (the second group is a greedy run of [.]). *)
Definition ok_pattern : regex :=
  (Lit "#BD:" >> Grp (Rep is_digit 2 (Some 2%nat)) >> Lit ",CMD:OK,VAL:"
   >> Grp (Rep dot 0 None) >> Lit CRLF)%re.

(** ** Python values and the built-in conversions the driver calls

    Floats are IEEE binary64 values in the Standard Library's [spec_float]
    (sign, mantissa, exponent); [int] is unbounded. *)

Inductive pyval : Type :=
| PyNone
| PyBool (b : bool)
| PyInt (z : Z)
| PyFloat (f : spec_float)
| PyStr (s : string).

Module Py.

Definition prec : Z := 53.
Definition emax : Z := 1024.

(** The white space [int] and [float] skip around a number: the ASCII white
    space, and the two other code points below 256 that are white space
    (next line and no-break space), which the conversion of a text first
    turns into blanks; the separators 28..31 are not skipped. *)
Definition c_isspace (c : ascii) : bool :=
  ((9 <=? code c) && (code c <=? 13)) || (code c =? 32)
  || (code c =? 133) || (code c =? 160).

Fixpoint lskip (s : string) : string :=
  match s with
  | String c s' => if c_isspace c then lskip s' else s
  | EmptyString => EmptyString
  end.

Fixpoint rskip (s : string) : string :=
  match s with
  | EmptyString => EmptyString
  | String c s' =>
      match rskip s' with
      | EmptyString => if c_isspace c then EmptyString else String c EmptyString
      | r => String c r
      end
  end.

Definition sign (s : string) : bool * string :=
  match s with
  | String "+" r => (false, r)
  | String "-" r => (true, r)
  | _ => (false, s)
  end.

(** A digit part: digits with single underscores allowed between two
    digits.  Returns the digits read and the text after them. *)
Fixpoint digitpart (s : string) : list Z * string :=
  match s with
  | String c s' =>
      if is_digit c then
        match s' with
        | String "_" s'' =>
            match s'' with
            | String d _ =>
                if is_digit d then
                  let (ds, r) := digitpart s'' in (digit_val c :: ds, r)
                else ([digit_val c], s')
            | EmptyString => ([digit_val c], s')
            end
        | _ => let (ds, r) := digitpart s' in (digit_val c :: ds, r)
        end
      else ([], s)
  | EmptyString => ([], s)
  end.

Definition of_digits (ds : list Z) : Z := fold_left (fun a d => 10 * a + d) ds 0.

(** The interpreter converts between integers and decimal text up to a
    number of digits, [sys.int_max_str_digits], 4300 unless it is set
    otherwise: [int] of a text with more digits and [str] of an integer with
    more digits raise ValueError.  Signs, underscores and white space do not
    count, leading zeros do. *)
Definition int_max_str_digits : Z := 4300.

(** [int(s)] for a text [s]; [None] stands for ValueError. *)
Definition int_of_str (s : string) : option Z :=
  let (neg, s1) := sign (rskip (lskip s)) in
  match digitpart s1 with
  | ((_ :: _) as ds, EmptyString) =>
      if Z.of_nat (List.length ds) <=? int_max_str_digits
      then Some (cond_Zopp neg (of_digits ds))
      else None
  | _ => None
  end.

(** The decimal numeral of an integer: the text [str(z)] returns, when it
    returns. *)
Definition str_int (z : Z) : string := NilZero.string_of_int (Z.to_int z).

(** [str(z)] returns for an integer whose numeral has at most
    [int_max_str_digits] digits, and raises ValueError for any other. *)
Definition printable (z : Z) : bool :=
  Z.of_nat (String.length (str_int (Z.abs z))) <=? int_max_str_digits.

(** The binary64 value nearest to [D * 10^k] (ties to even), signed. *)
Definition float_of_decimal (neg : bool) (D k : Z) : spec_float :=
  match D with
  | Zpos _ =>
      if 0 <=? k then
        binary_normalize prec emax (cond_Zopp neg (D * 10 ^ k)) 0 neg
      else
        let '(q, e, l) := SFdiv_core_binary prec emax D 0 (10 ^ (- k)) 0 in
        binary_round_aux prec emax neg q e l
  | _ => S754_zero neg
  end.

Definition lower (c : ascii) : ascii :=
  if (65 <=? code c) && (code c <=? 90) then ascii_of_nat (nat_of_ascii c + 32) else c.

Fixpoint lowercase (s : string) : string :=
  match s with
  | String c s' => String (lower c) (lowercase s')
  | EmptyString => EmptyString
  end.

(** The exponent of a float literal: nothing, or e/E, a sign and a digit
    part, up to the end of the text. *)
Definition exponent (s : string) : option Z :=
  match s with
  | EmptyString => Some 0
  | String c s' =>
      if Ascii.eqb (lower c) "e" then
        let (neg, s1) := sign s' in
        match digitpart s1 with
        | ((_ :: _) as ds, EmptyString) => Some (cond_Zopp neg (of_digits ds))
        | _ => None
        end
      else None
  end.

(** [float(s)] for a text [s]; [None] stands for ValueError. *)
Definition float_of_str (s : string) : option spec_float :=
  let (neg, s1) := sign (rskip (lskip s)) in
  let w := lowercase s1 in
  if String.eqb w "inf" || String.eqb w "infinity" then Some (S754_infinity neg)
  else if String.eqb w "nan" then Some S754_nan
  else
    let (ip, s2) := digitpart s1 in
    let (fp, s3) :=
      match s2 with
      | String "." r => digitpart r
      | _ => ([], s2)
      end in
    match (ip ++ fp)%list with
    | [] => None
    | ds =>
        match exponent s3 with
        | Some x => Some (float_of_decimal neg (of_digits ds) (x - Z.of_nat (List.length fp)))
        | None => None
        end
    end.

(** [float(z)] for an integer; [None] stands for OverflowError. *)
Definition float_of_int (z : Z) : option spec_float :=
  match binary_normalize prec emax z 0 false with
  | S754_infinity _ => None
  | f => Some f
  end.

(** Nearest integer to [num / den], ties to even ([den > 0]). *)
Definition round_half_even (num den : Z) : Z :=
  let q := num / den in
  match (2 * (num mod den)) ?= den with
  | Lt => q
  | Gt => q + 1
  | Eq => if Z.even q then q else q + 1
  end.

(** The number of tenths in [m * 2^e], correctly rounded. *)
Definition tenths (m : positive) (e : Z) : Z :=
  if 0 <=? e then Zpos m * 2 ^ e * 10
  else round_half_even (Zpos m * 10) (2 ^ (- e)).

Definition minus (s : bool) : string := if s then "-" else "".

(** The format [.1f] applied to a float. *)
Definition fixed1 (f : spec_float) : string :=
  match f with
  | S754_nan => "nan"
  | S754_infinity s => minus s ++ "inf"
  | S754_zero s => minus s ++ "0.0"
  | S754_finite s m e =>
      let n := tenths m e in
      minus s ++ str_int (n / 10) ++ "." ++ str_int (n mod 10)
  end.

(** The expression  {:.1f}.format(v) . *)
Definition format_1f (v : pyval) : result string :=
  let of_int z :=
    match float_of_int z with
    | Some f => Ok (fixed1 f)
    | None => Raise OverflowError
    end in
  match v with
  | PyFloat f => Ok (fixed1 f)
  | PyInt z => of_int z
  | PyBool b => of_int (if b then 1 else 0)
  | PyStr _ => Raise ValueError
  | PyNone => Raise TypeError
  end.

(** *** [repr] of a float: the shortest digits that read back as the same
    float, printed in fixed notation between 1e-4 and 1e16 and with an
    exponent outside. *)

(** [m * 2^e * 10^j] as a fraction. *)
Definition scaled (m : positive) (e j : Z) : Z * Z :=
  (Zpos m * (if 0 <=? e then 2 ^ e else 1) * (if 0 <=? j then 10 ^ j else 1),
   (if 0 <=? e then 1 else 2 ^ (- e)) * (if 0 <=? j then 1 else 10 ^ (- j))).

(** The decade of [m * 2^e]: the [k] with [10^k <= m * 2^e < 10^(k+1)],
    found from the binary logarithm and corrected by comparison. *)
Definition decade (m : positive) (e : Z) : Z :=
  let k0 := (Z.log2 (Zpos m) + e) * 30103 / 100000 in
  let ge j := let (n, d) := scaled m e (- j) in d <=? n in
  if ge (k0 + 1) then k0 + 1 else if ge k0 then k0 else k0 - 1.

Definition sf_eqb (x y : spec_float) : bool :=
  match x, y with
  | S754_zero a, S754_zero b => Bool.eqb a b
  | S754_infinity a, S754_infinity b => Bool.eqb a b
  | S754_nan, S754_nan => true
  | S754_finite a m e, S754_finite b n f => Bool.eqb a b && Pos.eqb m n && (e =? f)
  | _, _ => false
  end.

(** The [n]-digit decimal nearest to [m * 2^e] among those that read back
    as it, as an integer [c] and a scale [j]: the decimal is [c * 10^(-j)]. *)
Definition candidate (m : positive) (e : Z) (n : Z) : option (Z * Z) :=
  let j := n - 1 - decade m e in
  let (num, den) := scaled m e j in
  let lo := num / den in
  let r := num mod den in
  let back c := sf_eqb (float_of_decimal false c (- j)) (S754_finite false m e) in
  if r =? 0 then Some (lo, j)
  else
    match back lo, back (lo + 1) with
    | true, true =>
        match (2 * r) ?= den with
        | Lt => Some (lo, j)
        | Gt => Some (lo + 1, j)
        | Eq => Some (if Z.even lo then lo else lo + 1, j)
        end
    | true, false => Some (lo, j)
    | false, true => Some (lo + 1, j)
    | false, false => None
    end.

Fixpoint shortest (fuel : nat) (m : positive) (e : Z) (n : Z) : Z * Z :=
  match fuel with
  | O => let j := n - 1 - decade m e in
         let (num, den) := scaled m e j in (round_half_even num den, j)
  | S fuel' =>
      match candidate m e n with
      | Some c => c
      | None => shortest fuel' m e (n + 1)
      end
  end.

Fixpoint zeros (n : nat) : string :=
  match n with
  | O => EmptyString
  | S n' => String "0" (zeros n')
  end.

Fixpoint drop (n : nat) (s : string) : string :=
  match n, s with
  | S n', String _ s' => drop n' s'
  | _, _ => s
  end.

(** Remove the zeros that end a digit string. *)
Fixpoint rstrip0 (s : string) : string :=
  match s with
  | EmptyString => EmptyString
  | String c s' =>
      match rstrip0 s' with
      | EmptyString => if Ascii.eqb c "0" then EmptyString else String c EmptyString
      | r => String c r
      end
  end.

(** Lay out the digits [ds] of the value [0.ds * 10^decpt]. *)
Definition layout (ds : string) (decpt : Z) : string :=
  let len := Z.of_nat (String.length ds) in
  if (decpt <=? -4) || (16 <? decpt) then
    let x := decpt - 1 in
    let xs := str_int (Z.abs x) in
    match ds with
    | String c EmptyString => String c EmptyString
    | String c r => String c ("." ++ r)
    | EmptyString => EmptyString
    end
    ++ "e" ++ (if x <? 0 then "-" else "+")
    ++ (if (String.length xs <? 2)%nat then "0" ++ xs else xs)
  else if decpt <=? 0 then "0." ++ zeros (Z.to_nat (- decpt)) ++ ds
  else if len <=? decpt then ds ++ zeros (Z.to_nat (decpt - len)) ++ ".0"
  else Re.take (Z.to_nat decpt) ds ++ "." ++ drop (Z.to_nat decpt) ds.

Definition float_repr (f : spec_float) : string :=
  match f with
  | S754_nan => "nan"
  | S754_infinity s => minus s ++ "inf"
  | S754_zero s => minus s ++ "0.0"
  | S754_finite s m e =>
      let (c, j) := shortest 17 m e 1 in
      let ds := str_int c in
      minus s ++ layout (rstrip0 ds) (Z.of_nat (String.length ds) - j)
  end.

(** The text of [str(v)], which is also what an f-string inserts for [v];
    for an integer that is not [printable], [str] raises instead. *)
Definition str (v : pyval) : string :=
  match v with
  | PyNone => "None"
  | PyBool b => if b then "True" else "False"
  | PyInt z => str_int z
  | PyFloat f => float_repr f
  | PyStr s => s
  end.

(** [v == t] for a text [t]: only the same text is equal to it. *)
Definition eq_str (v : pyval) (t : string) : bool :=
  match v with
  | PyStr u => String.eqb u t
  | _ => false
  end.

(** The truth value of [v], as an [if] tests it. *)
Definition truthy (v : pyval) : bool :=
  match v with
  | PyNone => false
  | PyBool b => b
  | PyInt z => negb (z =? 0)
  | PyFloat (S754_zero _) => false
  | PyFloat _ => true
  | PyStr t => negb (String.eqb t "")
  end.

(** Encoding to, and decoding from, ASCII fail on a code point above 127. *)
Definition encode_ascii (s : string) : result string :=
  if is_ascii s then Ok s else Raise UnicodeEncodeError.

Definition decode_ascii (b : string) : result string :=
  if is_ascii b then Ok b else Raise UnicodeDecodeError.

(** [int(v)]: a text is parsed; a float is truncated towards zero; [None]
    is a TypeError. *)
Definition int (v : pyval) : result Z :=
  match v with
  | PyNone => Raise TypeError
  | PyBool b => Ok (if b then 1 else 0)
  | PyInt z => Ok z
  | PyFloat S754_nan => Raise ValueError
  | PyFloat (S754_infinity _) => Raise OverflowError
  | PyFloat (S754_zero _) => Ok 0
  | PyFloat (S754_finite s m e) =>
      Ok (cond_Zopp s (if 0 <=? e then Zpos m * 2 ^ e else Zpos m / 2 ^ (- e)))
  | PyStr t =>
      match int_of_str t with
      | Some z => Ok z
      | None => Raise ValueError
      end
  end.

End Py.


(** ** The reply decoder *)

(** The classes passed as [type_]. *)
Inductive pyclass : Set := Int | Float | Str.

(** [type_(text)]: the call of a class on a text. *)
Definition call (t : pyclass) (text : string) : result pyval :=
  match t with
  | Int => match Py.int_of_str text with
           | Some z => Ok (PyInt z)
           | None => Raise ValueError
           end
  | Float => match Py.float_of_str text with
             | Some f => Ok (PyFloat f)
             | None => Raise ValueError
             end
  | Str => Ok (PyStr text)
  end.

Definition matches (r : regex) (s : string) : bool :=
  match re_match r s with
  | Some _ => true
  | None => false
  end.

Definition __check_error (reply : string) : result unit :=
  if matches (err_pattern "CMD") reply then Raise UnknownCommandError
  else if matches (err_pattern "CH") reply then Raise ChannelError
  else if matches (err_pattern "PAR") reply then Raise ParameterError
  else if matches (err_pattern "VAL") reply then Raise ValueError
  else if matches (err_pattern "LOC") reply then Raise PermissionError
  else Ok tt.

Definition _parse_reply (reply : string) (type_ : option pyclass) : result pyval :=
  match __check_error reply with
  | Raise e => Raise e
  | Ok _ =>
      match re_match ok_pattern (lstrip reply) with
      | Some m =>
          match type_ with
          | Some t =>
              match call t (group m 2) with
              | Raise ValueError => Raise InvalidReplyError
              | r => r
              end
          | None => Ok (PyStr (group m 2))
          end
      | None => Ok PyNone
      end
  end.

(** ** The enumerations *)

Inductive ChannelStatus : Set :=
| OFF | ON | RAMPING_UP | RAMPING_DOWN | OVER_CURRENT | OVER_VOLTAGE
| UNDER_VOLTAGE | MAX_VOLTAGE | TRIPPED | OVER_POWERED | OVER_TEMPERATURE
| DISABLED | KILLED | INTERLOCKED | NO_CALIBRATION.

Module ChannelStatus_.

Definition value (s : ChannelStatus) : Z :=
  match s with
  | OFF => 0 | ON => 1 | RAMPING_UP => 2 | RAMPING_DOWN => 3
  | OVER_CURRENT => 4 | OVER_VOLTAGE => 5 | UNDER_VOLTAGE => 6
  | MAX_VOLTAGE => 7 | TRIPPED => 8 | OVER_POWERED => 9
  | OVER_TEMPERATURE => 10 | DISABLED => 11 | KILLED => 12
  | INTERLOCKED => 13 | NO_CALIBRATION => 14
  end.

(** The members in declaration order, as iteration over the class yields
    them. *)
Definition members : list ChannelStatus :=
  [OFF; ON; RAMPING_UP; RAMPING_DOWN; OVER_CURRENT; OVER_VOLTAGE;
   UNDER_VOLTAGE; MAX_VOLTAGE; TRIPPED; OVER_POWERED; OVER_TEMPERATURE;
   DISABLED; KILLED; INTERLOCKED; NO_CALIBRATION].

Definition is_OFF (s : ChannelStatus) : bool :=
  match s with OFF => true | _ => false end.

Definition eqb (a b : ChannelStatus) : bool := value a =? value b.

(** The loop of [_parse_state] over the members still to visit. *)
Fixpoint scan (state : Z) (todo : list ChannelStatus) : ChannelStatus :=
  match todo with
  | [] => OFF
  | s :: todo' =>
      if negb (is_OFF s) then
        if negb (Z.land state (Z.shiftl 1 (value s - 1)) =? 0) then s
        else scan state todo'
      else scan state todo'
  end.

Definition _parse_state (state : Z) : ChannelStatus := scan state (rev members).

End ChannelStatus_.

Inductive AlarmStatus : Set :=
| NO_ALARM | CHANNEL_0_ALARM | CHANNEL_1_ALARM | CHANNEL_2_ALARM
| CHANNEL_3_ALARM | BOARD_POWER_FAIL | BOARD_OVER_POWER | BOARD_HV_CLOCK_FAIL.

Module AlarmStatus_.

Definition value (a : AlarmStatus) : Z :=
  match a with
  | NO_ALARM => 0
  | CHANNEL_0_ALARM => Z.shiftl 1 0
  | CHANNEL_1_ALARM => Z.shiftl 1 1
  | CHANNEL_2_ALARM => Z.shiftl 1 2
  | CHANNEL_3_ALARM => Z.shiftl 1 3
  | BOARD_POWER_FAIL => Z.shiftl 1 4
  | BOARD_OVER_POWER => Z.shiftl 1 5
  | BOARD_HV_CLOCK_FAIL => Z.shiftl 1 6
  end.

Definition members : list AlarmStatus :=
  [NO_ALARM; CHANNEL_0_ALARM; CHANNEL_1_ALARM; CHANNEL_2_ALARM;
   CHANNEL_3_ALARM; BOARD_POWER_FAIL; BOARD_OVER_POWER; BOARD_HV_CLOCK_FAIL].

(** [AlarmStatus(z)]: the member whose value is [z]; a plain Enum has no
    member for any other number and raises ValueError. *)
Definition lookup (z : Z) : result AlarmStatus :=
  match find (fun a => value a =? z) members with
  | Some a => Ok a
  | None => Raise ValueError
  end.

End AlarmStatus_.

Inductive MonitoringRange : Set := LOW | HIGH.

Module MonitoringRange_.

Definition value (r : MonitoringRange) : string :=
  match r with LOW => "LOW" | HIGH => "HIGH" end.

(** [MonitoringRange(v)]: the member whose value is [v], else ValueError. *)
Definition lookup (v : pyval) : result MonitoringRange :=
  if Py.eq_str v "LOW" then Ok LOW
  else if Py.eq_str v "HIGH" then Ok HIGH
  else Raise ValueError.

End MonitoringRange_.

(** ** The facade and its exchange operation *)

(** The serial port, as far as the driver uses it: whether it is open, the
    byte strings written so far (oldest first) and the byte strings the
    coming calls of [readline] return.  A read that times out returns the
    empty byte string. *)
Record Serial : Type := {
  is_open : bool;
  written : list string;
  incoming : list string
}.

Definition write (c : Serial) (b : string) : Serial :=
  {| is_open := is_open c; written := (written c ++ [b])%list; incoming := incoming c |}.

Definition readline (c : Serial) : string * Serial :=
  match incoming c with
  | [] => (EmptyString, c)
  | l :: rest => (l, {| is_open := is_open c; written := written c; incoming := rest |})
  end.

Record Caen1471 : Type := {
  module : Z;
  connection : option Serial;
  _num_channels : Z;
  __busy : bool
}.

Definition set_busy (b : bool) (self : Caen1471) : Caen1471 :=
  {| module := module self; connection := connection self;
     _num_channels := _num_channels self; __busy := b |}.

Definition set_connection (c : Serial) (self : Caen1471) : Caen1471 :=
  {| module := module self; connection := Some c;
     _num_channels := _num_channels self; __busy := __busy self |}.

(** The constructor; [port] is the opened serial port, [None] when opening
    it fails. *)
Definition init (port : option Serial) (module num_channels : Z) : result Caen1471 :=
  match port with
  | Some c => Ok {| module := module; connection := Some c;
                    _num_channels := num_channels; __busy := false |}
  | None => Raise ConnectionError
  end.

Definition is_connected (self : Caen1471) : bool :=
  match connection self with
  | Some c => is_open c
  | None => false
  end.

Definition disconnect (self : Caen1471) : Caen1471 :=
  match connection self with
  | Some c =>
      set_connection {| is_open := false; written := written c; incoming := incoming c |} self
  | None => self
  end.

(** What one exchange sees of the world outside the facade: [time n] is the
    value of the [n]-th call of the clock during the exchange, in seconds
    (call 0 sets [start]); [others k] is a write to the busy flag by another
    thread that lands just before the [k]-th test of the loop condition.
    Clock values are rationals and their difference is exact. *)
Record Env : Type := {
  time : nat -> Q;
  others : nat -> option bool
}.

(** A single caller, whose clock advances by [dt] seconds per reading. *)
Definition alone (dt : Q) : Env :=
  {| time := fun n => (inject_Z (Z.of_nat n) * dt)%Q; others := fun _ => None |}.

(** The polling loop at the head of [_command], from its [k]-th test of the
    flag on.  [None]: the loop is still polling when the fuel runs out.
    Otherwise the outcome and the flag as last read. *)
Fixpoint wait (fuel : nat) (env : Env) (k : nat) (flag : bool)
    : option (result unit * bool) :=
  match fuel with
  | O => None
  | S fuel' =>
      let flag' := match others env k with Some b => b | None => flag end in
      if flag' then
        if negb (Qle_bool (time env (S k) - time env 0) 5)
        then Some (Raise TimeoutError, flag')
        else wait fuel' env (S k) flag'
      else Some (Ok tt, flag')
  end.

(** Whether the f-strings of [_command] can print what they insert: the
    module number, the channel when there is one, and the value.  Only an
    integer can fail to be printed; a text is inserted as it is, and a float
    and a boolean have a text of bounded length. *)
Definition prints (module : Z) (channel : option Z) (value : pyval) : bool :=
  Py.printable module
  && match channel with
     | Some ch => Py.printable ch
     | None => true
     end
  && match value with
     | PyInt z => Py.printable z
     | _ => true
     end.

(** The command line [_command] builds, when its f-strings print. *)
Definition cmd_string (module : Z) (cmd par : string) (channel : option Z)
    (value : pyval) : string :=
  "$BD:" ++ Py.str_int module ++ ",CMD:" ++ cmd
  ++ match channel with
     | Some ch => ",CH:" ++ Py.str_int ch
     | None => ""
     end
  ++ ",PAR:" ++ par
  ++ match value with
     | PyNone => ""
     | v => ",VAL:" ++ Py.str v
     end
  ++ CRLF.

(** A computation on the facade: it may still be polling when the fuel runs
    out ([None]); otherwise it returns or raises, and leaves a state. *)
Definition M (A : Type) : Type := Caen1471 -> option (result A * Caen1471).

Definition ret {A} (a : A) : M A := fun self => Some (Ok a, self).

Definition lift {A} (r : result A) : M A := fun self => Some (r, self).

Definition bindM {A B} (m : M A) (f : A -> M B) : M B :=
  fun self =>
    match m self with
    | None => None
    | Some (Raise e, self') => Some (Raise e, self')
    | Some (Ok a, self') => f a self'
    end.

Notation "x <~ m ;; k" := (bindM m (fun x => k))
  (at level 61, m at next level, right associativity) : py_scope.

(** A statement whose value is dropped, as in a setter. *)
Definition discard {A} (m : M A) : M unit := bindM m (fun _ => ret tt).

Local Open Scope py_scope.

Section Exchange.

Variable fuel : nat.
Variable env : Env.

Definition _command (cmd par : string) (channel : option Z) (value : pyval)
    (type_ : option pyclass) : M pyval :=
  fun self =>
    match wait fuel env 0 (__busy self) with
    | None => None
    | Some (Raise e, flag) => Some (Raise e, set_busy flag self)
    | Some (Ok _, _) =>
        let self := set_busy true self in
        match connection self with
        | Some c =>
            if is_open c then
              if prints (module self) channel value then
                match Py.encode_ascii (cmd_string (module self) cmd par channel value) with
                | Raise e => Some (Raise e, self)
                | Ok bytes =>
                    let (line, c') := readline (write c bytes) in
                    let self := set_connection c' self in
                    match Py.decode_ascii line with
                    | Raise e => Some (Raise e, self)
                    | Ok reply =>
                        match _parse_reply reply type_ with
                        | Raise e => Some (Raise e, self)
                        | Ok response => Some (Ok response, set_busy false self)
                        end
                    end
                end
              else Some (Raise ValueError, self)
            else Some (Raise ConnectionError, self)
        | None => Some (Raise ConnectionError, self)
        end
    end.

(** *** Module-level properties *)

Definition module_name : M pyval := _command "MON" "BDNAME" None PyNone None.

Definition firmware_release : M pyval := _command "MON" "BDFREL" None PyNone None.

Definition serial_number : M pyval := _command "MON" "BDSNUM" None PyNone None.

Definition interlock_status : M pyval := _command "MON" "BDILK" None PyNone None.

Definition interlock_mode : M pyval := _command "MON" "BDILKM" None PyNone None.

Definition set_interlock_mode (value : pyval) : M unit :=
  discard (_command "SET" "BDILKM" None value None).

Definition control_mode : M pyval := _command "MON" "BDCTR" None PyNone None.

Definition local_bus_termination : M pyval :=
  r <~ _command "MON" "BDTERM" None PyNone None ;;
  ret (PyBool (Py.eq_str r "ON")).

Definition alarm_status : M AlarmStatus :=
  r <~ _command "MON" "BDALARM" None PyNone None ;;
  z <~ lift (Py.int r) ;;
  lift (AlarmStatus_.lookup z).

Definition clear_alarm_status : M unit :=
  discard (_command "SET" "BDCLR" None PyNone None).

(** *** Channel properties.  A channel object holds its index and a
    reference to the facade; the facade is the state threaded here. *)

Definition voltage (channel : Z) : M pyval :=
  _command "MON" "VSET" (Some channel) PyNone (Some Float).

Definition set_voltage (channel : Z) (voltage : pyval) : M unit :=
  text <~ lift (Py.format_1f voltage) ;;
  discard (_command "SET" "VSET" (Some channel) (PyStr text) None).

Definition measured_voltage (channel : Z) : M pyval :=
  _command "MON" "VMON" (Some channel) PyNone (Some Float).

Definition measured_current (channel : Z) : M pyval :=
  _command "MON" "IMON" (Some channel) PyNone (Some Float).

Definition current_limit (channel : Z) : M pyval :=
  _command "MON" "ISET" (Some channel) PyNone (Some Float).

Definition set_current_limit (channel : Z) (current : pyval) : M unit :=
  text <~ lift (Py.format_1f current) ;;
  discard (_command "SET" "ISET" (Some channel) (PyStr text) None).

Definition imon_range (channel : Z) : M MonitoringRange :=
  r <~ _command "MON" "IMRANGE" (Some channel) PyNone None ;;
  lift (MonitoringRange_.lookup r).

Definition set_imon_range (channel : Z) (value : MonitoringRange) : M unit :=
  discard (_command "SET" "IMRANGE" (Some channel)
             (PyStr (MonitoringRange_.value value)) None).

Definition status (channel : Z) : M ChannelStatus :=
  r <~ _command "MON" "STAT" (Some channel) PyNone (Some Int) ;;
  match r with
  | PyInt state => ret (ChannelStatus_._parse_state state)
  | _ => lift (Raise TypeError)
  end.

Definition enabled (channel : Z) : M bool :=
  s <~ status channel ;;
  ret (ChannelStatus_.eqb s ON || ChannelStatus_.eqb s RAMPING_UP).

Definition set_enabled (channel : Z) (value : pyval) : M unit :=
  if Py.truthy value
  then discard (_command "SET" "ON" (Some channel) PyNone None)
  else discard (_command "SET" "OFF" (Some channel) PyNone None).

Definition trip_time (channel : Z) : M pyval :=
  _command "MON" "TRIP" (Some channel) PyNone (Some Float).

Definition set_trip_time (channel : Z) (time : pyval) : M unit :=
  discard (_command "SET" "TRIP" (Some channel) time None).

Definition voltage_limit (channel : Z) : M pyval :=
  _command "MON" "MAXV" (Some channel) PyNone (Some Float).

Definition set_voltage_limit (channel : Z) (limit : pyval) : M unit :=
  discard (_command "SET" "MAXV" (Some channel) limit None).

Definition ramp_down_rate (channel : Z) : M pyval :=
  _command "MON" "RDW" (Some channel) PyNone (Some Float).

Definition set_ramp_down_rate (channel : Z) (rate : pyval) : M unit :=
  discard (_command "SET" "RDW" (Some channel) rate None).

Definition ramp_up_rate (channel : Z) : M pyval :=
  _command "MON" "RUP" (Some channel) PyNone (Some Float).

Definition set_ramp_up_rate (channel : Z) (rate : pyval) : M unit :=
  discard (_command "SET" "RUP" (Some channel) rate None).

Definition power_down_mode (channel : Z) : M pyval :=
  _command "MON" "PDWN" (Some channel) PyNone None.

Definition set_power_down_mode (channel : Z) (use_ramp : pyval) : M unit :=
  discard (_command "SET" "PDWN" (Some channel) use_ramp None).

Definition polarity (channel : Z) : M pyval :=
  r <~ _command "MON" "POL" (Some channel) PyNone None ;;
  z <~ lift (Py.int (PyStr (Py.str r ++ "1"))) ;;
  ret (PyInt z).

End Exchange.

(** ** The request grammar of the specification

    Written from the words of the specification (its sections 4.1 and 6),
    not from the code: the request line
    [$BD:<module_id>,CMD:{MON|SET},[CH:<channel>,]PAR:<mnemonic>[,VAL:<value>]]
    followed by CR LF, read back into its fields.  This reader is not part of
    the driver; it is the grammar that [cmd_string] is compared with. *)

Module Grammar.

Inductive Operation : Set := MON | SET.

Definition name (op : Operation) : string :=
  match op with MON => "MON" | SET => "SET" end.

Record Command : Type := {
  module_id : Z;
  operation : Operation;
  channel : option Z;
  parameter : string;
  value : option string
}.

(** The characters a mnemonic or a value must not contain. *)
Definition delimiter (c : ascii) : bool :=
  Ascii.eqb c "," || Ascii.eqb c ":" || Ascii.eqb c CR || Ascii.eqb c LF.

Definition plain (s : string) : bool := forallb_str (fun c => negb (delimiter c)) s.

(** The longest prefix of characters in [p], and what follows it. *)
Fixpoint span (p : ascii -> bool) (s : string) : string * string :=
  match s with
  | String c s' =>
      if p c then let (a, r) := span p s' in (String c a, r) else (EmptyString, s)
  | EmptyString => (EmptyString, EmptyString)
  end.

Definition number (s : string) : option (Z * string) :=
  let (ds, r) := span is_digit s in
  match NilZero.uint_of_string ds with
  | Some d => Some (Z.of_uint d, r)
  | None => None
  end.

Definition field (s : string) : string * string :=
  span (fun c => negb (delimiter c)) s.

Definition op_of (s : string) : option Operation :=
  if String.eqb s "MON" then Some MON
  else if String.eqb s "SET" then Some SET
  else None.

Notation "'do' x <- m ; k" :=
  (match m with Some x => k | None => None end)
  (at level 10, x pattern, m at level 100, k at level 200, only parsing).

Definition parse (line : string) : option Command :=
  do s <- lit "$BD:" line ;
  do (m, s) <- number s ;
  do s <- lit ",CMD:" s ;
  let (o, s) := field s in
  do op <- op_of o ;
  do s <- lit "," s ;
  do (ch, s) <- match lit "CH:" s with
                | Some s' =>
                    do (n, s') <- number s' ;
                    do s' <- lit "," s' ;
                    Some (Some n, s')
                | None => Some (None, s)
                end ;
  do s <- lit "PAR:" s ;
  let (par, s) := field s in
  do (v, s) <- match lit ",VAL:" s with
               | Some s' => let (v, s') := field s' in Some (Some v, s')
               | None => Some (None, s)
               end ;
  if String.eqb s CRLF
  then Some {| module_id := m; operation := op; channel := ch;
               parameter := par; value := v |}
  else None.

End Grammar.

(** The value field of a request: absent for [None], else the text of the
    value. *)
Definition value_text (v : pyval) : option string :=
  match v with
  | PyNone => None
  | _ => Some (Py.str v)
  end.

(** A text of the form  [-]digits.digit : exactly one decimal digit. *)
Definition one_decimal (s : string) : bool :=
  let body := match s with String "-" r => r | _ => s end in
  let (ip, r) := Grammar.span is_digit body in
  match ip, r with
  | String _ _, String "." (String d EmptyString) => is_digit d
  | _, _ => false
  end.

(** ** Notions used in the statements *)

(** The order and the bits of the status word. *)
Module StatusWord.
Import ChannelStatus_.

(** The statuses other than OFF, most significant first: the order in which
    [_parse_state] tests them. *)
Definition priority : list ChannelStatus :=
  rev (filter (fun s => negb (is_OFF s)) members).

(** The bit of the status word that reports status [s]. *)
Definition bit (state : Z) (s : ChannelStatus) : bool :=
  Z.testbit state (value s - 1).

End StatusWord.

(** The float 123.4: the binary64 value nearest to 1234e-1, which prints
    back as 123.4. *)
Definition f123_4 : spec_float := S754_finite false 8683503031523738 (-46).

(** The exchange finds the busy flag clear (at once, or after polling). *)
Definition acquires (fuel : nat) (env : Env) (self : Caen1471) : Prop :=
  wait fuel env 0 (__busy self) = Some (Ok tt, false).

(** The facade after an exchange that wrote [line] to the port [c] and read
    one line from it; [flag] is the busy flag it leaves. *)
Definition exchanged (self : Caen1471) (c : Serial) (line : string)
    (flag : bool) : Caen1471 :=
  {| module := module self;
     connection := Some (snd (readline (write c line)));
     _num_channels := _num_channels self;
     __busy := flag |}.

(** The clock reading taken in the [k]-th round of the loop is more than
    five seconds after [start]. *)
Definition expired (env : Env) (k : nat) : bool :=
  negb (Qle_bool (time env (S k) - time env 0) 5).

(** The busy flag as the [k]-th test of the loop reads it: the flag at the
    time of the call, or what the last write of another thread that landed
    before one of the tests 0..k made of it. *)
Fixpoint seen (env : Env) (flag : bool) (k : nat) : bool :=
  match others env k with
  | Some b => b
  | None =>
      match k with
      | O => flag
      | S k' => seen env flag k'
      end
  end.

(** The float a number is formatted as, and whether it is finite: an integer
    or boolean within the range of floats, or a float other than inf and
    nan. *)
Definition as_float (v : pyval) : option spec_float :=
  match v with
  | PyFloat f => Some f
  | PyInt z => Py.float_of_int z
  | PyBool b => Py.float_of_int (if b then 1 else 0)
  | _ => None
  end.

Definition finite (v : pyval) : bool :=
  match as_float v with
  | Some (S754_finite _ _ _) | Some (S754_zero _) => true
  | _ => false
  end.

(** The line a formatted write sends. *)
Definition set_line (module channel : Z) (par text : string) : string :=
  "$BD:" ++ Py.str_int module ++ ",CMD:SET,CH:" ++ Py.str_int channel
  ++ ",PAR:" ++ par ++ ",VAL:" ++ text ++ CRLF.

(** A facade on an open port that will deliver the lines [lines]. *)
Definition bench (lines : list string) : Caen1471 :=
  {| module := 0;
     connection := Some {| is_open := true; written := []; incoming := lines |};
     _num_channels := 4;
     __busy := false |}.

(** What a computation wrote to the port of the facade it leaves. *)
Definition sent {A} (r : option (result A * Caen1471)) : list string :=
  match r with
  | Some (_, self) =>
      match connection self with
      | Some c => written c
      | None => []
      end
  | None => []
  end.

(** The VAL field of a request line, read with the grammar. *)
Definition val_field (line : string) : option string :=
  match Grammar.parse line with
  | Some c => Grammar.value c
  | None => None
  end.

(** The exception each error mnemonic of a reply stands for. *)
Definition error_table : list (string * exn) :=
  [("CMD", UnknownCommandError); ("CH", ChannelError); ("PAR", ParameterError);
   ("VAL", ValueError); ("LOC", PermissionError)].

(** An error frame: the module number [ds], the mnemonic, ERR and CR LF. *)
Definition err_frame (ds what : string) : string :=
  "#BD:" ++ ds ++ "," ++ what ++ ":ERR" ++ CRLF.

(** A success frame with its payload, and the text that follows it. *)
Definition ok_frame (d1 d2 : ascii) (payload rest : string) : string :=
  "#BD:" ++ String d1 (String d2 (",CMD:OK,VAL:" ++ payload ++ CRLF ++ rest)).

(** An acknowledgement: a success frame without a VAL field. *)
Definition ack_frame (d1 d2 : ascii) : string :=
  "#BD:" ++ String d1 (String d2 (",CMD:OK" ++ CRLF)).

(** The line of a write to a channel that carries no value. *)
Definition bare_line (module channel : Z) (par : string) : string :=
  "$BD:" ++ Py.str_int module ++ ",CMD:SET,CH:" ++ Py.str_int channel
  ++ ",PAR:" ++ par ++ CRLF.

(** The float that the one-decimal text of [f] denotes: the float nearest
    to [f] rounded to tenths; infinities, nan and zeros are kept. *)
Definition rounded1 (f : spec_float) : spec_float :=
  match f with
  | S754_finite s m e => Py.float_of_decimal s (Py.tenths m e) (-1)
  | _ => f
  end.

(** The values of the digits of a digit string. *)
Fixpoint digit_vals (s : string) : list Z :=
  match s with
  | String c s' => digit_val c :: digit_vals s'
  | EmptyString => []
  end.

(** The values an [if] takes for true: every value but None, False, the
    integer zero, a float zero and the empty text. *)
Definition counts_as_true (v : pyval) : Prop :=
  match v with
  | PyNone => False
  | PyBool b => b = true
  | PyInt z => z <> 0
  | PyFloat (S754_zero _) => False
  | PyFloat _ => True
  | PyStr t => t <> ""
  end.

(** The number a digit string writes. *)
Definition decimal (ds : string) : Z :=
  fold_left (fun a d => 10 * a + d) (digit_vals ds) 0.

(** The outcome of an exchange that gets the channel on an open port: [k]
    when the f-strings print the module number, the channel and the value,
    and otherwise ValueError, raised before anything is written, with the
    busy flag left set. *)
Definition unless_refused {A} (self : Caen1471) (channel : option Z)
    (value : pyval) (k : result A * Caen1471) : result A * Caen1471 :=
  if prints (module self) channel value then k
  else (Raise ValueError, set_busy true self).

(** The lines written to the port [c] once such an exchange has sent
    [line], or was refused. *)
Definition written_after (self : Caen1471) (channel : option Z) (value : pyval)
    (c : Serial) (line : string) : list string :=
  if prints (module self) channel value then (written c ++ [line])%list
  else written c.

(** The white space [int] and [float] skip around a number, by code
    point: tab to carriage return, the blank, next line and the no-break
    space. *)
Definition blank (c : ascii) : bool :=
  existsb (Z.eqb (code c)) [9; 10; 11; 12; 13; 32; 133; 160].

Definition one_of (set : string) (c : ascii) : bool :=
  existsb (Ascii.eqb c) (list_ascii_of_string set).

(** The characters an integer literal is made of: digits, a sign, the
    underscore that may separate digits, and white space around. *)
Definition int_char (c : ascii) : bool :=
  is_digit c || one_of "+-_" c || blank c.

(** The characters a float literal is made of: those of a decimal number
    with an exponent, and the letters of inf, infinity and nan. *)
Definition float_char (c : ascii) : bool :=
  is_digit c || one_of "+-_.eEinftyaINFTYA" c || blank c.

(** The sign in front of a number: nothing, + or -. *)
Definition negative (sg : string) : bool := String.eqb sg "-".

Definition signed (sg : string) (n : Z) : Z := if negative sg then - n else n.

(** [f] is a binary64 number nearest to the fraction [num / den], for a
    positive [f] in the normal range below 2^53: its mantissa has 53 bits
    and it is within half a unit in the last place of the fraction. *)
Definition nearest (num den : Z) (f : spec_float) : Prop :=
  match f with
  | S754_finite false m e =>
      2 ^ 52 <= Z.pos m < 2 ^ 53 /\ e < 0
      /\ 2 * Z.abs (den * Z.pos m - num * 2 ^ (- e)) <= den
  | _ => False
  end.

(** * Properties *)

(** ** Text lemmas *)

Lemma append_assoc (a b c : string) : (a ++ b) ++ c = a ++ (b ++ c).
Proof. induction a as [|x a IH]; simpl; [reflexivity | now rewrite IH]. Qed.

Lemma length_append (a b : string) :
  String.length (a ++ b) = (String.length a + String.length b)%nat.
Proof. induction a as [|x a IH]; simpl; [reflexivity | now rewrite IH]. Qed.

Lemma forallb_str_app p a b :
  forallb_str p (a ++ b) = forallb_str p a && forallb_str p b.
Proof.
  induction a as [|x a IH]; simpl; [reflexivity|].
  now rewrite IH, andb_assoc.
Qed.

Lemma lit_app l r : lit l (l ++ r) = Some r.
Proof.
  induction l as [|a l IH]; simpl; [reflexivity|].
  now rewrite Ascii.eqb_refl.
Qed.

Lemma lit_inv l s r : lit l s = Some r -> s = l ++ r.
Proof.
  revert s; induction l as [|a l IH]; simpl; intros s H.
  - now inversion H.
  - destruct s as [|c s]; [discriminate|].
    destruct (Ascii.eqb_spec a c) as [->|]; [|discriminate].
    now rewrite (IH _ H).
Qed.

Lemma take_prefix a b :
  take (String.length (a ++ b) - String.length b) (a ++ b) = a.
Proof.
  rewrite length_append.
  replace (String.length a + String.length b - String.length b)%nat
    with (String.length a) by lia.
  induction a as [|x a IH]; simpl.
  - now destruct b.
  - now rewrite IH.
Qed.

(** A character is a digit exactly when it is one of the ten. *)
Lemma is_digit_cases c :
  is_digit c = true ->
  (c = "0" \/ c = "1" \/ c = "2" \/ c = "3" \/ c = "4" \/
   c = "5" \/ c = "6" \/ c = "7" \/ c = "8" \/ c = "9")%char.
Proof.
  destruct c as [[|] [|] [|] [|] [|] [|] [|] [|]]; cbv; intros H;
    try discriminate; tauto.
Qed.

Lemma span_app p a r :
  forallb_str p a = true ->
  match r with String c _ => p c = false | EmptyString => True end ->
  Grammar.span p (a ++ r) = (a, r).
Proof.
  intros Ha Hr. induction a as [|x a IH]; simpl in *.
  - destruct r as [|c r]; [reflexivity|]. simpl. now rewrite Hr.
  - apply andb_true_iff in Ha as [Hx Ha]. now rewrite Hx, (IH Ha).
Qed.

(** ** Decimal numerals *)

Lemma digits_of_uint d : forallb_str is_digit (NilEmpty.string_of_uint d) = true.
Proof. induction d; simpl; auto. Qed.

Lemma digits_of_uint0 d : forallb_str is_digit (NilZero.string_of_uint d) = true.
Proof. destruct d; try apply (digits_of_uint (_ _)); reflexivity. Qed.

Lemma nonempty_of_uint0 d : NilZero.string_of_uint d <> "".
Proof. destruct d; simpl; discriminate. Qed.

(** The numeral of a natural number: digits only, and read back exactly. *)
Lemma str_int_nonneg z :
  0 <= z ->
  exists d, Py.str_int z = NilZero.string_of_uint d /\ d <> Decimal.Nil /\ Z.of_uint d = z.
Proof.
  intros Hz. destruct z as [|p|p]; [| |lia].
  - exists (Decimal.D0 Decimal.Nil). repeat split; discriminate.
  - exists (Pos.to_uint p). repeat split.
    + apply DecimalPos.Unsigned.to_uint_nonnil.
    + unfold Z.of_uint. now rewrite DecimalPos.Unsigned.of_to.
Qed.

Lemma number_str_int z r :
  0 <= z ->
  match r with String c _ => is_digit c = false | EmptyString => True end ->
  Grammar.number (Py.str_int z ++ r) = Some (z, r).
Proof.
  intros Hz Hr. destruct (str_int_nonneg z Hz) as (d & -> & Hd & <-).
  unfold Grammar.number.
  rewrite (span_app _ _ _ (digits_of_uint0 d) Hr).
  now rewrite (NilZero.usu d Hd).
Qed.

Lemma is_ascii_str_int z : is_ascii (Py.str_int z) = true.
Proof.
  assert (H : forall d, is_ascii (NilEmpty.string_of_uint d) = true)
    by (induction d; simpl; auto).
  assert (H0 : forall d, is_ascii (NilZero.string_of_uint d) = true)
    by (destruct d; try apply (H (_ _)); reflexivity).
  unfold Py.str_int. destruct z; simpl; auto.
  unfold is_ascii; simpl. apply H0.
Qed.

Lemma digit_not_underscore c s (X Y : list Z * string) :
  is_digit c = true ->
  match String c s with
  | String "_" _ => X
  | _ => Y
  end = Y.
Proof.
  intros H. apply is_digit_cases in H.
  repeat (destruct H as [->|H]); try subst c; reflexivity.
Qed.

(** A digit part without underscores, up to the end or up to a dot. *)
Lemma digitpart_digits D rest :
  forallb_str is_digit D = true ->
  rest = "" \/ (exists t, rest = String "." t) ->
  Py.digitpart (D ++ rest) = (digit_vals D, rest).
Proof.
  intros HD Hrest. induction D as [|c D IH].
  - destruct Hrest as [->|(t & ->)]; reflexivity.
  - simpl in HD. apply andb_true_iff in HD as [Hc HD].
    specialize (IH HD).
    cbn [append digit_vals Py.digitpart]. rewrite Hc.
    destruct D as [|c' D'].
    + cbn [append] in *. destruct Hrest as [->|(t & ->)]; reflexivity.
    + cbn [append] in *.
      assert (Hc' : is_digit c' = true)
        by (simpl in HD; now apply andb_true_iff in HD).
      apply is_digit_cases in Hc'.
      repeat (destruct Hc' as [->|Hc']); try subst c'; now rewrite IH.
Qed.

Lemma of_digits_app ds d : Py.of_digits (ds ++ [d]) = 10 * Py.of_digits ds + d.
Proof. unfold Py.of_digits. now rewrite fold_left_app. Qed.

(** Evaluate the value of a digit that is written out. *)
Ltac eval_digit :=
  match goal with
  | |- context [digit_val ?c] =>
      let v := eval vm_compute in (digit_val c) in change (digit_val c) with v
  end.

Lemma fold_digits_uint d :
  forall acc,
    fold_left (fun a x => 10 * a + x) (digit_vals (NilEmpty.string_of_uint d)) (Z.pos acc)
    = Z.pos (Pos.of_uint_acc d acc).
Proof.
  induction d; intros acc;
    cbn [NilEmpty.string_of_uint digit_vals fold_left Pos.of_uint_acc];
    try reflexivity;
    rewrite <- IHd; f_equal; eval_digit; lia.
Qed.

Lemma of_digits_uint d :
  Py.of_digits (digit_vals (NilEmpty.string_of_uint d)) = Z.of_uint d.
Proof.
  unfold Py.of_digits, Z.of_uint.
  induction d; cbn [NilEmpty.string_of_uint digit_vals fold_left Pos.of_uint];
    try reflexivity; eval_digit;
    try exact IHd;
    cbn [Z.of_N]; rewrite <- fold_digits_uint; reflexivity.
Qed.

Lemma of_digits_str_int z :
  0 <= z -> Py.of_digits (digit_vals (Py.str_int z)) = z.
Proof.
  intros Hz. destruct (str_int_nonneg z Hz) as (d & -> & Hd & <-).
  destruct d; try contradiction; apply (of_digits_uint (_ _)).
Qed.

Lemma str_int_chars (P : ascii -> bool) z :
  (forall c, is_digit c = true -> P c = true) -> P "-"%char = true ->
  forallb_str P (Py.str_int z) = true.
Proof.
  intros Hd Hm.
  assert (H : forall d, forallb_str P (NilEmpty.string_of_uint d) = true)
    by (induction d; simpl; rewrite ?IHd, ?Hd; reflexivity).
  assert (H0 : forall d, forallb_str P (NilZero.string_of_uint d) = true)
    by (destruct d; try apply (H (_ _)); simpl; now rewrite Hd).
  unfold Py.str_int. destruct z; simpl; rewrite ?Hm; try apply H0.
  now rewrite Hd.
Qed.

Lemma skip_nothing s :
  forallb_str (fun c => negb (Py.c_isspace c)) s = true ->
  Py.rskip (Py.lskip s) = s.
Proof.
  intros H.
  assert (L : Py.lskip s = s).
  { destruct s as [|c s]; [reflexivity|]. simpl in *.
    apply andb_true_iff in H as [Hc _]. apply negb_true_iff in Hc.
    now rewrite Hc. }
  rewrite L. induction s as [|c s IH]; [reflexivity|].
  simpl in H. apply andb_true_iff in H as [Hc H]. apply negb_true_iff in Hc.
  cbn [Py.rskip]. rewrite IH.
  - destruct s; [now rewrite Hc | reflexivity].
  - exact H.
  - destruct s as [|d s]; [reflexivity|]. simpl in *.
    apply andb_true_iff in H as [Hd _]. apply negb_true_iff in Hd.
    now rewrite Hd.
Qed.

Lemma digit_not_space c : is_digit c = true -> negb (Py.c_isspace c) = true.
Proof.
  intros H. apply is_digit_cases in H.
  repeat (destruct H as [->|H]); try subst c; reflexivity.
Qed.

(** ** The command encoder against the request grammar *)

Lemma plain_name op : Grammar.plain (Grammar.name op) = true.
Proof. now destruct op. Qed.

Lemma op_of_name op : Grammar.op_of (Grammar.name op) = Some op.
Proof. now destruct op. Qed.

Lemma field_app a r :
  Grammar.plain a = true ->
  match r with String c _ => Grammar.delimiter c = true | EmptyString => True end ->
  Grammar.field (a ++ r) = (a, r).
Proof.
  intros Ha Hr. apply span_app; [exact Ha|].
  destruct r; [exact I | now rewrite Hr].
Qed.

(** The line built by [cmd_string], with the value part written with
    [value_text]. *)
Lemma cmd_string_shape module cmd par channel value :
  cmd_string module cmd par channel value =
  "$BD:" ++ Py.str_int module ++ ",CMD:" ++ cmd
  ++ match channel with Some ch => ",CH:" ++ Py.str_int ch | None => "" end
  ++ ",PAR:" ++ par
  ++ match value_text value with Some t => ",VAL:" ++ t | None => "" end
  ++ CRLF.
Proof. unfold cmd_string. now destruct value. Qed.

(** Reading back a built line, for any module and channel numbers that are
    not negative. *)
Lemma parse_cmd_string module op par channel value :
  0 <= module ->
  match channel with Some ch => 0 <= ch | None => True end ->
  Grammar.plain par = true ->
  match value_text value with Some t => Grammar.plain t = true | None => True end ->
  Grammar.parse (cmd_string module (Grammar.name op) par channel value)
  = Some {| Grammar.module_id := module; Grammar.operation := op;
            Grammar.channel := channel; Grammar.parameter := par;
            Grammar.value := value_text value |}.
Proof.
  intros Hm Hch Hpar Hval. rewrite cmd_string_shape.
  unfold Grammar.parse.
  rewrite lit_app, number_str_int by (trivial; reflexivity).
  rewrite lit_app.
  rewrite field_app; [| apply plain_name | now destruct channel].
  rewrite op_of_name.
  assert (Htail : forall s0,
    (let (par0, s) := Grammar.field (par ++
        match value_text value with Some t => ",VAL:" ++ t | None => "" end ++ CRLF) in
     match
       match lit ",VAL:" s with
       | Some s' => let (v, s'0) := Grammar.field s' in Some (Some v, s'0)
       | None => Some (None, s)
       end
     with
     | Some (v, s1) =>
         if (s1 =? CRLF)%string
         then Some {| Grammar.module_id := module; Grammar.operation := op;
                      Grammar.channel := s0; Grammar.parameter := par0;
                      Grammar.value := v |}
         else None
     | None => None
     end)
    = Some {| Grammar.module_id := module; Grammar.operation := op;
              Grammar.channel := s0; Grammar.parameter := par;
              Grammar.value := value_text value |}).
  { intros s0. rewrite field_app; [| exact Hpar | now destruct (value_text value)].
    destruct (value_text value) as [t|].
    - rewrite append_assoc, lit_app.
      rewrite field_app by (trivial; reflexivity). reflexivity.
    - reflexivity. }
  destruct channel as [ch|].
  - rewrite append_assoc.
    cbn [lit append Ascii.eqb Bool.eqb].
    rewrite number_str_int by (trivial; reflexivity).
    cbn [lit append Ascii.eqb Bool.eqb]. apply Htail.
  - cbn [lit append Ascii.eqb Bool.eqb]. apply Htail.
Qed.

(** C5: for a module number in 0..99, an operation MON or SET, an optional
    channel in 0..3, and a mnemonic and an optional value free of the
    delimiters (comma, colon, CR, LF), the command line is
    [$BD:<module_id>,CMD:<operation>[,CH:<channel>],PAR:<parameter>[,VAL:<value>]]
    followed by CR LF, in this order, with no CH field without a channel and
    no VAL field without a value; and reading the line with the grammar
    gives back the same fields. *)
Theorem cmd_string_roundtrip
    (module_id : Z) (op : Grammar.Operation) (par : string)
    (channel : option Z) (value : pyval) :
  0 <= module_id <= 99 ->
  match channel with Some ch => 0 <= ch <= 3 | None => True end ->
  Grammar.plain par = true ->
  match value_text value with Some t => Grammar.plain t = true | None => True end ->
  cmd_string module_id (Grammar.name op) par channel value =
    "$BD:" ++ Py.str_int module_id ++ ",CMD:" ++ Grammar.name op
    ++ match channel with Some ch => ",CH:" ++ Py.str_int ch | None => "" end
    ++ ",PAR:" ++ par
    ++ match value_text value with Some t => ",VAL:" ++ t | None => "" end
    ++ CRLF
  /\ Grammar.parse (cmd_string module_id (Grammar.name op) par channel value)
     = Some {| Grammar.module_id := module_id; Grammar.operation := op;
               Grammar.channel := channel; Grammar.parameter := par;
               Grammar.value := value_text value |}.
Proof.
  intros Hm Hch Hpar Hval. split.
  - apply cmd_string_shape.
  - apply parse_cmd_string; trivial; [lia | destruct channel; [lia | exact I]].
Qed.

Lemma cmd_string_roundtrip_witness :
  Grammar.parse (cmd_string 7 "SET" "VSET" (Some 3) (PyStr "12.5"))
  = Some {| Grammar.module_id := 7; Grammar.operation := Grammar.SET;
            Grammar.channel := Some 3; Grammar.parameter := "VSET";
            Grammar.value := Some "12.5" |}.
Proof.
  apply (cmd_string_roundtrip 7 Grammar.SET "VSET" (Some 3) (PyStr "12.5"));
    simpl; try reflexivity; lia.
Defined.

(** ** Decoding the channel status word *)

(** The test [state & (1 << k)] of the source is the test of bit [k]. *)
Lemma land_bit (a k : Z) :
  0 <= k -> negb (Z.land a (Z.shiftl 1 k) =? 0) = Z.testbit a k.
Proof.
  intros Hk. rewrite Z.shiftl_1_l.
  destruct (Z.testbit a k) eqn:Hb.
  - assert (H : Z.land a (2 ^ k) = 2 ^ k).
    { apply Z.bits_inj'. intros n Hn.
      rewrite Z.land_spec, (Z.pow2_bits_eqb k n Hk).
      destruct (Z.eqb_spec k n) as [->|]; [now rewrite Hb | apply andb_false_r]. }
    rewrite H. apply negb_true_iff, Z.eqb_neq.
    pose proof (Z.pow_pos_nonneg 2 k). lia.
  - assert (H : Z.land a (2 ^ k) = 0).
    { apply Z.bits_inj'. intros n Hn.
      rewrite Z.land_spec, (Z.pow2_bits_eqb k n Hk), Z.bits_0.
      destruct (Z.eqb_spec k n) as [->|]; [now rewrite Hb | apply andb_false_r]. }
    now rewrite H.
Qed.

Lemma scan_find state todo :
  (forall s, In s todo -> ChannelStatus_.is_OFF s = false ->
             0 <= ChannelStatus_.value s - 1) ->
  ChannelStatus_.scan state todo =
  match find (StatusWord.bit state)
          (filter (fun s => negb (ChannelStatus_.is_OFF s)) todo) with
  | Some s => s
  | None => OFF
  end.
Proof.
  induction todo as [|s todo IH]; intros Hv; [reflexivity|].
  simpl. destruct (ChannelStatus_.is_OFF s) eqn:Hoff; simpl.
  - apply IH. intros; apply Hv; simpl; auto.
  - rewrite land_bit by (apply Hv; simpl; auto). unfold StatusWord.bit at 1.
    destruct (Z.testbit state (ChannelStatus_.value s - 1)); [reflexivity|].
    apply IH. intros; apply Hv; simpl; auto.
Qed.

(** C6: for every status word, [_parse_state] goes through the statuses
    other than OFF in reverse declaration order, NO_CALIBRATION first, and
    returns the first one whose bit [value - 1] is set, and OFF when none is;
    so 0 gives OFF, and a word with the bits of OVER_CURRENT and TRIPPED set
    (and no bit of a later status) gives TRIPPED. *)
Theorem parse_state_priority :
  hd_error StatusWord.priority = Some NO_CALIBRATION
  /\ (forall state : Z,
        ChannelStatus_._parse_state state =
        match find (StatusWord.bit state) StatusWord.priority with
        | Some s => s
        | None => OFF
        end)
  /\ ChannelStatus_._parse_state 0 = OFF
  /\ ChannelStatus_._parse_state (Z.lor (Z.shiftl 1 3) (Z.shiftl 1 7)) = TRIPPED
  /\ (forall state : Z,
        StatusWord.bit state OVER_CURRENT = true ->
        StatusWord.bit state TRIPPED = true ->
        (forall s, ChannelStatus_.value TRIPPED < ChannelStatus_.value s ->
                   StatusWord.bit state s = false) ->
        ChannelStatus_._parse_state state = TRIPPED).
Proof.
  assert (Hall : forall state : Z,
            ChannelStatus_._parse_state state =
            match find (StatusWord.bit state) StatusWord.priority with
            | Some s => s
            | None => OFF
            end).
  { intros state. unfold ChannelStatus_._parse_state.
    rewrite scan_find.
    - reflexivity.
    - intros s _ Hs. destruct s; simpl; try lia; discriminate. }
  split; [reflexivity|]. split; [exact Hall|].
  split; [reflexivity|]. split; [reflexivity|].
  intros state _ Htrip Hhigh. rewrite Hall.
  unfold StatusWord.priority; simpl.
  rewrite !Hhigh by (simpl; lia). now rewrite Htrip.
Qed.

Lemma parse_state_priority_witness :
  ChannelStatus_._parse_state 136 = TRIPPED.
Proof.
  apply (proj2 (proj2 (proj2 (proj2 parse_state_priority))) 136).
  - reflexivity.
  - reflexivity.
  - intros s Hs. destruct s; simpl in Hs; try lia; reflexivity.
Defined.

(** ** The reply patterns *)

Lemma rep_done {A} p s (k : string -> option A) : rep p 0 (Some 0%nat) s k = k s.
Proof. now destruct s. Qed.

(** Exactly two characters of the class. *)
Lemma rep_two {A} p d1 d2 s (k : string -> option A) :
  p d1 = true -> p d2 = true ->
  rep p 2 (Some 2%nat) (String d1 (String d2 s)) k = k s.
Proof.
  intros H1 H2. simpl. rewrite H1, H2, rep_done. now destruct (k s).
Qed.

Lemma rep_two_inv {A} p s (k : string -> option A) r :
  rep p 2 (Some 2%nat) s k = Some r ->
  exists d1 d2 s', s = String d1 (String d2 s') /\ p d1 = true /\ p d2 = true
                   /\ k s' = Some r.
Proof.
  destruct s as [|d1 [|d2 s']]; simpl; try discriminate.
  - destruct (p d1); discriminate.
  - destruct (p d1) eqn:H1; [|discriminate].
    destruct (p d2) eqn:H2; [|discriminate].
    rewrite rep_done. destruct (k s') eqn:Hk; [|discriminate].
    intros [= <-]. now exists d1, d2, s'.
Qed.

(** A greedy run of [.] in front of CR LF stops right before that CR LF,
    when the rest of the pattern starts with the literal CR LF. *)
Lemma rep_dot_crlf {A} payload rest (k : string -> option A) :
  forallb_str dot payload = true ->
  (forall s, lit CRLF s = None -> k s = None) ->
  rep dot 0 None (payload ++ CRLF ++ rest) k = k (CRLF ++ rest).
Proof.
  intros Hp Hk. induction payload as [|c payload IH].
  - simpl. rewrite (Hk (String LF rest)) by reflexivity. reflexivity.
  - simpl in Hp. apply andb_true_iff in Hp as [Hc Hp].
    change (rep dot 0 None ((String c payload) ++ CRLF ++ rest) k)
      with (if dot c
            then match rep dot 0 None (payload ++ CRLF ++ rest) k with
                 | Some r => Some r
                 | None => k (String c (payload ++ CRLF ++ rest))
                 end
            else k (String c (payload ++ CRLF ++ rest))).
    rewrite Hc, (IH Hp).
    destruct (k (CRLF ++ rest)) eqn:E; [reflexivity|].
    apply Hk.
    change (lit CRLF (String c (payload ++ CRLF ++ rest)))
      with (if Ascii.eqb CR c
            then lit (String LF "") (payload ++ CRLF ++ rest) else None).
    destruct (Ascii.eqb CR c); [|reflexivity].
    destruct payload as [|d payload]; [reflexivity|].
    simpl in Hp. apply andb_true_iff in Hp as [Hd _].
    unfold dot in Hd. apply negb_true_iff in Hd.
    change (lit (String LF "") (String d payload ++ CRLF ++ rest))
      with (if Ascii.eqb LF d then Some (payload ++ CRLF ++ rest) else None).
    now rewrite Ascii.eqb_sym, Hd.
Qed.

(** The lines the success pattern matches, and the groups it yields. *)
Lemma ok_pattern_match d1 d2 payload rest :
  is_digit d1 = true -> is_digit d2 = true -> forallb_str dot payload = true ->
  re_match ok_pattern
    ("#BD:" ++ String d1 (String d2 (",CMD:OK,VAL:" ++ payload ++ CRLF ++ rest)))
  = Some [String d1 (String d2 ""); payload].
Proof.
  intros H1 H2 Hp. unfold re_match, ok_pattern.
  set (X := ",CMD:OK,VAL:" ++ payload ++ CRLF ++ rest).
  cbn [run lit append Ascii.eqb Bool.eqb].
  rewrite rep_two by assumption.
  pose proof (take_prefix (String d1 (String d2 "")) X) as T.
  cbn [append] in T. rewrite T. clear T. subst X.
  cbn [lit append Ascii.eqb Bool.eqb app].
  rewrite rep_dot_crlf; trivial.
  - now rewrite lit_app, take_prefix.
  - intros s Hs. now rewrite Hs.
Qed.

Lemma ok_pattern_inv s m :
  re_match ok_pattern s = Some m ->
  exists d1 d2 tail,
    s = "#BD:" ++ String d1 (String d2 (",CMD:OK,VAL:" ++ tail))
    /\ is_digit d1 = true /\ is_digit d2 = true.
Proof.
  unfold re_match, ok_pattern. cbn [run].
  destruct (lit "#BD:" s) as [s0|] eqn:E0; [|discriminate].
  apply lit_inv in E0. subst s. intros H.
  apply rep_two_inv in H as (d1 & d2 & s1 & -> & H1 & H2 & H).
  destruct (lit ",CMD:OK,VAL:" s1) as [s2|] eqn:E1; [|discriminate].
  apply lit_inv in E1. subst s1. now exists d1, d2, s2.
Qed.

Lemma lstrip_cases s :
  lstrip s = s \/ exists c s', s = String c s' /\ isspace c = true.
Proof.
  destruct s as [|c s']; [now left|].
  simpl. destruct (isspace c) eqn:E; [right; now exists c, s' | now left].
Qed.

Lemma lstrip_app ws s :
  forallb_str isspace ws = true -> lstrip (ws ++ s) = lstrip s.
Proof.
  induction ws as [|c ws IH]; simpl; [reflexivity|].
  intros H. apply andb_true_iff in H as [Hc Hws]. now rewrite Hc, IH.
Qed.

(** No error pattern matches a line that starts with white space. *)
Lemma err_pattern_space what c s :
  isspace c = true -> matches (err_pattern what) (String c s) = false.
Proof.
  intros Hc. unfold matches, re_match, err_pattern. cbn [run lit].
  destruct (Ascii.eqb_spec "#" c) as [<-|]; [discriminate | reflexivity].
Qed.

(** No error pattern of [__check_error] matches a success frame. *)
Lemma err_pattern_ok_frame what d1 d2 tail :
  In what ["CMD"; "CH"; "PAR"; "VAL"; "LOC"] ->
  is_digit d1 = true -> is_digit d2 = true ->
  matches (err_pattern what)
    ("#BD:" ++ String d1 (String d2 (",CMD:OK,VAL:" ++ tail))) = false.
Proof.
  intros Hw H1 H2.
  apply is_digit_cases in H1. apply is_digit_cases in H2.
  simpl in Hw.
  repeat (destruct Hw as [<-|Hw]);
    try contradiction;
    repeat (destruct H1 as [->|H1]); try subst d1;
    repeat (destruct H2 as [->|H2]); try subst d2; reflexivity.
Qed.

Lemma check_error_ok_frame reply m :
  re_match ok_pattern (lstrip reply) = Some m -> __check_error reply = Ok tt.
Proof.
  intros H. destruct (ok_pattern_inv _ _ H) as (d1 & d2 & tail & Hs & H1 & H2).
  assert (Hno : forall what, In what ["CMD"; "CH"; "PAR"; "VAL"; "LOC"] ->
                             matches (err_pattern what) reply = false).
  { intros what Hw. destruct (lstrip_cases reply) as [E | (c & s' & -> & Hc)].
    - rewrite <- E, Hs. now apply err_pattern_ok_frame.
    - now apply err_pattern_space. }
  unfold __check_error.
  rewrite !Hno by (simpl; tauto). reflexivity.
Qed.

(** ** Decoding a success frame *)

Lemma call_raises t text e : call t text = Raise e -> e = ValueError.
Proof.
  destruct t; simpl.
  - destruct (Py.int_of_str text); [discriminate | now intros [= <-]].
  - destruct (Py.float_of_str text); [discriminate | now intros [= <-]].
  - discriminate.
Qed.

(** A success frame, possibly after white space and followed by more text,
    is matched by the success pattern; its second group is the payload. *)
Lemma ok_frame_groups ws d1 d2 payload rest :
  forallb_str isspace ws = true ->
  is_digit d1 = true -> is_digit d2 = true -> forallb_str dot payload = true ->
  re_match ok_pattern
    (lstrip (ws ++ "#BD:" ++ String d1 (String d2
               (",CMD:OK,VAL:" ++ payload ++ CRLF ++ rest))))
  = Some [String d1 (String d2 ""); payload].
Proof.
  intros Hws H1 H2 Hp. rewrite lstrip_app by exact Hws.
  change (lstrip ("#BD:" ++ ?s)) with ("#BD:" ++ s).
  now apply ok_pattern_match.
Qed.

Lemma parse_reply_matched (reply : string) (m : list string) :
  re_match ok_pattern (lstrip reply) = Some m ->
  _parse_reply reply None = Ok (PyStr (group m 2))
  /\ (forall t v, call t (group m 2) = Ok v ->
                  _parse_reply reply (Some t) = Ok v)
  /\ (forall t e, call t (group m 2) = Raise e ->
                  _parse_reply reply (Some t) = Raise InvalidReplyError).
Proof.
  intros Hm. unfold _parse_reply.
  rewrite (check_error_ok_frame _ _ Hm), Hm.
  split; [reflexivity|]. split.
  - intros t v Hv. now rewrite Hv.
  - intros t e He. rewrite He. now rewrite (call_raises _ _ _ He).
Qed.

(** *** What [int] and [float] make of a payload *)

Lemma append_nil_r s : s ++ "" = s.
Proof. induction s as [|c s IH]; simpl; [reflexivity | now rewrite IH]. Qed.

Lemma digit_vals_app a b : digit_vals (a ++ b) = (digit_vals a ++ digit_vals b)%list.
Proof. induction a as [|c a IH]; simpl; [reflexivity | now rewrite IH]. Qed.

Lemma length_digit_vals s : List.length (digit_vals s) = String.length s.
Proof. induction s as [|c s IH]; simpl; [reflexivity | now rewrite IH]. Qed.

Lemma digits_no_space ds :
  forallb_str is_digit ds = true ->
  forallb_str (fun c => negb (Py.c_isspace c)) ds = true.
Proof.
  induction ds as [|x D IH]; [reflexivity|].
  simpl. intros H. apply andb_true_iff in H as [Hx HD].
  now rewrite (digit_not_space x Hx), IH.
Qed.

(** The sign in front of a number that starts with a digit or a dot. *)
Lemma sign_number sg c r :
  In sg [""; "+"; "-"] -> is_digit c = true \/ c = "."%char ->
  Py.sign (sg ++ String c r) = (negative sg, String c r).
Proof.
  intros Hsg Hc. simpl in Hsg.
  destruct Hsg as [<-|[<-|[<-|[]]]]; try reflexivity.
  cbn [append]. destruct Hc as [Hc| ->]; [|reflexivity].
  apply is_digit_cases in Hc.
  repeat (destruct Hc as [->|Hc]); try subst c; reflexivity.
Qed.

Lemma sign_no_space sg :
  In sg [""; "+"; "-"] ->
  forallb_str (fun c => negb (Py.c_isspace c)) sg = true.
Proof. simpl. intros [<-|[<-|[<-|[]]]]; reflexivity. Qed.

(** [int] reads a sign and digits as the number they write, up to the limit
    on the number of digits. *)
Lemma int_of_str_digits sg ds :
  In sg [""; "+"; "-"] -> forallb_str is_digit ds = true -> ds <> "" ->
  Py.int_of_str (sg ++ ds)
  = if Z.of_nat (String.length ds) <=? 4300
    then Some (signed sg (decimal ds)) else None.
Proof.
  intros Hsg Hds Hne. unfold Py.int_of_str.
  rewrite skip_nothing
    by (rewrite forallb_str_app, sign_no_space, digits_no_space; trivial).
  destruct ds as [|x D]; [contradiction|].
  assert (Hx : is_digit x = true) by (simpl in Hds; now apply andb_true_iff in Hds).
  rewrite sign_number by auto.
  pose proof (digitpart_digits (String x D) "" Hds (or_introl eq_refl)) as E.
  rewrite append_nil_r in E. rewrite E.
  cbn [digit_vals]. rewrite <- (length_digit_vals (String x D)).
  cbn [digit_vals]. unfold Py.int_max_str_digits.
  destruct (_ <=? 4300); [|reflexivity].
  unfold signed, decimal, Py.of_digits. cbn [digit_vals].
  now destruct (negative sg).
Qed.

(** The two matches on a literal character in [sign] and [digitpart],
    written with a test. *)
Lemma sign_step s :
  Py.sign s = match s with
              | String c r =>
                  if Ascii.eqb c "+" then (false, r)
                  else if Ascii.eqb c "-" then (true, r) else (false, s)
              | EmptyString => (false, s)
              end.
Proof.
  destruct s as [|c r]; [reflexivity|].
  destruct c as [[|] [|] [|] [|] [|] [|] [|] [|]]; reflexivity.
Qed.

Lemma digitpart_step c s' :
  Py.digitpart (String c s')
  = if is_digit c then
      match s' with
      | String u s'' =>
          if Ascii.eqb u "_" then
            match s'' with
            | String d _ =>
                if is_digit d then
                  let (ds, r) := Py.digitpart s'' in (digit_val c :: ds, r)
                else ([digit_val c], s')
            | EmptyString => ([digit_val c], s')
            end
          else let (ds, r) := Py.digitpart s' in (digit_val c :: ds, r)
      | EmptyString => ([digit_val c], s')
      end
    else ([], String c s').
Proof.
  cbn [Py.digitpart]. destruct (is_digit c); [|reflexivity].
  destruct s' as [|u s'']; [reflexivity|].
  destruct u as [[|] [|] [|] [|] [|] [|] [|] [|]]; reflexivity.
Qed.

(** What [digitpart] reads is made of digits and underscores. *)
Lemma digitpart_chars (P : ascii -> bool) :
  (forall c, is_digit c = true -> P c = true) -> P "_"%char = true ->
  forall n s ds r, (String.length s <= n)%nat ->
    Py.digitpart s = (ds, r) ->
    forallb_str P r = true -> forallb_str P s = true.
Proof.
  intros Hd Hu. induction n as [|n IH]; intros s ds r Hlen E Hr.
  - destruct s; [|simpl in Hlen; lia]. cbn in E. now injection E as <- <-.
  - destruct s as [|c s']; [cbn in E; now injection E as <- <-|].
    rewrite digitpart_step in E.
    destruct (is_digit c) eqn:Hc; [|now injection E as <- <-].
    cbn [forallb_str]. rewrite (Hd c Hc). cbn [andb].
    simpl in Hlen.
    destruct s' as [|u s'']; [now injection E as <- <-|].
    destruct (Ascii.eqb_spec u "_") as [->|Hne].
    + destruct s'' as [|d t]; [now injection E as <- <-|].
      destruct (is_digit d) eqn:Hdd; [|now injection E as <- <-].
      destruct (Py.digitpart (String d t)) as [ds' r'] eqn:E'.
      injection E as <- <-.
      cbn [forallb_str]. rewrite Hu. cbn [andb].
      apply (IH (String d t) ds' r'); trivial. simpl in *. lia.
    + destruct (Py.digitpart (String u s'')) as [ds' r'] eqn:E'.
      injection E as <- <-.
      apply (IH (String u s'') ds' r'); trivial. lia.
Qed.

Lemma lskip_chars (P : ascii -> bool) s :
  (forall c, Py.c_isspace c = true -> P c = true) ->
  forallb_str P (Py.lskip s) = true -> forallb_str P s = true.
Proof.
  intros Hs. induction s as [|c s IH]; [trivial|].
  cbn [Py.lskip]. destruct (Py.c_isspace c) eqn:E; [|trivial].
  intros H. cbn [forallb_str]. now rewrite (Hs c E), IH.
Qed.

Lemma rskip_chars (P : ascii -> bool) s :
  (forall c, Py.c_isspace c = true -> P c = true) ->
  forallb_str P (Py.rskip s) = true -> forallb_str P s = true.
Proof.
  intros Hs. induction s as [|c s IH]; [trivial|].
  cbn [Py.rskip]. destruct (Py.rskip s) as [|x r] eqn:E.
  - destruct (Py.c_isspace c) eqn:Ec.
    + intros _. cbn [forallb_str]. now rewrite (Hs c Ec), IH.
    + cbn [forallb_str]. intros H. apply andb_true_iff in H as [Hc _].
      now rewrite Hc, IH.
  - cbn [forallb_str]. intros H. apply andb_true_iff in H as [Hc Hr].
    rewrite Hc. apply IH. exact Hr.
Qed.

Lemma sign_chars (P : ascii -> bool) s neg r :
  P "+"%char = true -> P "-"%char = true ->
  Py.sign s = (neg, r) -> forallb_str P r = true -> forallb_str P s = true.
Proof.
  intros Hp Hm. rewrite sign_step. destruct s as [|c s']; [now intros [= <- <-]|].
  destruct (Ascii.eqb_spec c "+") as [->|_];
    [intros [= <- <-] H; cbn [forallb_str]; now rewrite Hp, H|].
  destruct (Ascii.eqb_spec c "-") as [->|_];
    [intros [= <- <-] H; cbn [forallb_str]; now rewrite Hm, H|].
  now intros [= <- <-].
Qed.

Lemma blank_space c : Py.c_isspace c = true -> blank c = true.
Proof.
  unfold Py.c_isspace, blank. cbn [existsb]. intros H.
  repeat (apply orb_true_iff in H as [H|H]);
    try (apply Z.eqb_eq in H; rewrite H; reflexivity).
  apply andb_true_iff in H as [H1 H2].
  apply Z.leb_le in H1. apply Z.leb_le in H2.
  assert (Q : code c = 9 \/ code c = 10 \/ code c = 11 \/ code c = 12 \/ code c = 13)
    by lia.
  repeat (destruct Q as [->|Q]); try rewrite Q; reflexivity.
Qed.

(** A text that [int] reads is made of the characters of an integer
    literal. *)
Lemma int_of_str_chars s z :
  Py.int_of_str s = Some z -> forallb_str int_char s = true.
Proof.
  unfold Py.int_of_str. intros H.
  assert (Hsp : forall c, Py.c_isspace c = true -> int_char c = true).
  { intros c Hc. unfold int_char. rewrite (blank_space c Hc). apply orb_true_r. }
  apply lskip_chars; [exact Hsp|]. apply rskip_chars; [exact Hsp|].
  destruct (Py.sign _) as [neg s1] eqn:S.
  apply (sign_chars int_char _ _ _ eq_refl eq_refl S).
  destruct (Py.digitpart s1) as [ds r] eqn:D.
  destruct ds as [|d ds]; [discriminate|]. destruct r; [|discriminate].
  apply (digitpart_chars int_char) with (n := String.length s1) (ds := d :: ds) (r := "");
    trivial.
  intros c Hc. unfold int_char. now rewrite Hc.
Qed.

Lemma not_a_word c r w :
  is_digit c = true \/ c = "."%char ->
  In w ["inf"; "infinity"; "nan"] ->
  String.eqb (Py.lowercase (String c r)) w = false.
Proof.
  intros Hc Hw. cbn [Py.lowercase]. simpl in Hw.
  destruct Hc as [Hc| ->].
  - apply is_digit_cases in Hc.
    destruct Hw as [<-|[<-|[<-|[]]]];
      repeat (destruct Hc as [->|Hc]); try subst c; reflexivity.
  - destruct Hw as [<-|[<-|[<-|[]]]]; reflexivity.
Qed.

Lemma digit_vals_nonempty s : s <> "" -> digit_vals s <> [].
Proof. destruct s; [contradiction | discriminate]. Qed.

(** [float] reads a sign, digits, a dot and digits as the float nearest to
    the decimal they write. *)
Lemma float_of_str_point sg ip fp :
  In sg [""; "+"; "-"] ->
  forallb_str is_digit ip = true -> forallb_str is_digit fp = true ->
  ip ++ fp <> "" ->
  Py.float_of_str (sg ++ ip ++ "." ++ fp)
  = Some (Py.float_of_decimal (negative sg) (decimal (ip ++ fp))
            (- Z.of_nat (String.length fp))).
Proof.
  intros Hsg Hip Hfp Hne. unfold Py.float_of_str.
  rewrite skip_nothing.
  2:{ rewrite !forallb_str_app, sign_no_space by trivial.
      now rewrite (digits_no_space ip Hip), (digits_no_space fp Hfp). }
  assert (Hbody : exists c r, ip ++ "." ++ fp = String c r
                              /\ (is_digit c = true \/ c = "."%char)).
  { destruct ip as [|x D]; [exists "."%char, fp; auto|].
    exists x, (D ++ "." ++ fp). split; [reflexivity|]. left.
    simpl in Hip. now apply andb_true_iff in Hip. }
  destruct Hbody as (c & r & Eb & Hc).
  rewrite Eb, sign_number by assumption.
  rewrite !not_a_word by (simpl; auto). cbn [orb].
  rewrite <- Eb.
  rewrite (digitpart_digits ip ("." ++ fp) Hip) by (right; now eexists).
  cbn [append].
  pose proof (digitpart_digits fp "" Hfp (or_introl eq_refl)) as E.
  rewrite append_nil_r in E. rewrite E.
  rewrite <- digit_vals_app.
  pose proof (digit_vals_nonempty _ Hne) as Hl.
  destruct (digit_vals (ip ++ fp)) as [|d l] eqn:Ed; [contradiction|].
  cbn [Py.exponent]. rewrite length_digit_vals.
  unfold decimal. rewrite Ed. reflexivity.
Qed.

(** [float] reads a sign and digits as the float nearest to the integer
    they write. *)
Lemma float_of_str_digits sg ds :
  In sg [""; "+"; "-"] -> forallb_str is_digit ds = true -> ds <> "" ->
  Py.float_of_str (sg ++ ds)
  = Some (Py.float_of_decimal (negative sg) (decimal ds) 0).
Proof.
  intros Hsg Hds Hne. unfold Py.float_of_str.
  rewrite skip_nothing
    by (rewrite forallb_str_app, sign_no_space, digits_no_space; trivial).
  destruct ds as [|x D] eqn:Eds; [contradiction|]. rewrite <- Eds in *.
  assert (Hx : is_digit x = true)
    by (rewrite Eds in Hds; simpl in Hds; now apply andb_true_iff in Hds).
  rewrite Eds at 1. rewrite sign_number by auto.
  rewrite !not_a_word by (simpl; auto). cbn [orb].
  rewrite <- Eds.
  pose proof (digitpart_digits ds "" Hds (or_introl eq_refl)) as E.
  rewrite append_nil_r in E. rewrite E.
  rewrite app_nil_r.
  pose proof (digit_vals_nonempty _ Hne) as Hl.
  destruct (digit_vals ds) as [|d l] eqn:Ed; [contradiction|].
  cbn [Py.exponent List.length Z.of_nat Z.sub].
  unfold decimal. rewrite Ed. reflexivity.
Qed.

Lemma letter_char c :
  one_of "inftya" (Py.lower c) = true -> float_char c = true.
Proof.
  destruct c as [[|] [|] [|] [|] [|] [|] [|] [|]]; vm_compute;
    intros H; try reflexivity; discriminate H.
Qed.

Lemma e_char c : Ascii.eqb (Py.lower c) "e" = true -> float_char c = true.
Proof.
  destruct c as [[|] [|] [|] [|] [|] [|] [|] [|]]; vm_compute;
    intros H; try reflexivity; discriminate H.
Qed.

Lemma lowercase_word s :
  forallb_str (one_of "inftya") (Py.lowercase s) = true ->
  forallb_str float_char s = true.
Proof.
  induction s as [|c s IH]; [trivial|].
  cbn [Py.lowercase forallb_str]. intros H.
  apply andb_true_iff in H as [Hc Hs]. now rewrite (letter_char c Hc), IH.
Qed.

Lemma fraction_step s2 :
  match s2 with
  | String "." r => Py.digitpart r
  | _ => ([], s2)
  end
  = match s2 with
    | String c r => if Ascii.eqb c "." then Py.digitpart r else ([], s2)
    | EmptyString => ([], s2)
    end.
Proof.
  destruct s2 as [|c r]; [reflexivity|].
  destruct c as [[|] [|] [|] [|] [|] [|] [|] [|]]; reflexivity.
Qed.

Lemma float_digit_char c : is_digit c = true -> float_char c = true.
Proof. intros H. unfold float_char. now rewrite H. Qed.

Lemma float_space_char c : Py.c_isspace c = true -> float_char c = true.
Proof.
  intros H. unfold float_char. rewrite (blank_space c H). apply orb_true_r.
Qed.

Lemma exponent_chars s x :
  Py.exponent s = Some x -> forallb_str float_char s = true.
Proof.
  destruct s as [|c s']; [trivial|]. cbn [Py.exponent].
  destruct (Ascii.eqb (Py.lower c) "e") eqn:Ec; [|discriminate].
  destruct (Py.sign s') as [neg s1] eqn:S.
  destruct (Py.digitpart s1) as [ds r] eqn:D.
  destruct ds as [|d ds]; [discriminate|]. destruct r; [|discriminate].
  intros _. cbn [forallb_str]. rewrite (e_char c Ec). cbn [andb].
  apply (sign_chars float_char _ _ _ eq_refl eq_refl S).
  apply (digitpart_chars float_char float_digit_char eq_refl
           (String.length s1) s1 (d :: ds) ""); trivial.
Qed.

(** A text that [float] reads is made of the characters of a float
    literal. *)
Lemma float_of_str_chars s f :
  Py.float_of_str s = Some f -> forallb_str float_char s = true.
Proof.
  unfold Py.float_of_str. intros H.
  apply lskip_chars; [exact float_space_char|].
  apply rskip_chars; [exact float_space_char|].
  destruct (Py.sign _) as [neg s1] eqn:S.
  apply (sign_chars float_char _ _ _ eq_refl eq_refl S).
  destruct (String.eqb_spec (Py.lowercase s1) "inf") as [E|_];
    [apply lowercase_word; now rewrite E|].
  destruct (String.eqb_spec (Py.lowercase s1) "infinity") as [E|_];
    [apply lowercase_word; now rewrite E|].
  cbn [orb] in H.
  destruct (String.eqb_spec (Py.lowercase s1) "nan") as [E|_];
    [apply lowercase_word; now rewrite E|].
  destruct (Py.digitpart s1) as [ip s2] eqn:D1.
  apply (digitpart_chars float_char float_digit_char eq_refl
           (String.length s1) s1 ip s2); trivial.
  rewrite fraction_step in H.
  destruct s2 as [|c r].
  - destruct (ip ++ [])%list; [discriminate|]. reflexivity.
  - destruct (Ascii.eqb_spec c ".") as [->|_].
    + destruct (Py.digitpart r) as [fp s3] eqn:D2.
      cbn [forallb_str]. change (float_char ".") with true. cbn [andb].
      apply (digitpart_chars float_char float_digit_char eq_refl
               (String.length r) r fp s3); trivial.
      destruct (ip ++ fp)%list; [discriminate|].
      destruct (Py.exponent s3) as [x|] eqn:X; [|discriminate].
      now apply (exponent_chars s3 x).
    + destruct (ip ++ [])%list; [discriminate|].
      destruct (Py.exponent (String c r)) as [x|] eqn:X; [|discriminate].
      now apply (exponent_chars _ x).
Qed.

(** *** Integers below 2^53 are floats *)

Lemma digits2_size p : digits2_pos p = Pos.size p.
Proof. induction p; simpl; congruence. Qed.

Lemma digits2_small p : Z.pos p < 2 ^ 53 -> Z.pos (digits2_pos p) <= 53.
Proof.
  intros Hp. rewrite digits2_size.
  pose proof (Pos.size_le p) as H.
  apply Pos2Z.pos_le_pos in H. rewrite Pos2Z.inj_pow in H.
  change (Z.pos p~0) with (2 * Z.pos p) in H.
  assert (Hlt : 2 ^ Z.pos (Pos.size p) < 2 ^ 54).
  { change (2 ^ 54) with (2 * 2 ^ 53). lia. }
  apply Z.pow_lt_mono_r_iff in Hlt; lia.
Qed.

Lemma iter_xO_digits p k :
  digits2_pos (Pos.iter xO p k) = (digits2_pos p + k)%positive.
Proof.
  induction k as [|k IH] using Pos.peano_ind.
  - simpl. now rewrite Pos.add_1_r.
  - rewrite Pos.iter_succ. simpl. rewrite IH. now rewrite Pos.add_succ_r.
Qed.

Lemma iter_xO_value p k : Z.pos (Pos.iter xO p k) = Z.pos p * 2 ^ Z.pos k.
Proof.
  induction k as [|k IH] using Pos.peano_ind.
  - simpl. lia.
  - rewrite Pos.iter_succ. rewrite Pos2Z.inj_xO, IH.
    rewrite Pos2Z.inj_succ, Z.pow_succ_r by lia. lia.
Qed.

(** A mantissa of 53 digits with an exponent in range is not rounded. *)
Lemma binary_round_aux_exact sx mz ez :
  digits2_pos mz = 53%positive -> -1074 <= ez <= 971 ->
  binary_round_aux Py.prec Py.emax sx (Z.pos mz) ez loc_Exact
  = S754_finite sx mz ez.
Proof.
  intros Hd He.
  assert (Hshift : fexp Py.prec Py.emax (Zdigits2 (Z.pos mz) + ez) - ez = 0).
  { unfold fexp, emin, Py.prec, Py.emax. cbn [Zdigits2]. rewrite Hd. lia. }
  unfold binary_round_aux, shr_fexp. rewrite Hshift.
  cbn [shr shr_record_of_loc shr_m loc_of_shr_record round_nearest_even].
  rewrite Hshift.
  cbn [shr shr_record_of_loc shr_m].
  unfold Py.prec, Py.emax.
  destruct (Z.leb_spec ez (1024 - 53)); [reflexivity | lia].
Qed.

(** The float nearest to an integer below 2^53 is that integer. *)
Lemma float_of_small_int neg p :
  Z.pos p < 2 ^ 53 ->
  exists m e,
    Py.float_of_decimal neg (Z.pos p) 0 = S754_finite neg m e
    /\ e <= 0 /\ Z.pos m = Z.pos p * 2 ^ (- e).
Proof.
  intros Hp. pose proof (digits2_small p Hp) as Hd.
  unfold Py.float_of_decimal. cbn [Z.leb Z.compare Z.pow Z.pow_pos Pos.iter].
  rewrite Z.mul_1_r.
  assert (E : binary_normalize Py.prec Py.emax (cond_Zopp neg (Z.pos p)) 0 neg
              = binary_round Py.prec Py.emax neg p 0) by (now destruct neg).
  rewrite E. unfold binary_round, shl_align.
  assert (Hf : fexp Py.prec Py.emax (Z.pos (digits2_pos p) + 0)
               = Z.pos (digits2_pos p) - 53).
  { unfold fexp, emin, Py.prec, Py.emax. lia. }
  rewrite Hf. rewrite Z.sub_0_r.
  destruct (Z.pos (digits2_pos p) - 53) as [|k|k] eqn:Ek; [|lia|].
  - exists p, 0. split; [|split; [lia|simpl; lia]].
    apply binary_round_aux_exact; [|lia].
    assert (Z.pos (digits2_pos p) = 53) by lia. congruence.
  - exists (Pos.iter xO p k), (Z.neg k). split; [|split].
    + apply binary_round_aux_exact; [|lia].
      rewrite iter_xO_digits.
      assert (Z.pos (digits2_pos p + k) = 53); [|congruence].
      rewrite Pos2Z.inj_add. lia.
    + lia.
    + rewrite iter_xO_value. reflexivity.
Qed.

(** What the decoder makes of a success frame. *)
Lemma parse_reply_frame ws d1 d2 payload rest :
  forallb_str isspace ws = true ->
  is_digit d1 = true -> is_digit d2 = true -> forallb_str dot payload = true ->
  let reply := ws ++ ok_frame d1 d2 payload rest in
  _parse_reply reply None = Ok (PyStr payload)
  /\ (forall t v, call t payload = Ok v -> _parse_reply reply (Some t) = Ok v)
  /\ (forall t e, call t payload = Raise e ->
                  _parse_reply reply (Some t) = Raise InvalidReplyError).
Proof.
  intros Hws H1 H2 Hp reply.
  pose proof (ok_frame_groups ws d1 d2 payload rest Hws H1 H2 Hp) as Hm.
  exact (parse_reply_matched reply _ Hm).
Qed.

Lemma f123_4_nearest :
  Py.float_of_decimal false 1234 (-1) = f123_4 /\ Py.float_repr f123_4 = "123.4".
Proof. split; vm_compute; reflexivity. Qed.

(** C7: when the reply line matches the success pattern, the decoder returns
    the payload (the second group) converted by the requested type; a
    conversion that fails gives InvalidReplyError; without a requested type
    the payload text itself is returned.  The conversions are those of
    [int] and [float]: a payload of a sign and digits is read as the integer
    it writes (up to 4300 digits, the most the interpreter converts) and as
    the float of that integer, exactly so below 2^53; a payload with a
    decimal point is read as the float nearest to the decimal and is no
    integer; a payload with a character that no integer (no float) literal
    has is refused.  In particular the frame #BD:02,CMD:OK,VAL:123.4 read as
    a float is 123.4, and read as an integer it is an InvalidReplyError. *)
Theorem parse_reply_success :
  (forall (reply : string) (m : list string),
      re_match ok_pattern (lstrip reply) = Some m ->
      _parse_reply reply None = Ok (PyStr (group m 2))
      /\ (forall t v, call t (group m 2) = Ok v ->
                      _parse_reply reply (Some t) = Ok v)
      /\ (forall t e, call t (group m 2) = Raise e ->
                      _parse_reply reply (Some t) = Raise InvalidReplyError))
  /\ (forall ws d1 d2 payload rest,
        forallb_str isspace ws = true ->
        is_digit d1 = true -> is_digit d2 = true ->
        forallb_str dot payload = true ->
        let reply := ws ++ ok_frame d1 d2 payload rest in
        _parse_reply reply None = Ok (PyStr payload)
        /\ _parse_reply reply (Some Str) = Ok (PyStr payload)
        /\ (forall sg ds,
              payload = sg ++ ds -> In sg [""; "+"; "-"] ->
              forallb_str is_digit ds = true -> ds <> "" ->
              _parse_reply reply (Some Int)
              = (if Z.of_nat (String.length ds) <=? 4300
                 then Ok (PyInt (signed sg (decimal ds)))
                 else Raise InvalidReplyError)
              /\ _parse_reply reply (Some Float)
                 = Ok (PyFloat (Py.float_of_decimal (negative sg) (decimal ds) 0))
              /\ (0 < decimal ds < 2 ^ 53 ->
                  exists m e,
                    _parse_reply reply (Some Float)
                    = Ok (PyFloat (S754_finite (negative sg) m e))
                    /\ e <= 0 /\ Z.pos m = decimal ds * 2 ^ (- e)))
        /\ (forall sg ip fp,
              payload = sg ++ ip ++ "." ++ fp -> In sg [""; "+"; "-"] ->
              forallb_str is_digit ip = true -> forallb_str is_digit fp = true ->
              ip ++ fp <> "" ->
              _parse_reply reply (Some Float)
              = Ok (PyFloat (Py.float_of_decimal (negative sg) (decimal (ip ++ fp))
                               (- Z.of_nat (String.length fp))))
              /\ _parse_reply reply (Some Int) = Raise InvalidReplyError)
        /\ (forallb_str int_char payload = false ->
            _parse_reply reply (Some Int) = Raise InvalidReplyError)
        /\ (forallb_str float_char payload = false ->
            _parse_reply reply (Some Float) = Raise InvalidReplyError))
  /\ (let reads t payload :=
        _parse_reply ("#BD:02,CMD:OK,VAL:" ++ payload ++ CRLF) (Some t) in
      reads Float "123.4" = Ok (PyFloat f123_4)
      /\ nearest 1234 10 f123_4
      /\ reads Int "123.4" = Raise InvalidReplyError
      /\ reads Float "1e3" = Ok (PyFloat (S754_finite false 8796093022208000 (-43)))
      /\ reads Float "-2.5E-1" = Ok (PyFloat (S754_finite true 4503599627370496 (-54)))
      /\ reads Float "1e400" = Ok (PyFloat (S754_infinity false))
      /\ reads Float "-Infinity" = Ok (PyFloat (S754_infinity true))
      /\ reads Float "nan" = Ok (PyFloat S754_nan)
      /\ reads Float " 7 " = Ok (PyFloat (S754_finite false 7881299347898368 (-50)))
      /\ reads Float "1_0.5" = Ok (PyFloat (S754_finite false 5910974510923776 (-49)))
      /\ reads Float "" = Raise InvalidReplyError
      /\ reads Int " 42 " = Ok (PyInt 42)
      /\ reads Int "1_000" = Ok (PyInt 1000)
      /\ reads Int "1__0" = Raise InvalidReplyError
      /\ reads Int "" = Raise InvalidReplyError).
Proof.
  split; [exact parse_reply_matched|]. split.
  2:{ cbv zeta. repeat split; try (vm_compute; reflexivity); lia. }
  intros ws d1 d2 payload rest Hws H1 H2 Hp reply.
  destruct (parse_reply_frame ws d1 d2 payload rest Hws H1 H2 Hp)
    as (Hnone & Hok & Hbad). fold reply in Hnone, Hok, Hbad.
  assert (Hint : forall s, Py.int_of_str s = None -> s = payload ->
                           _parse_reply reply (Some Int) = Raise InvalidReplyError).
  { intros s Hs ->. apply (Hbad Int ValueError). cbn [call]. now rewrite Hs. }
  assert (Hfloat : forall s, Py.float_of_str s = None -> s = payload ->
                             _parse_reply reply (Some Float) = Raise InvalidReplyError).
  { intros s Hs ->. apply (Hbad Float ValueError). cbn [call]. now rewrite Hs. }
  split; [exact Hnone|]. split; [now apply Hok|].
  split; [|split; [|split]].
  - intros sg ds -> Hsg Hds Hne.
    pose proof (float_of_str_digits sg ds Hsg Hds Hne) as Ef.
    split; [|split].
    + pose proof (int_of_str_digits sg ds Hsg Hds Hne) as Ei.
      destruct (Z.of_nat (String.length ds) <=? 4300).
      * apply Hok. cbn [call]. now rewrite Ei.
      * now apply (Hint (sg ++ ds)).
    + apply Hok. cbn [call]. now rewrite Ef.
    + intros Hsmall.
      destruct (decimal ds) as [|p|p] eqn:Ed; try lia.
      destruct (float_of_small_int (negative sg) p (proj2 Hsmall))
        as (m & e & Em & He & Hm).
      exists m, e. split; [|split; trivial].
      apply Hok. cbn [call]. now rewrite Ef, Em.
  - intros sg ip fp -> Hsg Hip Hfp Hne. split.
    + apply Hok. cbn [call]. now rewrite float_of_str_point.
    + apply (Hint (sg ++ ip ++ "." ++ fp)); [|reflexivity].
      destruct (Py.int_of_str _) as [z|] eqn:E; [|reflexivity].
      apply int_of_str_chars in E.
      rewrite !forallb_str_app in E. cbn [forallb_str] in E.
      change (int_char ".") with false in E.
      rewrite !andb_false_r in E. discriminate.
  - intros Hc. apply (Hint payload); [|reflexivity].
    destruct (Py.int_of_str payload) as [z|] eqn:E; [|reflexivity].
    apply int_of_str_chars in E. congruence.
  - intros Hc. apply (Hfloat payload); [|reflexivity].
    destruct (Py.float_of_str payload) as [f|] eqn:E; [|reflexivity].
    apply float_of_str_chars in E. congruence.
Qed.

(** A frame with white space in front and text after it: the payload -042
    is the integer -42 and the float -42, and the payload 12.50 is the float
    12.5 and no integer; a payload that holds a CR comes back as it is when
    no type is requested. *)
Lemma parse_reply_success_witness :
  let int_reply := " #BD:17,CMD:OK,VAL:-042" ++ CRLF ++ "more" in
  let dec_reply := "#BD:17,CMD:OK,VAL:12.50" ++ CRLF in
  let raw_reply := " #BD:17,CMD:OK,VAL:" ++ String "a" (String CR (String "b" CRLF)) in
  _parse_reply int_reply (Some Int) = Ok (PyInt (-42))
  /\ _parse_reply int_reply (Some Float)
     = Ok (PyFloat (S754_finite true 5910974510923776 (-47)))
  /\ _parse_reply dec_reply (Some Float)
     = Ok (PyFloat (S754_finite false 7036874417766400 (-49)))
  /\ _parse_reply dec_reply (Some Int) = Raise InvalidReplyError
  /\ _parse_reply raw_reply None = Ok (PyStr (String "a" (String CR (String "b" ""))))
  /\ _parse_reply raw_reply (Some Float) = Raise InvalidReplyError.
Proof.
  intros int_reply dec_reply raw_reply.
  destruct (proj1 (proj2 parse_reply_success) " " "1"%char "7"%char "-042" "more"
              eq_refl eq_refl eq_refl eq_refl)
    as (_ & _ & Hint & _).
  destruct (Hint "-" "042" eq_refl (or_intror (or_intror (or_introl eq_refl)))
              eq_refl ltac:(discriminate)) as (Hi & Hf & _).
  destruct (proj1 (proj2 parse_reply_success) "" "1"%char "7"%char "12.50" ""
              eq_refl eq_refl eq_refl eq_refl)
    as (_ & _ & _ & Hdec & _).
  destruct (Hdec "" "12" "50" eq_refl (or_introl eq_refl) eq_refl eq_refl
              ltac:(discriminate)) as (Hd & Hdi).
  destruct (proj1 (proj2 parse_reply_success) " " "1"%char "7"%char
              (String "a" (String CR (String "b" ""))) ""
              eq_refl eq_refl eq_refl eq_refl)
    as (Hraw & _ & _ & _ & _ & Hbad).
  split; [exact Hi|]. split; [exact Hf|]. split; [exact Hd|].
  split; [exact Hdi|]. split; [exact Hraw|]. apply Hbad. reflexivity.
Defined.

(** ** One exchange on a free, open channel *)

Lemma is_ascii_app a b : is_ascii (a ++ b) = is_ascii a && is_ascii b.
Proof. apply forallb_str_app. Qed.

Lemma is_ascii_cmd_string module cmd par channel value :
  is_ascii cmd = true -> is_ascii par = true ->
  match value_text value with Some t => is_ascii t = true | None => True end ->
  is_ascii (cmd_string module cmd par channel value) = true.
Proof.
  intros Hc Hp Hv. rewrite cmd_string_shape.
  repeat rewrite is_ascii_app.
  rewrite Hc, Hp, is_ascii_str_int.
  destruct channel as [ch|], (value_text value) as [t|];
    repeat rewrite is_ascii_app; rewrite ?is_ascii_str_int, ?Hv; reflexivity.
Qed.

(** An exchange that gets the channel on an open port and cannot print one
    of its integers raises ValueError, and has written nothing. *)
Lemma command_refused fuel env cmd par channel value type_ self c :
  acquires fuel env self ->
  connection self = Some c -> is_open c = true ->
  prints (module self) channel value = false ->
  _command fuel env cmd par channel value type_ self
  = Some (Raise ValueError, set_busy true self).
Proof.
  intros Hacq Hc Hopen Hp. unfold _command.
  unfold acquires in Hacq. rewrite Hacq.
  cbn [connection module set_busy]. now rewrite Hc, Hopen, Hp.
Qed.

Lemma command_exchange fuel env cmd par channel value type_ self c :
  acquires fuel env self ->
  connection self = Some c -> is_open c = true ->
  prints (module self) channel value = true ->
  is_ascii (cmd_string (module self) cmd par channel value) = true ->
  let line := cmd_string (module self) cmd par channel value in
  _command fuel env cmd par channel value type_ self =
  Some match Py.decode_ascii (fst (readline (write c line))) with
       | Raise e => (Raise e, exchanged self c line true)
       | Ok reply =>
           match _parse_reply reply type_ with
           | Raise e => (Raise e, exchanged self c line true)
           | Ok response => (Ok response, exchanged self c line false)
           end
       end.
Proof.
  intros Hacq Hc Hopen Hp Hascii line. subst line. unfold _command.
  unfold acquires in Hacq. rewrite Hacq.
  cbn [connection module set_busy]. rewrite Hc, Hopen, Hp.
  unfold Py.encode_ascii. rewrite Hascii. unfold exchanged.
  destruct (readline (write c _)) as [l c'] eqn:E. cbn [fst snd].
  destruct (Py.decode_ascii l) as [reply|e]; [|reflexivity].
  destruct (_parse_reply reply type_); reflexivity.
Qed.

(** Both cases at once. *)
Lemma command_outcome fuel env cmd par channel value type_ self c :
  acquires fuel env self ->
  connection self = Some c -> is_open c = true ->
  is_ascii (cmd_string (module self) cmd par channel value) = true ->
  let line := cmd_string (module self) cmd par channel value in
  _command fuel env cmd par channel value type_ self =
  Some (unless_refused self channel value
          match Py.decode_ascii (fst (readline (write c line))) with
          | Raise e => (Raise e, exchanged self c line true)
          | Ok reply =>
              match _parse_reply reply type_ with
              | Raise e => (Raise e, exchanged self c line true)
              | Ok response => (Ok response, exchanged self c line false)
              end
          end).
Proof.
  intros Hacq Hc Hopen Hascii line. unfold unless_refused.
  destruct (prints (module self) channel value) eqn:Hp.
  - now apply command_exchange.
  - now apply (command_refused _ _ _ _ _ _ _ _ c).
Qed.

(** A lone caller that finds the flag clear acquires at the first test. *)
Lemma alone_acquires dt fuel self :
  __busy self = false -> acquires (S fuel) (alone dt) self.
Proof. intros H. unfold acquires. now rewrite H. Qed.

Lemma readline_write c line reply rest :
  incoming c = reply :: rest ->
  readline (write c line)
  = (reply, {| is_open := is_open c; written := (written c ++ [line])%list;
               incoming := rest |}).
Proof. intros H. unfold readline, write. cbn. now rewrite H. Qed.

(** An exchange of a read that acquires the channel, on an open port whose
    next line is the ASCII text [reply]. *)
Lemma command_reads fuel env par channel type_ self c reply rest :
  acquires fuel env self ->
  connection self = Some c -> is_open c = true ->
  is_ascii par = true ->
  incoming c = reply :: rest -> is_ascii reply = true ->
  let line := cmd_string (module self) "MON" par channel PyNone in
  _command fuel env "MON" par channel PyNone type_ self =
  Some (unless_refused self channel PyNone
          match _parse_reply reply type_ with
          | Raise e => (Raise e, exchanged self c line true)
          | Ok response => (Ok response, exchanged self c line false)
          end).
Proof.
  intros Hacq Hc Hopen Hpar Hin Hreply line.
  rewrite (command_outcome _ _ _ _ _ _ _ _ c Hacq Hc Hopen)
    by (apply is_ascii_cmd_string; trivial; reflexivity).
  rewrite (readline_write _ _ _ _ Hin). cbn [fst].
  unfold Py.decode_ascii. now rewrite Hreply.
Qed.

(** ** The polarity and bus termination reads *)

(** C9: when the payload decoded from the reply to MON POL is the text +,
    the polarity read returns the integer 1, and for the text - it returns
    -1: the payload with the digit 1 put after it is read as an integer.
    (The read is refused with ValueError, before anything is sent, in the
    one case that the module number or the channel is an integer the
    interpreter does not print.) *)
Theorem polarity_sign fuel env channel self c reply rest payload :
  acquires fuel env self ->
  connection self = Some c -> is_open c = true ->
  incoming c = reply :: rest -> is_ascii reply = true ->
  _parse_reply reply None = Ok (PyStr payload) ->
  let after :=
    exchanged self c (cmd_string (module self) "MON" "POL" (Some channel) PyNone)
      false in
  polarity fuel env channel self
  = Some (unless_refused self (Some channel) PyNone
            (match Py.int_of_str (payload ++ "1") with
             | Some z => Ok (PyInt z)
             | None => Raise ValueError
             end, after))
  /\ (payload = "+" ->
      polarity fuel env channel self
      = Some (unless_refused self (Some channel) PyNone (Ok (PyInt 1), after)))
  /\ (payload = "-" ->
      polarity fuel env channel self
      = Some (unless_refused self (Some channel) PyNone (Ok (PyInt (-1)), after))).
Proof.
  intros Hacq Hc Hopen Hin Hreply Hparse after.
  assert (H : polarity fuel env channel self
              = Some (unless_refused self (Some channel) PyNone
                        (match Py.int_of_str (payload ++ "1") with
                         | Some z => Ok (PyInt z)
                         | None => Raise ValueError
                         end, after))).
  { unfold polarity, bindM.
    rewrite (command_reads fuel env "POL" (Some channel) None self c reply rest
               Hacq Hc Hopen eq_refl Hin Hreply).
    rewrite Hparse. unfold unless_refused.
    destruct (prints (module self) (Some channel) PyNone); [|reflexivity].
    unfold lift, ret. cbn [Py.int Py.str].
    now destruct (Py.int_of_str (payload ++ "1")). }
  split; [exact H|]. split; intros ->; exact H.
Qed.

Lemma polarity_sign_witness :
  let port l := {| is_open := true; written := []; incoming := [l] |} in
  let dev l := {| module := 0; connection := Some (port l);
                  _num_channels := 4; __busy := false |} in
  let plus := "#BD:00,CMD:OK,VAL:+" ++ CRLF in
  let minus := "#BD:00,CMD:OK,VAL:-" ++ CRLF in
  (exists s, polarity 1 (alone 1) 2 (dev plus) = Some (Ok (PyInt 1), s))
  /\ (exists s, polarity 1 (alone 1) 2 (dev minus) = Some (Ok (PyInt (-1)), s)).
Proof.
  intros port dev plus minus. split; eexists.
  - exact (proj1 (polarity_sign 1 (alone 1) 2 (dev plus) (port plus) plus [] "+"
                    eq_refl eq_refl eq_refl eq_refl eq_refl eq_refl)).
  - exact (proj1 (polarity_sign 1 (alone 1) 2 (dev minus) (port minus) minus [] "-"
                    eq_refl eq_refl eq_refl eq_refl eq_refl eq_refl)).
Defined.

(** C10: the bus termination read returns a boolean, true exactly when the
    payload decoded from the reply to MON BDTERM is the text ON; any other
    payload (on, OFF, ...) and the result without a value give false.  (The
    read is refused with ValueError, before anything is sent, in the one
    case that the module number is an integer the interpreter does not
    print.) *)
Theorem local_bus_termination_exact fuel env self c reply rest v :
  acquires fuel env self ->
  connection self = Some c -> is_open c = true ->
  incoming c = reply :: rest -> is_ascii reply = true ->
  _parse_reply reply None = Ok v ->
  local_bus_termination fuel env self
  = Some (unless_refused self None PyNone
            (Ok (PyBool (Py.eq_str v "ON")),
             exchanged self c (cmd_string (module self) "MON" "BDTERM" None PyNone)
               false))
  /\ (Py.eq_str v "ON" = true <-> v = PyStr "ON")
  /\ Py.eq_str (PyStr "on") "ON" = false
  /\ Py.eq_str (PyStr "OFF") "ON" = false
  /\ Py.eq_str PyNone "ON" = false.
Proof.
  intros Hacq Hc Hopen Hin Hreply Hparse. split; [|split; [|repeat split]].
  - unfold local_bus_termination, bindM.
    rewrite (command_reads fuel env "BDTERM" None None self c reply rest
               Hacq Hc Hopen eq_refl Hin Hreply).
    rewrite Hparse. unfold unless_refused.
    now destruct (prints (module self) None PyNone).
  - unfold Py.eq_str. destruct v; try (split; discriminate).
    destruct (String.eqb_spec s "ON") as [->|Hne]; split; trivial.
    + discriminate.
    + intros [= ->]. contradiction.
Qed.

Lemma local_bus_termination_exact_witness :
  let port l := {| is_open := true; written := []; incoming := [l] |} in
  let dev l := {| module := 0; connection := Some (port l);
                  _num_channels := 4; __busy := false |} in
  let on := "#BD:00,CMD:OK,VAL:ON" ++ CRLF in
  let off := "#BD:00,CMD:OK,VAL:OFF" ++ CRLF in
  let bare := "#BD:00,CMD:OK" ++ CRLF in
  (exists s, local_bus_termination 1 (alone 1) (dev on) = Some (Ok (PyBool true), s))
  /\ (exists s, local_bus_termination 1 (alone 1) (dev off)
                = Some (Ok (PyBool false), s))
  /\ (exists s, local_bus_termination 1 (alone 1) (dev bare)
                = Some (Ok (PyBool false), s)).
Proof.
  intros port dev on off bare. repeat split; eexists.
  - exact (proj1 (local_bus_termination_exact 1 (alone 1) (dev on) (port on) on []
                    (PyStr "ON") eq_refl eq_refl eq_refl eq_refl eq_refl eq_refl)).
  - exact (proj1 (local_bus_termination_exact 1 (alone 1) (dev off) (port off) off []
                    (PyStr "OFF") eq_refl eq_refl eq_refl eq_refl eq_refl eq_refl)).
  - exact (proj1 (local_bus_termination_exact 1 (alone 1) (dev bare) (port bare) bare []
                    PyNone eq_refl eq_refl eq_refl eq_refl eq_refl eq_refl)).
Defined.

(** ** Waiting for the channel *)

Lemma expired_iff env k :
  expired env k = true <-> (5 < time env (S k) - time env 0)%Q.
Proof.
  unfold expired. rewrite negb_true_iff.
  split; intros H.
  - apply Qnot_le_lt. intros Hle. apply Qle_bool_iff in Hle. congruence.
  - destruct (Qle_bool (time env (S k) - time env 0) 5) eqn:E; [|reflexivity].
    apply Qle_bool_iff in E. exfalso. now apply (Qlt_not_le _ _ H).
Qed.

(** The first index at which a boolean property holds. *)
Lemma first_true (P : nat -> bool) n :
  P n = true ->
  exists m, (m <= n)%nat /\ P m = true /\ forall k, (k < m)%nat -> P k = false.
Proof.
  induction n as [n IH] using lt_wf_ind. intros Hn.
  destruct (existsb P (seq 0 n)) eqn:E.
  - apply existsb_exists in E as (k & Hk & HP). apply in_seq in Hk.
    destruct (IH k ltac:(lia) HP) as (m & Hm & HPm & Hmin).
    exists m. repeat split; trivial; lia.
  - exists n. repeat split; trivial. intros k Hk.
    destruct (P k) eqn:HPk; [|reflexivity].
    assert (existsb P (seq 0 n) = true); [|congruence].
    apply existsb_exists. exists k. split; [apply in_seq; lia | exact HPk].
Qed.

(** While the flag stays set, the loop polls until the first expired
    reading and raises there. *)
Lemma wait_set env m :
  (forall k, others env k <> Some false) ->
  expired env m = true ->
  (forall k, (k < m)%nat -> expired env k = false) ->
  forall fuel k, (k <= m)%nat ->
    wait fuel env k true
    = if (m - k <? fuel)%nat then Some (Raise TimeoutError, true) else None.
Proof.
  intros Hset Hm Hmin. induction fuel as [|fuel IH]; intros k Hk.
  - reflexivity.
  - cbn [wait].
    assert (Hflag : match others env k with Some b => b | None => true end = true).
    { specialize (Hset k). destruct (others env k) as [[|]|]; congruence. }
    rewrite Hflag. fold (expired env k).
    destruct (Nat.eq_dec k m) as [->|Hne].
    + rewrite Hm. replace (m - m)%nat with 0%nat by lia. reflexivity.
    + rewrite (Hmin k) by lia. rewrite IH by lia.
      destruct (Nat.ltb_spec (m - S k) fuel), (Nat.ltb_spec (m - k) (S fuel));
        try reflexivity; lia.
Qed.

(** C4: when the busy flag is set at the time of the request and no other
    thread clears it, the exchange raises TimeoutError once a clock reading
    is more than five seconds after the start (and keeps polling until
    then), and it leaves the facade as it was: nothing is written to the
    port. *)
Theorem busy_timeout env cmd par channel value type_ self n :
  __busy self = true ->
  (forall k, others env k <> Some false) ->
  (5 < time env (S n) - time env 0)%Q ->
  exists m, (m <= n)%nat
    /\ (5 < time env (S m) - time env 0)%Q
    /\ (forall k, (k < m)%nat -> (time env (S k) - time env 0 <= 5)%Q)
    /\ (forall fuel, (m < fuel)%nat ->
          _command fuel env cmd par channel value type_ self
          = Some (Raise TimeoutError, self))
    /\ (forall fuel, (fuel <= m)%nat ->
          _command fuel env cmd par channel value type_ self = None).
Proof.
  intros Hbusy Hset Hn. apply expired_iff in Hn.
  destruct (first_true (expired env) n Hn) as (m & Hmn & Hm & Hmin).
  pose proof (wait_set env m Hset Hm Hmin) as Hwait.
  exists m. split; [exact Hmn|]. split; [now apply expired_iff|]. split.
  - intros k Hk. specialize (Hmin k Hk). unfold expired in Hmin.
    apply negb_false_iff in Hmin. now apply Qle_bool_iff.
  - split; intros fuel Hf; unfold _command; rewrite Hbusy, Hwait by lia;
      replace (m - 0)%nat with m by lia.
    + destruct (Nat.ltb_spec m fuel); [|lia].
      destruct self; simpl in *; now subst.
    + destruct (Nat.ltb_spec m fuel); [lia | reflexivity].
Qed.

Lemma busy_timeout_witness :
  let self := {| module := 0;
                 connection := Some {| is_open := true; written := [];
                                       incoming := ["#BD:00,CMD:OK,VAL:1.0" ++ CRLF] |};
                 _num_channels := 4; __busy := true |} in
  _command 6 (alone 1) "MON" "VSET" (Some 0) PyNone (Some Float) self
  = Some (Raise TimeoutError, self).
Proof.
  intros self.
  destruct (busy_timeout (alone 1) "MON" "VSET" (Some 0) PyNone (Some Float) self 5)
    as (m & Hm & _ & _ & Hraise & _).
  - reflexivity.
  - intros k; discriminate.
  - reflexivity.
  - apply Hraise. lia.
Defined.

(** ** The value field of the numeric writes *)

Lemma tenths_nonneg m e : 0 <= Py.tenths m e.
Proof.
  unfold Py.tenths. destruct (Z.leb_spec 0 e).
  - pose proof (Z.pow_nonneg 2 e). nia.
  - unfold Py.round_half_even.
    assert (0 < 2 ^ (- e)) by (apply Z.pow_pos_nonneg; lia).
    assert (0 <= Z.pos m * 10 / 2 ^ (- e)) by (apply Z.div_pos; lia).
    destruct (_ ?= _); [destruct (Z.even _)| |]; lia.
Qed.

Lemma str_int_digit k :
  0 <= k < 10 -> exists c, Py.str_int k = String c "" /\ is_digit c = true.
Proof.
  intros Hk.
  assert (H : k = 0 \/ k = 1 \/ k = 2 \/ k = 3 \/ k = 4 \/ k = 5 \/ k = 6
              \/ k = 7 \/ k = 8 \/ k = 9) by lia.
  repeat (destruct H as [->|H]); try subst k; eexists; split; reflexivity.
Qed.

Lemma one_decimal_shape s D c :
  forallb_str is_digit D = true -> D <> "" -> is_digit c = true ->
  one_decimal (Py.minus s ++ D ++ "." ++ String c "") = true.
Proof.
  intros HD Hne Hc.
  assert (Hspan : Grammar.span is_digit (D ++ "." ++ String c "")
                  = (D, "." ++ String c ""))
    by (apply span_app; [exact HD | reflexivity]).
  destruct D as [|x D']; [contradiction|].
  destruct s; unfold one_decimal.
  - cbn [Py.minus append]. cbn [append] in Hspan. rewrite Hspan. exact Hc.
  - assert (Hx : is_digit x = true) by (simpl in HD; now apply andb_true_iff in HD).
    cbn [Py.minus append]. cbn [append] in Hspan.
    assert (E : match String x (D' ++ String "." (String c "")) with
                | String "-" r => r
                | _ => String x (D' ++ String "." (String c ""))
                end = String x (D' ++ String "." (String c ""))).
    { apply is_digit_cases in Hx.
      repeat (destruct Hx as [->|Hx]); try subst x; reflexivity. }
    rewrite E, Hspan. exact Hc.
Qed.

(** The format [.1f] of a finite float has exactly one decimal digit. *)
Lemma fixed1_one_decimal f :
  match f with S754_finite _ _ _ | S754_zero _ => True | _ => False end ->
  one_decimal (Py.fixed1 f) = true.
Proof.
  destruct f as [s|s| |s m e]; try contradiction; intros _.
  - now destruct s.
  - unfold Py.fixed1.
    pose proof (tenths_nonneg m e) as Hn.
    destruct (str_int_nonneg (Py.tenths m e / 10)) as (d & -> & Hd & _);
      [apply Z.div_pos; lia|].
    destruct (str_int_digit (Py.tenths m e mod 10)) as (c & -> & Hc);
      [apply Z.mod_pos_bound; lia|].
    apply one_decimal_shape;
      [apply digits_of_uint0 | apply nonempty_of_uint0 | exact Hc].
Qed.

Lemma fixed1_ascii f : is_ascii (Py.fixed1 f) = true.
Proof.
  destruct f as [s|s| |s m e]; try (now destruct s); try reflexivity.
  unfold Py.fixed1. rewrite !is_ascii_app, !is_ascii_str_int.
  now destruct s.
Qed.

Lemma format_1f_finite v :
  finite v = true ->
  exists text, Py.format_1f v = Ok text /\ one_decimal text = true
               /\ is_ascii text = true.
Proof.
  unfold finite, as_float, Py.format_1f. intros H.
  destruct v as [|b|z|f|t]; try discriminate.
  - destruct (Py.float_of_int (if b then 1 else 0)) as [f|]; [|discriminate].
    exists (Py.fixed1 f). split; [reflexivity|]. split; [|apply fixed1_ascii].
    apply fixed1_one_decimal. destruct f; trivial; discriminate.
  - destruct (Py.float_of_int z) as [f|]; [|discriminate].
    exists (Py.fixed1 f). split; [reflexivity|]. split; [|apply fixed1_ascii].
    apply fixed1_one_decimal. destruct f; trivial; discriminate.
  - exists (Py.fixed1 f). split; [reflexivity|]. split; [|apply fixed1_ascii].
    apply fixed1_one_decimal. destruct f; trivial; discriminate.
Qed.

(** *** An integer converts to a finite float or overflows *)

Lemma iter_pos_inv {A} (P : A -> Prop) (f : A -> A) :
  (forall x, P x -> P (f x)) -> forall p x, P x -> P (iter_pos f p x).
Proof.
  intros Hf. induction p as [p IH|p IH|]; intros x Hx; simpl; auto.
Qed.

Lemma shr_1_nonneg mrs : 0 <= shr_m mrs -> 0 <= shr_m (shr_1 mrs).
Proof.
  destruct mrs as [m r s]. destruct m as [|[p|p|]|[p|p|]]; simpl; lia.
Qed.

Lemma shr_fexp_nonneg m e l :
  0 <= m -> 0 <= shr_m (fst (shr_fexp Py.prec Py.emax m e l)).
Proof.
  intros Hm. unfold shr_fexp, shr.
  assert (H0 : 0 <= shr_m (shr_record_of_loc m l)) by (now destruct l as [|[]]).
  destruct (_ - e) as [|p|p]; cbn [fst]; trivial.
  apply (iter_pos_inv (fun x => 0 <= shr_m x)); [apply shr_1_nonneg | exact H0].
Qed.

Lemma binary_round_aux_not_nan sx mx ex lx :
  0 <= mx -> binary_round_aux Py.prec Py.emax sx mx ex lx <> S754_nan.
Proof.
  intros Hm. unfold binary_round_aux.
  pose proof (shr_fexp_nonneg mx ex lx Hm) as H1.
  destruct (shr_fexp Py.prec Py.emax mx ex lx) as [mrs' e']. cbn [fst] in H1.
  assert (H2 : 0 <= round_nearest_even (shr_m mrs') (loc_of_shr_record mrs')).
  { unfold round_nearest_even.
    destruct (loc_of_shr_record mrs') as [|[]]; try lia.
    destruct (Z.even _); lia. }
  pose proof (shr_fexp_nonneg _ e' loc_Exact H2) as H3.
  destruct (shr_fexp Py.prec Py.emax _ e' loc_Exact) as [mrs'' e''].
  cbn [fst] in H3.
  destruct (shr_m mrs'') as [|p|p]; try discriminate; [|lia].
  destruct (_ <=? _); discriminate.
Qed.

Lemma float_of_int_finite z f :
  Py.float_of_int z = Some f -> finite (PyInt z) = true.
Proof.
  unfold finite, as_float. intros H. rewrite H.
  unfold Py.float_of_int in H.
  assert (Hn : binary_normalize Py.prec Py.emax z 0 false <> S754_nan).
  { destruct z as [|p|p]; simpl; try discriminate;
      unfold binary_round; destruct (shl_align _ _ _);
      apply binary_round_aux_not_nan; lia. }
  destruct (binary_normalize Py.prec Py.emax z 0 false);
    try discriminate; injection H as <-; trivial. contradiction.
Qed.

Lemma written_readline c : written (snd (readline c)) = written c.
Proof. unfold readline. now destruct (incoming c). Qed.

(** An exchange that acquires the channel on an open port writes its
    command line, whatever comes back, unless it is refused. *)
Lemma command_writes fuel env cmd par channel value type_ self c :
  acquires fuel env self ->
  connection self = Some c -> is_open c = true ->
  is_ascii (cmd_string (module self) cmd par channel value) = true ->
  exists out self' c',
    _command fuel env cmd par channel value type_ self = Some (out, self')
    /\ connection self' = Some c'
    /\ written c'
       = written_after self channel value c
           (cmd_string (module self) cmd par channel value).
Proof.
  intros Hacq Hc Hopen Hascii. unfold written_after.
  destruct (prints (module self) channel value) eqn:Hp.
  2:{ rewrite (command_refused _ _ _ _ _ _ _ _ c Hacq Hc Hopen Hp).
      now exists (Raise ValueError), (set_busy true self), c. }
  rewrite (command_exchange _ _ _ _ _ _ _ _ c Hacq Hc Hopen Hp Hascii).
  set (line := cmd_string (module self) cmd par channel value).
  assert (Hw : forall flag, exists c',
             connection (exchanged self c line flag) = Some c'
             /\ written c' = (written c ++ [line])%list).
  { intros flag. eexists. split; [reflexivity|]. now rewrite written_readline. }
  destruct (Py.decode_ascii _) as [reply|e].
  - destruct (_parse_reply reply type_) as [r|e].
    + destruct (Hw false) as (c' & H1 & H2).
      now exists (Ok r), (exchanged self c line false), c'.
    + destruct (Hw true) as (c' & H1 & H2).
      now exists (Raise e), (exchanged self c line true), c'.
  - destruct (Hw true) as (c' & H1 & H2).
    now exists (Raise e), (exchanged self c line true), c'.
Qed.

Lemma formatted_write fuel env par channel text self c :
  acquires fuel env self ->
  connection self = Some c -> is_open c = true ->
  is_ascii par = true -> is_ascii text = true ->
  exists out self' c',
    discard (_command fuel env "SET" par (Some channel) (PyStr text) None) self
    = Some (out, self')
    /\ connection self' = Some c'
    /\ written c'
       = written_after self (Some channel) (PyStr text) c
           (set_line (module self) channel par text).
Proof.
  intros Hacq Hc Hopen Hpar Htext.
  destruct (command_writes fuel env "SET" par (Some channel) (PyStr text) None
              self c Hacq Hc Hopen) as (out & self' & c' & Hrun & Hc' & Hw).
  { apply is_ascii_cmd_string; trivial. }
  unfold discard, bindM. rewrite Hrun.
  destruct out as [r|e].
  - exists (Ok tt), self', c'. repeat split; trivial.
  - exists (Raise e), self', c'. repeat split; trivial.
Qed.

(** A write whose value is inserted as it is given sends the text of the
    value. *)
Lemma natural_write fuel env par channel v text self c :
  acquires fuel env self ->
  connection self = Some c -> is_open c = true ->
  is_ascii par = true ->
  value_text v = Some text -> is_ascii text = true ->
  exists out self' c',
    discard (_command fuel env "SET" par (Some channel) v None) self
    = Some (out, self')
    /\ connection self' = Some c'
    /\ written c'
       = written_after self (Some channel) v c
           (set_line (module self) channel par text).
Proof.
  intros Hacq Hc Hopen Hpar Hv Htext.
  destruct (command_writes fuel env "SET" par (Some channel) v None
              self c Hacq Hc Hopen) as (out & self' & c' & Hrun & Hc' & Hw).
  { apply is_ascii_cmd_string; trivial. now rewrite Hv. }
  assert (E : cmd_string (module self) "SET" par (Some channel) v
              = set_line (module self) channel par text).
  { destruct v; cbn [value_text] in Hv; try discriminate;
      injection Hv as <-; reflexivity. }
  rewrite E in Hw.
  unfold discard, bindM. rewrite Hrun.
  destruct out as [r|e].
  - exists (Ok tt), self', c'. repeat split; trivial.
  - exists (Raise e), self', c'. repeat split; trivial.
Qed.

Lemma span_all p a : forallb_str p a = true -> Grammar.span p a = (a, "").
Proof.
  induction a as [|x a IH]; simpl; [reflexivity|].
  intros H. apply andb_true_iff in H as [Hx Ha]. now rewrite Hx, (IH Ha).
Qed.

(** The numeral of an integer: a minus sign for a negative one, then the
    digits that write its absolute value. *)
Lemma str_int_sign z : Py.str_int z = Py.minus (z <? 0) ++ Py.str_int (Z.abs z).
Proof. now destruct z. Qed.

Lemma str_int_abs_digits z :
  forallb_str is_digit (Py.str_int (Z.abs z)) = true
  /\ Py.str_int (Z.abs z) <> ""
  /\ decimal (Py.str_int (Z.abs z)) = Z.abs z.
Proof.
  destruct (str_int_nonneg (Z.abs z) (Z.abs_nonneg z)) as (d & E & Hd & _).
  split; [|split].
  - rewrite E. apply digits_of_uint0.
  - rewrite E. apply nonempty_of_uint0.
  - apply of_digits_str_int, Z.abs_nonneg.
Qed.

(** A text of digits, with or without a minus sign in front, has no decimal
    digit. *)
Lemma digits_not_one_decimal s D :
  forallb_str is_digit D = true -> one_decimal (Py.minus s ++ D) = false.
Proof.
  intros HD. pose proof (span_all _ _ HD) as Hspan.
  unfold one_decimal. destruct s; cbn [Py.minus append].
  - rewrite Hspan. now destruct D.
  - destruct D as [|x D']; [reflexivity|].
    assert (Hx : is_digit x = true) by (simpl in HD; now apply andb_true_iff in HD).
    assert (E : match String x D' with
                | String "-" r => r
                | _ => String x D'
                end = String x D').
    { apply is_digit_cases in Hx.
      repeat (destruct Hx as [->|Hx]); try subst x; reflexivity. }
    now rewrite E, Hspan.
Qed.

(** C8, as amended: a write of the target voltage or of the current limit
    with a finite number sends the number formatted with exactly one decimal
    digit in the VAL field.  The writes of the ramp-up rate, the ramp-down
    rate, the trip time and the voltage limit send the text of the value as
    [str] gives it; for an integer that is its numeral, a minus sign and
    digits, which never has a decimal digit.  (A write is refused with
    ValueError, and sends nothing, when the module number, the channel or
    an integer value is not printed.) *)
Theorem voltage_current_one_decimal fuel env channel self c :
  acquires fuel env self ->
  connection self = Some c -> is_open c = true ->
  let sends (m : M unit) (v : pyval) (par text : string) :=
    exists out self' c',
      m self = Some (out, self')
      /\ connection self' = Some c'
      /\ written c'
         = written_after self (Some channel) v c
             (set_line (module self) channel par text) in
  (forall v, finite v = true ->
     exists text,
       Py.format_1f v = Ok text /\ one_decimal text = true
       /\ sends (set_voltage fuel env channel v) (PyStr text) "VSET" text
       /\ sends (set_current_limit fuel env channel v) (PyStr text) "ISET" text)
  /\ (forall v text, value_text v = Some text -> is_ascii text = true ->
        sends (set_ramp_up_rate fuel env channel v) v "RUP" text
        /\ sends (set_ramp_down_rate fuel env channel v) v "RDW" text
        /\ sends (set_trip_time fuel env channel v) v "TRIP" text
        /\ sends (set_voltage_limit fuel env channel v) v "MAXV" text)
  /\ (forall z,
        let digits := Py.str_int (Z.abs z) in
        value_text (PyInt z) = Some (Py.minus (z <? 0) ++ digits)
        /\ forallb_str is_digit digits = true /\ digits <> ""
        /\ decimal digits = Z.abs z
        /\ is_ascii (Py.minus (z <? 0) ++ digits) = true
        /\ one_decimal (Py.minus (z <? 0) ++ digits) = false).
Proof.
  intros Hacq Hc Hopen sends. subst sends. cbv beta. split; [|split].
  - intros v Hfin.
    destruct (format_1f_finite v Hfin) as (text & Hfmt & Hone & Hascii).
    exists text. split; [exact Hfmt|]. split; [exact Hone|]. split.
    + unfold set_voltage, bindM, lift. rewrite Hfmt.
      now apply formatted_write.
    + unfold set_current_limit, bindM, lift. rewrite Hfmt.
      now apply formatted_write.
  - intros v text Hv Htext.
    unfold set_ramp_up_rate, set_ramp_down_rate, set_trip_time, set_voltage_limit.
    repeat split; now apply natural_write.
  - intros z digits. subst digits.
    destruct (str_int_abs_digits z) as (Hd & Hne & Hval).
    split; [|split; [|split; [|split; [|split]]]]; trivial.
    + cbn [value_text Py.str]. now rewrite <- str_int_sign.
    + rewrite <- str_int_sign. apply is_ascii_str_int.
    + now apply digits_not_one_decimal.
Qed.

Lemma voltage_current_one_decimal_witness :
  let half := PyFloat (S754_finite false 5066549580791808 (-51)) in
  sent (set_voltage 1 (alone 1) 2 half (bench []))
    = ["$BD:0,CMD:SET,CH:2,PAR:VSET,VAL:2.2" ++ CRLF]
  /\ sent (set_current_limit 1 (alone 1) 2 (PyInt 5) (bench []))
    = ["$BD:0,CMD:SET,CH:2,PAR:ISET,VAL:5.0" ++ CRLF]
  /\ sent (set_trip_time 1 (alone 1) 2 (PyInt (-30)) (bench []))
    = ["$BD:0,CMD:SET,CH:2,PAR:TRIP,VAL:-30" ++ CRLF].
Proof.
  intros half.
  destruct (voltage_current_one_decimal 1 (alone 1) 2 (bench []) _
              eq_refl eq_refl eq_refl) as (Hfix & Hnat & Hint).
  split; [|split].
  - destruct (Hfix half eq_refl)
      as (text & Hfmt & _ & (out & self' & c' & Hrun & Hc' & Hw) & _).
    rewrite Hrun. unfold sent. rewrite Hc', Hw.
    injection Hfmt as <-. reflexivity.
  - destruct (Hfix (PyInt 5) eq_refl)
      as (text & Hfmt & _ & _ & (out & self' & c' & Hrun & Hc' & Hw)).
    rewrite Hrun. unfold sent. rewrite Hc', Hw.
    injection Hfmt as <-. reflexivity.
  - destruct (Hnat (PyInt (-30)) "-30" eq_refl eq_refl)
      as (_ & _ & (out & self' & c' & Hrun & Hc' & Hw) & _).
    rewrite Hrun. unfold sent. rewrite Hc', Hw. reflexivity.
Defined.

(** C8, as stated, fails: the ramp rates are sent as they are given.  The
    integer 5 goes out as 5 and the float 0.25 as 0.25, neither with exactly
    one decimal digit; and a voltage that is not finite goes out as inf. *)
Lemma ramp_rate_sent_as_given :
  let quarter := PyFloat (S754_finite false 4503599627370496 (-54)) in
  let up := "$BD:0,CMD:SET,CH:2,PAR:RUP,VAL:5" ++ CRLF in
  let down := "$BD:0,CMD:SET,CH:2,PAR:RDW,VAL:0.25" ++ CRLF in
  let inf := "$BD:0,CMD:SET,CH:2,PAR:VSET,VAL:inf" ++ CRLF in
  (sent (set_ramp_up_rate 1 (alone 1) 2 (PyInt 5) (bench [])) = [up]
   /\ val_field up = Some "5" /\ one_decimal "5" = false)
  /\ (sent (set_ramp_down_rate 1 (alone 1) 2 quarter (bench [])) = [down]
      /\ val_field down = Some "0.25" /\ one_decimal "0.25" = false)
  /\ (sent (set_voltage 1 (alone 1) 2 (PyFloat (S754_infinity false)) (bench []))
      = [inf]
      /\ val_field inf = Some "inf" /\ one_decimal "inf" = false).
Proof. vm_compute. repeat split. Qed.

(** ** The busy flag on the exits of an exchange *)

Lemma wait_outcome fuel env k flag r b :
  wait fuel env k flag = Some (r, b) ->
  (r = Raise TimeoutError /\ b = true) \/ (r = Ok tt /\ b = false).
Proof.
  revert k flag. induction fuel as [|fuel IH]; intros k flag; [discriminate|].
  cbn [wait].
  destruct (match others env k with Some b0 => b0 | None => flag end).
  - destruct (negb _).
    + intros [= <- <-]. now left.
    + apply IH.
  - intros [= <- <-]. now right.
Qed.

(** Every exit of [_command] by an exception leaves the busy flag set; only
    the normal return clears it. *)
Lemma command_exit_flag fuel env cmd par channel value type_ self out self' :
  _command fuel env cmd par channel value type_ self = Some (out, self') ->
  __busy self' = match out with Ok _ => false | Raise _ => true end.
Proof.
  unfold _command.
  destruct (wait fuel env 0 (__busy self)) as [[r b]|] eqn:W; [|discriminate].
  destruct (wait_outcome _ _ _ _ _ _ W) as [[-> ->]|[-> ->]].
  - intros [= <- <-]. reflexivity.
  - cbn [connection set_busy].
    destruct (connection self) as [c|]; [|intros [= <- <-]; reflexivity].
    destruct (is_open c); [|intros [= <- <-]; reflexivity].
    destruct (prints _ _ _); [|intros [= <- <-]; reflexivity].
    destruct (Py.encode_ascii _); [|intros [= <- <-]; reflexivity].
    destruct (readline _) as [l c'].
    destruct (Py.decode_ascii l); [|intros [= <- <-]; reflexivity].
    destruct (_parse_reply _ _); intros [= <- <-]; reflexivity.
Qed.

(** A lone caller that finds the flag set never gets through: it is still
    polling, or it has raised TimeoutError. *)
Lemma alone_blocked dt fuel cmd par channel value type_ self :
  __busy self = true ->
  _command fuel (alone dt) cmd par channel value type_ self = None
  \/ _command fuel (alone dt) cmd par channel value type_ self
     = Some (Raise TimeoutError, self).
Proof.
  intros Hb. unfold _command. rewrite Hb.
  assert (H : forall k, wait fuel (alone dt) k true = None
                        \/ wait fuel (alone dt) k true = Some (Raise TimeoutError, true)).
  { induction fuel as [|fuel IH]; intros k; [now left|].
    cbn [wait alone others]. destruct (negb _); [now right | apply IH]. }
  destruct (H 0%nat) as [->| ->]; [now left | right].
  destruct self; simpl in *; now subst.
Qed.

(** C1, on the code: an exchange whose reply is an error frame raises
    UnknownCommandError and leaves the busy flag set, and the next exchange
    of the same caller then raises TimeoutError without writing; the same
    happens after the check of the connection fails on a closed port. *)
Theorem busy_kept_after_failure :
  let self0 := bench ["#BD:00,CMD:ERR" ++ CRLF; "#BD:00,CMD:OK,VAL:1.0" ++ CRLF] in
  (exists self1,
      voltage 1 (alone 1) 0 self0 = Some (Raise UnknownCommandError, self1)
      /\ __busy self1 = true
      /\ voltage 6 (alone 1) 0 self1 = Some (Raise TimeoutError, self1)
      /\ sent (voltage 6 (alone 1) 0 self1) = sent (voltage 1 (alone 1) 0 self0))
  /\ (exists self1,
      voltage 1 (alone 1) 0 (disconnect self0) = Some (Raise ConnectionError, self1)
      /\ __busy self1 = true
      /\ voltage 6 (alone 1) 0 self1 = Some (Raise TimeoutError, self1)).
Proof.
  split; eexists; repeat split; vm_compute; reflexivity.
Qed.

(** ** The alarm word *)

(** [AlarmStatus] has a member for 0 and for each single alarm bit only. *)
Lemma alarm_lookup_iff z :
  (exists a, AlarmStatus_.lookup z = Ok a) <-> In z [0; 1; 2; 4; 8; 16; 32; 64].
Proof.
  split.
  - intros [a H]. unfold AlarmStatus_.lookup in H.
    destruct (find _ _) as [b|] eqn:F; [|discriminate].
    apply find_some in F as [_ F]. apply Z.eqb_eq in F. subst z.
    destruct b; simpl; tauto.
  - simpl. intros H.
    repeat (destruct H as [<-|H]); try contradiction; eexists; reflexivity.
Qed.

(** C2, on the code: with the alarms of channels 0 and 1 both set the device
    reports 3, and the alarm read raises ValueError; a word with a single
    alarm bit is returned as the member of that bit. *)
Theorem alarm_status_two_alarms :
  Z.lor (AlarmStatus_.value CHANNEL_0_ALARM) (AlarmStatus_.value CHANNEL_1_ALARM) = 3
  /\ (exists s, alarm_status 1 (alone 1) (bench ["#BD:00,CMD:OK,VAL:3" ++ CRLF])
                = Some (Raise ValueError, s))
  /\ (exists s, alarm_status 1 (alone 1) (bench ["#BD:00,CMD:OK,VAL:2" ++ CRLF])
                = Some (Ok CHANNEL_1_ALARM, s)).
Proof.
  split; [reflexivity|]. split; eexists; vm_compute; reflexivity.
Qed.

(** ** Error frames *)

(** A run of digits in front of a comma, when the rest of the pattern cannot
    start with a digit. *)
Lemma rep_digits_comma {A} ds tail (k : string -> option A) :
  forallb_str is_digit ds = true ->
  (forall c s, is_digit c = true -> k (String c s) = None) ->
  forall lo, (lo <= String.length ds)%nat ->
  rep is_digit lo None (ds ++ String "," tail) k = k (String "," tail).
Proof.
  intros Hds Hk. induction ds as [|c ds IH]; intros lo Hlo.
  - simpl in Hlo. replace lo with 0%nat by lia. reflexivity.
  - simpl in Hds. apply andb_true_iff in Hds as [Hc Hds].
    change (rep is_digit lo None (String c ds ++ String "," tail) k)
      with (if is_digit c
            then match rep is_digit (pred lo) None (ds ++ String "," tail) k with
                 | Some r => Some r
                 | None => match lo with
                           | O => k (String c (ds ++ String "," tail))
                           | S _ => None
                           end
                 end
            else match lo with
                 | O => k (String c (ds ++ String "," tail))
                 | S _ => None
                 end).
    rewrite Hc, (IH Hds) by (simpl in Hlo; lia).
    destruct (k (String "," tail)); [reflexivity|].
    destruct lo; [now apply Hk | reflexivity].
Qed.

Lemma err_pattern_frame what ds tail :
  forallb_str is_digit ds = true -> ds <> "" ->
  matches (err_pattern what) ("#BD:" ++ ds ++ String "," tail)
  = match lit (what ++ ":ERR" ++ CRLF) tail with
    | Some r => at_end r
    | None => false
    end.
Proof.
  intros Hds Hne. unfold matches, re_match, err_pattern.
  cbn [run lit append Ascii.eqb Bool.eqb].
  rewrite rep_digits_comma; trivial.
  - destruct (lit _ tail) as [r|]; [|reflexivity].
    now destruct (at_end r).
  - intros c s Hc. cbn [lit append].
    apply is_digit_cases in Hc.
    repeat (destruct Hc as [->|Hc]); try subst c; reflexivity.
  - destruct ds; [contradiction | simpl; lia].
Qed.

(** An error frame that starts the line is classified as the specification
    says, for any module number. *)
Lemma check_error_frames ds :
  forallb_str is_digit ds = true -> ds <> "" ->
  __check_error ("#BD:" ++ ds ++ ",CMD:ERR" ++ CRLF) = Raise UnknownCommandError
  /\ __check_error ("#BD:" ++ ds ++ ",CH:ERR" ++ CRLF) = Raise ChannelError
  /\ __check_error ("#BD:" ++ ds ++ ",PAR:ERR" ++ CRLF) = Raise ParameterError
  /\ __check_error ("#BD:" ++ ds ++ ",VAL:ERR" ++ CRLF) = Raise ValueError
  /\ __check_error ("#BD:" ++ ds ++ ",LOC:ERR" ++ CRLF) = Raise PermissionError.
Proof.
  intros Hds Hne. unfold __check_error.
  repeat split; cbn [append];
    repeat match goal with
      | |- context [matches (err_pattern ?w)
                      (String ?a (String ?b (String ?c (String ?d
                         (ds ++ String "," ?t)))))] =>
          rewrite (err_pattern_frame w ds t Hds Hne
                   : matches (err_pattern w)
                       (String a (String b (String c (String d
                          (ds ++ String "," t))))) = _)
      end;
    reflexivity.
Qed.

(** A line that starts with white space passes [__check_error]. *)
Lemma check_error_space c s :
  isspace c = true -> __check_error (String c s) = Ok tt.
Proof.
  intros Hc. unfold __check_error.
  now rewrite !err_pattern_space by exact Hc.
Qed.

(** C3, on the code: the error patterns are matched on the line as it was
    received.  An error frame after a blank is not classified and decodes to
    no value, while the same frame at the start of the line raises, and a
    success frame after a blank is decoded. *)
Theorem check_error_not_trimmed :
  _parse_reply (" #BD:02,CMD:ERR" ++ CRLF) None = Ok PyNone
  /\ _parse_reply ("#BD:02,CMD:ERR" ++ CRLF) None = Raise UnknownCommandError
  /\ _parse_reply (" #BD:02,CMD:OK,VAL:7" ++ CRLF) None = Ok (PyStr "7")
  /\ (exists s, set_voltage 1 (alone 1) 0 (PyInt 5) (bench [" #BD:00,VAL:ERR" ++ CRLF])
                = Some (Ok tt, s)).
Proof.
  repeat split; try (vm_compute; reflexivity).
  eexists; vm_compute; reflexivity.
Qed.

(** * Further properties of the code *)

(** ** The outcomes of an exchange *)

Lemma wait_raise_expired fuel env k flag e b :
  wait fuel env k flag = Some (Raise e, b) ->
  exists j, expired env j = true.
Proof.
  revert k flag. induction fuel as [|fuel IH]; intros k flag; [discriminate|].
  cbn [wait].
  destruct (match others env k with Some b0 => b0 | None => flag end).
  - fold (expired env k). destruct (expired env k) eqn:E.
    + intros _. now exists k.
    + apply IH.
  - discriminate.
Qed.

(** The exceptions [_parse_reply] can raise. *)
Lemma parse_reply_raises reply type_ e :
  _parse_reply reply type_ = Raise e ->
  (exists what, In (what, e) error_table /\ matches (err_pattern what) reply = true)
  \/ (e = InvalidReplyError /\ __check_error reply = Ok tt
      /\ exists m t, re_match ok_pattern (lstrip reply) = Some m
                     /\ type_ = Some t /\ call t (group m 2) = Raise ValueError).
Proof.
  unfold _parse_reply, __check_error, error_table.
  destruct (matches (err_pattern "CMD") reply) eqn:E1;
    [intros [= <-]; left; exists "CMD"; simpl; auto|].
  destruct (matches (err_pattern "CH") reply) eqn:E2;
    [intros [= <-]; left; exists "CH"; simpl; auto|].
  destruct (matches (err_pattern "PAR") reply) eqn:E3;
    [intros [= <-]; left; exists "PAR"; simpl; auto|].
  destruct (matches (err_pattern "VAL") reply) eqn:E4;
    [intros [= <-]; left; exists "VAL"; simpl; auto 6|].
  destruct (matches (err_pattern "LOC") reply) eqn:E5;
    [intros [= <-]; left; exists "LOC"; simpl; auto 7|].
  destruct (re_match ok_pattern (lstrip reply)) as [m|]; [|discriminate].
  destruct type_ as [t|]; [|discriminate].
  destruct (call t (group m 2)) as [v|e'] eqn:C; [discriminate|].
  pose proof (call_raises _ _ _ C) as ->. intros [= <-].
  right. split; [reflexivity|]. split; [reflexivity|].
  exists m, t. repeat split. exact C.
Qed.

(** Every way an exchange can end. *)
Lemma command_inv fuel env cmd par channel value type_ self out self' :
  _command fuel env cmd par channel value type_ self = Some (out, self') ->
  let line := cmd_string (module self) cmd par channel value in
  (out = Raise TimeoutError /\ self' = set_busy true self
   /\ exists j, expired env j = true)
  \/ (acquires fuel env self /\ out = Raise ConnectionError
      /\ self' = set_busy true self /\ is_connected self = false)
  \/ (acquires fuel env self /\ out = Raise ValueError
      /\ self' = set_busy true self /\ is_connected self = true
      /\ prints (module self) channel value = false)
  \/ (acquires fuel env self /\ out = Raise UnicodeEncodeError
      /\ self' = set_busy true self /\ is_connected self = true
      /\ prints (module self) channel value = true /\ is_ascii line = false)
  \/ (acquires fuel env self
      /\ prints (module self) channel value = true /\ is_ascii line = true
      /\ exists c, connection self = Some c /\ is_open c = true
         /\ ((exists e, out = Raise e /\ self' = exchanged self c line true
                        /\ (e = UnicodeDecodeError
                            \/ exists reply, _parse_reply reply type_ = Raise e))
             \/ (exists v, out = Ok v /\ self' = exchanged self c line false))).
Proof.
  intros H line. unfold _command in H.
  destruct (wait fuel env 0 (__busy self)) as [[r b]|] eqn:W; [|discriminate].
  destruct (wait_outcome _ _ _ _ _ _ W) as [[-> ->]|[-> ->]].
  - injection H as <- <-. left. repeat split.
    now apply (wait_raise_expired _ _ _ _ _ _ W).
  - right. cbn [connection module set_busy] in H. fold line in H.
    unfold is_connected.
    destruct (connection self) as [c|] eqn:Hc;
      [|injection H as <- <-; left; now repeat split].
    destruct (is_open c) eqn:Ho;
      [|injection H as <- <-; left; now repeat split].
    right.
    destruct (prints (module self) channel value) eqn:Hp;
      [|injection H as <- <-; left; now repeat split].
    right. unfold Py.encode_ascii in H.
    destruct (is_ascii line) eqn:Ha;
      [|injection H as <- <-; left; now repeat split].
    right. split; [exact W|]. split; [reflexivity|]. split; [reflexivity|].
    exists c. split; [reflexivity|]. split; [exact Ho|].
    unfold exchanged.
    destruct (readline (write c line)) as [l c'] eqn:R. cbn [snd].
    destruct (Py.decode_ascii l) as [reply|e] eqn:D.
    + destruct (_parse_reply reply type_) as [v|e] eqn:P;
        injection H as <- <-.
      * right. now exists v.
      * left. exists e. repeat split. right. now exists reply.
    + injection H as <- <-. left. exists e. repeat split. left.
      unfold Py.decode_ascii in D. destruct (is_ascii l); congruence.
Qed.

Lemma exchanged_connection self c line flag :
  exists c', connection (exchanged self c line flag) = Some c'
             /\ is_open c' = is_open c
             /\ written c' = (written c ++ [line])%list
             /\ incoming c' = tl (incoming c).
Proof.
  unfold exchanged, readline, write. cbn.
  destruct (incoming c); eexists; repeat split.
Qed.

(** X1: however an exchange ends, the busy flag it leaves is clear after a
    normal return and set after any exception; the module number, the number
    of channels and the state of the connection are as before. *)
Theorem exchange_exit_state fuel env cmd par channel value type_ self out self' :
  _command fuel env cmd par channel value type_ self = Some (out, self') ->
  __busy self' = match out with Ok _ => false | Raise _ => true end
  /\ module self' = module self
  /\ _num_channels self' = _num_channels self
  /\ is_connected self' = is_connected self.
Proof.
  intros H. apply command_inv in H. cbv zeta in H.
  destruct H as [(-> & -> & _)|[(_ & -> & -> & _)|[(_ & -> & -> & _)|
    [(_ & -> & -> & _)|
     (_ & _ & _ & c & Hc & Ho & [(e & -> & -> & _)|(v & -> & ->)])]]]];
    try (repeat split; reflexivity);
    repeat split; unfold is_connected; rewrite Hc, Ho;
    destruct (exchanged_connection self c
                (cmd_string (module self) cmd par channel value) true)
      as (c1 & H1 & O1 & _);
    destruct (exchanged_connection self c
                (cmd_string (module self) cmd par channel value) false)
      as (c2 & H2 & O2 & _);
    rewrite ?H1, ?H2; congruence.
Qed.

Lemma exchange_exit_state_witness :
  let self := bench ["#BD:00,CMD:OK,VAL:ab" ++ CRLF] in
  exists self',
    voltage 1 (alone 1) 0 self = Some (Raise InvalidReplyError, self')
    /\ __busy self' = true.
Proof.
  intros self. eexists. split; [vm_compute; reflexivity|].
  apply (exchange_exit_state 1 (alone 1) "MON" "VSET" (Some 0) PyNone (Some Float)
           self (Raise InvalidReplyError)).
  vm_compute. reflexivity.
Defined.

(** X2: an exchange writes its command line once and reads one line, or it
    touches the port not at all.  It leaves the port untouched exactly when
    it raises TimeoutError, ConnectionError, the encoding error, or the
    ValueError of an integer that is not printed; a command with such an
    integer is never sent.  Every other ValueError comes after the write. *)
Theorem exchange_io fuel env cmd par channel value type_ self out self' c :
  _command fuel env cmd par channel value type_ self = Some (out, self') ->
  connection self = Some c ->
  let quiet := out = Raise TimeoutError \/ out = Raise ConnectionError
               \/ out = Raise UnicodeEncodeError
               \/ (out = Raise ValueError
                   /\ prints (module self) channel value = false) in
  (exists c', connection self' = Some c' /\ is_open c' = is_open c
     /\ ((quiet /\ c' = c)
         \/ (~ quiet
             /\ written c'
                = (written c ++ [cmd_string (module self) cmd par channel value])%list
             /\ incoming c' = tl (incoming c))))
  /\ (prints (module self) channel value = false -> quiet).
Proof.
  intros H Hc quiet. apply command_inv in H. cbv zeta in H. subst quiet.
  destruct H as [(-> & -> & _)|[(_ & -> & -> & _)|[(_ & -> & -> & _ & Hp)|
    [(_ & -> & -> & _ & Hp & _)|(_ & Hp & _ & c0 & Hc0 & Ho & H)]]]];
    try (split; [exists c; split; [exact Hc|]; split; [reflexivity|]; left|];
         tauto);
    try (split; [|congruence];
         exists c; split; [exact Hc|]; split; [reflexivity|]; left; tauto).
  split; [|congruence].
  rewrite Hc in Hc0. injection Hc0 as <-.
  destruct H as [(e & -> & -> & He)|(v & -> & ->)].
  - destruct (exchanged_connection self c
                (cmd_string (module self) cmd par channel value) true)
      as (c' & H1 & O1 & W1 & I1).
    exists c'. repeat split; trivial. right. repeat split; trivial.
    intros [Q|[Q|[Q|[_ Q]]]]; [| | |congruence]; injection Q as ->;
      (destruct He as [He|(reply & He)]; [discriminate|]);
      apply parse_reply_raises in He;
      destruct He as [(what & Hin & _)|(He & _)]; try discriminate;
      simpl in Hin; intuition congruence.
  - destruct (exchanged_connection self c
                (cmd_string (module self) cmd par channel value) false)
      as (c' & H1 & O1 & W1 & I1).
    exists c'. repeat split; trivial. right. repeat split; trivial.
    intros [Q|[Q|[Q|[Q _]]]]; discriminate.
Qed.

Lemma exchange_io_witness :
  let port := {| is_open := true; written := [];
                 incoming := ["#BD:00,CMD:OK,VAL:7" ++ CRLF; "later"] |} in
  let self := {| module := 0; connection := Some port;
                 _num_channels := 4; __busy := false |} in
  exists c', written c' = ["$BD:0,CMD:MON,CH:3,PAR:TRIP" ++ CRLF]
             /\ incoming c' = ["later"].
Proof.
  intros port self.
  destruct (exchange_io 1 (alone 1) "MON" "TRIP" (Some 3) PyNone (Some Float)
              self (Ok (PyFloat (S754_finite false 7881299347898368 (-50))))
              (exchanged self port (cmd_string 0 "MON" "TRIP" (Some 3) PyNone) false)
              port)
    as ((c' & _ & _ & [([Q|[Q|[Q|[Q _]]]] & _)|(_ & Hw & Hi)]) & _);
    try discriminate; try (vm_compute; reflexivity).
  exists c'. split; [exact Hw | exact Hi].
Defined.

(** An exchange that gets the channel returns or raises, and what it raises
    is not TimeoutError. *)
Lemma acquired_outcome fuel env cmd par channel value type_ self :
  acquires fuel env self ->
  exists out self',
    _command fuel env cmd par channel value type_ self = Some (out, self')
    /\ out <> Raise TimeoutError.
Proof.
  intros Hacq.
  assert (Hsome : exists out self',
             _command fuel env cmd par channel value type_ self = Some (out, self')).
  { unfold _command. unfold acquires in Hacq. rewrite Hacq.
    cbn [connection set_busy].
    destruct (connection self) as [c|]; [|now eexists _, _].
    destruct (is_open c); [|now eexists _, _].
    destruct (prints _ _ _); [|now eexists _, _].
    destruct (Py.encode_ascii _); [|now eexists _, _].
    destruct (readline _) as [l c'].
    destruct (Py.decode_ascii l); [|now eexists _, _].
    destruct (_parse_reply _ _); now eexists _, _. }
  destruct Hsome as (out & self' & H). exists out, self'. split; [exact H|].
  intros ->. unfold _command in H. unfold acquires in Hacq. rewrite Hacq in H.
  cbn [connection set_busy] in H.
  destruct (connection self) as [c|]; [|discriminate].
  destruct (is_open c); [|discriminate].
  destruct (prints _ _ _); [|discriminate].
  destruct (Py.encode_ascii _) as [bytes|e] eqn:E;
    [|unfold Py.encode_ascii in E; destruct (is_ascii _); congruence].
  destruct (readline _) as [l c'].
  destruct (Py.decode_ascii l) as [reply|e] eqn:D;
    [|unfold Py.decode_ascii in D; destruct (is_ascii _); congruence].
  destruct (_parse_reply reply type_) as [v|e] eqn:P; [discriminate|].
  injection H as -> _. apply parse_reply_raises in P.
  destruct P as [(what & Hin & _)|(He & _)]; try discriminate.
  simpl in Hin. intuition congruence.
Qed.

(** The loop from its [k]-th test on raises TimeoutError exactly when the
    flag is read as set at every test up to one whose clock reading is the
    first that is late, within the tests the fuel allows. *)
Lemma wait_timeout_iff env flag0 fuel :
  forall k b,
    wait fuel env k (match k with O => flag0 | S k' => seen env flag0 k' end)
    = Some (Raise TimeoutError, b)
    <-> b = true
        /\ exists m, (k <= m < k + fuel)%nat
             /\ expired env m = true
             /\ (forall j, (k <= j < m)%nat -> expired env j = false)
             /\ (forall j, (k <= j <= m)%nat -> seen env flag0 j = true).
Proof.
  induction fuel as [|fuel IH]; intros k b.
  - split; [discriminate|]. intros (_ & m & Hm & _). lia.
  - cbn [wait].
    assert (Hseen : match others env k with
                    | Some b0 => b0
                    | None => match k with O => flag0 | S k' => seen env flag0 k' end
                    end = seen env flag0 k) by (now destruct k).
    rewrite Hseen. fold (expired env k).
    destruct (seen env flag0 k) eqn:Sk.
    + destruct (expired env k) eqn:Ek.
      * split.
        -- intros [= <-]. split; [reflexivity|]. exists k.
           split; [lia|]. split; [exact Ek|]. split.
           ++ intros j Hj. lia.
           ++ intros j Hj. now replace j with k by lia.
        -- now intros (-> & _).
      * rewrite <- Sk. rewrite (IH (S k) b). rewrite Sk. split.
        -- intros (-> & m & Hm & Hexp & Hlive & Hset).
           split; [reflexivity|]. exists m. repeat split; trivial; try lia.
           ++ intros j Hj. destruct (Nat.eq_dec j k) as [->|]; [exact Ek|].
              apply Hlive. lia.
           ++ intros j Hj. destruct (Nat.eq_dec j k) as [->|]; [exact Sk|].
              apply Hset. lia.
        -- intros (-> & m & Hm & Hexp & Hlive & Hset).
           split; [reflexivity|]. exists m.
           assert (m <> k) by (intros ->; congruence).
           repeat split; trivial; try lia.
           ++ intros j Hj. apply Hlive. lia.
           ++ intros j Hj. apply Hset. lia.
    + split; [discriminate|].
      intros (_ & m & Hm & _ & _ & Hset).
      specialize (Hset k ltac:(lia)). congruence.
Qed.

(** X3: an exchange raises TimeoutError exactly when the waiting loop read
    the busy flag as set at every test up to one, among the tests made,
    whose clock reading is the first to be more than five seconds after the
    start; the facade is then left as it was, with the flag set: nothing is
    written. *)
Theorem timeout_only_after_budget fuel env cmd par channel value type_ self self' :
  _command fuel env cmd par channel value type_ self
  = Some (Raise TimeoutError, self')
  <->
  self' = set_busy true self
  /\ exists k, (k < fuel)%nat
       /\ (5 < time env (S k) - time env 0)%Q
       /\ (forall j, (j < k)%nat -> (time env (S j) - time env 0 <= 5)%Q)
       /\ (forall j, (j <= k)%nat -> seen env (__busy self) j = true).
Proof.
  split.
  - intros H.
    destruct (wait fuel env 0 (__busy self)) as [[[u|e] b]|] eqn:E.
    + destruct (wait_outcome _ _ _ _ _ _ E) as [[Q _]|[_ ->]]; [discriminate|].
      destruct u.
      destruct (acquired_outcome fuel env cmd par channel value type_ self E)
        as (out & s1 & Hrun & Hne).
      rewrite Hrun in H. injection H as -> _. contradiction.
    + destruct (wait_outcome _ _ _ _ _ _ E) as [[Q ->]|[Q _]]; [|discriminate].
      injection Q as ->.
      unfold _command in H. rewrite E in H. injection H as <-.
      destruct (proj1 (wait_timeout_iff env (__busy self) fuel 0 true) E)
        as (_ & m & Hm & Hexp & Hlive & Hset).
      split; [reflexivity|]. exists m. repeat split.
      * lia.
      * now apply expired_iff.
      * intros j Hj. specialize (Hlive j ltac:(lia)). unfold expired in Hlive.
        apply negb_false_iff in Hlive. now apply Qle_bool_iff.
      * intros j Hj. apply Hset. lia.
    + unfold _command in H. rewrite E in H. discriminate.
  - intros (-> & k & Hk & Hexp & Hlive & Hset).
    assert (E : wait fuel env 0 (__busy self) = Some (Raise TimeoutError, true)).
    { apply (wait_timeout_iff env (__busy self) fuel 0 true).
      split; [reflexivity|]. exists k. repeat split.
      - lia.
      - lia.
      - now apply expired_iff.
      - intros j Hj. unfold expired. apply negb_false_iff, Qle_bool_iff.
        apply Hlive. lia.
      - intros j Hj. apply Hset. lia. }
    unfold _command. now rewrite E.
Qed.

Lemma timeout_only_after_budget_witness :
  let self := set_busy true (bench []) in
  _command 6 (alone 1) "MON" "VSET" (Some 0) PyNone None self
  = Some (Raise TimeoutError, self).
Proof.
  intros self.
  apply (proj2 (timeout_only_after_budget 6 (alone 1) "MON" "VSET" (Some 0) PyNone
                  None self self)).
  split; [reflexivity|]. exists 5%nat. repeat split.
  - lia.
  - intros j Hj.
    destruct j as [|[|[|[|[|j]]]]]; try (intros Q; discriminate Q); lia.
  - intros j Hj.
    destruct j as [|[|[|[|[|[|j]]]]]]; try reflexivity; lia.
Defined.

(** ** Getting the channel *)

Lemma wait_handover env j :
  (forall k, (k < j)%nat -> others env k <> Some false) ->
  others env j = Some false ->
  (forall k, (k < j)%nat -> expired env k = false) ->
  forall fuel k, (k <= j)%nat -> (j - k < fuel)%nat ->
    wait fuel env k true = Some (Ok tt, false).
Proof.
  intros Hkeep Hfree Hlive. induction fuel as [|fuel IH]; intros k Hk Hf; [lia|].
  cbn [wait]. destruct (Nat.eq_dec k j) as [->|Hne].
  - now rewrite Hfree.
  - assert (Hflag : match others env k with Some b => b | None => true end = true).
    { specialize (Hkeep k ltac:(lia)).
      destruct (others env k) as [[|]|]; congruence. }
    rewrite Hflag. fold (expired env k). rewrite (Hlive k) by lia.
    apply IH; lia.
Qed.

(** X4: an exchange that finds the busy flag set goes through once another
    thread clears the flag, provided no reading of the clock taken until
    then was more than five seconds after the start: it does not raise
    TimeoutError. *)
Theorem flag_handover env cmd par channel value type_ self j :
  __busy self = true ->
  (forall k, (k < j)%nat -> others env k <> Some false) ->
  others env j = Some false ->
  (forall k, (k < j)%nat -> (time env (S k) - time env 0 <= 5)%Q) ->
  forall fuel, (j < fuel)%nat ->
    acquires fuel env self
    /\ exists out self',
         _command fuel env cmd par channel value type_ self = Some (out, self')
         /\ out <> Raise TimeoutError.
Proof.
  intros Hbusy Hkeep Hfree Hlive fuel Hfuel.
  assert (Hacq : acquires fuel env self).
  { unfold acquires. rewrite Hbusy.
    apply (wait_handover env j Hkeep Hfree); try lia.
    intros k Hk. unfold expired. apply negb_false_iff, Qle_bool_iff.
    now apply Hlive. }
  split; [exact Hacq | now apply acquired_outcome].
Qed.

Lemma flag_handover_witness :
  let env := {| time := fun n => inject_Z (Z.of_nat n);
                others := fun k => if (k =? 3)%nat then Some false else None |} in
  let self := set_busy true (bench ["#BD:00,CMD:OK,VAL:1.5" ++ CRLF]) in
  acquires 4 env self.
Proof.
  intros env self.
  apply (flag_handover env "MON" "VSET" (Some 0) PyNone (Some Float) self 3).
  - reflexivity.
  - intros k Hk.
    destruct k as [|[|[|k]]]; try discriminate; lia.
  - reflexivity.
  - intros k Hk.
    destruct k as [|[|[|k]]]; try (intros Q; discriminate Q); lia.
  - lia.
Defined.

(** ** The port gives nothing, or is closed *)

Lemma parse_reply_empty type_ : _parse_reply "" type_ = Ok PyNone.
Proof. now destruct type_. Qed.

(** X5: when the read times out (the port returns no byte), an exchange
    that got the channel on an open port returns no value, for any requested
    type, with its command written and the busy flag clear: the missing
    reply is not reported.  (An exchange that is refused for an integer it
    does not print raises ValueError before that.) *)
Theorem read_timeout_no_value fuel env cmd par channel value type_ self c :
  acquires fuel env self ->
  connection self = Some c -> is_open c = true ->
  is_ascii (cmd_string (module self) cmd par channel value) = true ->
  incoming c = [] ->
  _command fuel env cmd par channel value type_ self
  = Some (unless_refused self channel value
            (Ok PyNone,
             {| module := module self;
                connection :=
                  Some {| is_open := true;
                          written := (written c
                                      ++ [cmd_string (module self) cmd par channel value])%list;
                          incoming := [] |};
                _num_channels := _num_channels self;
                __busy := false |})).
Proof.
  intros Hacq Hc Hopen Hascii Hin.
  rewrite (command_outcome _ _ _ _ _ _ _ _ c Hacq Hc Hopen Hascii).
  assert (R : forall line, readline (write c line)
                           = ("", {| is_open := true;
                                     written := (written c ++ [line])%list;
                                     incoming := [] |})).
  { intros line. unfold readline, write. cbn. now rewrite Hin, Hopen. }
  unfold exchanged. rewrite R. cbn [fst snd].
  change (Py.decode_ascii "") with (@Ok string ""). cbv beta iota.
  now rewrite parse_reply_empty.
Qed.

Lemma read_timeout_no_value_witness :
  exists self', voltage 1 (alone 1) 2 (bench []) = Some (Ok PyNone, self')
                /\ __busy self' = false.
Proof.
  eexists. split.
  - apply (read_timeout_no_value 1 (alone 1) "MON" "VSET" (Some 2) PyNone
             (Some Float) (bench [])
             {| is_open := true; written := []; incoming := [] |});
      reflexivity.
  - reflexivity.
Defined.

Lemma acquires_disconnect fuel env self :
  acquires fuel env (disconnect self) <-> acquires fuel env self.
Proof.
  unfold acquires, disconnect.
  destruct (connection self); reflexivity.
Qed.

(** X6: after [disconnect] the facade is not connected, and an exchange
    that gets the channel raises ConnectionError without writing; it leaves
    the busy flag set. *)
Theorem after_disconnect fuel env cmd par channel value type_ self :
  acquires fuel env self ->
  is_connected (disconnect self) = false
  /\ _command fuel env cmd par channel value type_ (disconnect self)
     = Some (Raise ConnectionError, set_busy true (disconnect self)).
Proof.
  intros Hacq. apply acquires_disconnect in Hacq. split.
  - unfold is_connected, disconnect.
    destruct (connection self) as [c|] eqn:Hc; cbn; [reflexivity|].
    now rewrite Hc.
  - unfold _command. unfold acquires in Hacq. rewrite Hacq.
    unfold disconnect. destruct (connection self) as [c|] eqn:Hc; cbn.
    + reflexivity.
    + now rewrite Hc.
Qed.

Lemma after_disconnect_witness :
  let self := disconnect (bench ["#BD:00,CMD:OK,VAL:1.5" ++ CRLF]) in
  voltage 1 (alone 1) 0 self = Some (Raise ConnectionError, set_busy true self).
Proof.
  intros self.
  apply (after_disconnect 1 (alone 1) "MON" "VSET" (Some 0) PyNone (Some Float)
           (bench ["#BD:00,CMD:OK,VAL:1.5" ++ CRLF])).
  reflexivity.
Defined.

(** ** Exchanges in a row *)

(** X7: two exchanges of a lone caller on an open port pair the replies with
    the requests in order: when the first reply decodes to a value, the
    second exchange decodes the second line, and the two command lines are
    on the port in the order of the calls.  (Either exchange is refused with
    ValueError, before it writes, for an integer it does not print.) *)
Theorem exchanges_in_order dt cmd1 par1 ch1 val1 t1 cmd2 par2 ch2 val2 t2
    self c r1 r2 rest v1 :
  __busy self = false ->
  connection self = Some c -> is_open c = true ->
  incoming c = r1 :: r2 :: rest ->
  is_ascii r1 = true -> is_ascii r2 = true ->
  let line1 := cmd_string (module self) cmd1 par1 ch1 val1 in
  let line2 := cmd_string (module self) cmd2 par2 ch2 val2 in
  is_ascii line1 = true -> is_ascii line2 = true ->
  _parse_reply r1 t1 = Ok v1 ->
  let final flag :=
    {| module := module self;
       connection := Some {| is_open := true;
                             written := (written c ++ [line1; line2])%list;
                             incoming := rest |};
       _num_channels := _num_channels self;
       __busy := flag |} in
  bindM (_command 1 (alone dt) cmd1 par1 ch1 val1 t1)
        (fun _ => _command 1 (alone dt) cmd2 par2 ch2 val2 t2) self
  = Some (unless_refused self ch1 val1
            (unless_refused (exchanged self c line1 false) ch2 val2
               match _parse_reply r2 t2 with
               | Ok v2 => (Ok v2, final false)
               | Raise e => (Raise e, final true)
               end)).
Proof.
  intros Hfree Hc Hopen Hin Hr1 Hr2 line1 line2 Hl1 Hl2 Hp1 final.
  unfold bindM, unless_refused.
  destruct (prints (module self) ch1 val1) eqn:P1.
  2:{ now rewrite (command_refused 1 (alone dt) cmd1 par1 ch1 val1 t1 self c
                     (alone_acquires dt 0 self Hfree) Hc Hopen P1). }
  rewrite (command_exchange 1 (alone dt) cmd1 par1 ch1 val1 t1 self c
             (alone_acquires dt 0 self Hfree) Hc Hopen P1 Hl1).
  rewrite (readline_write _ _ _ _ Hin). cbn [fst].
  unfold Py.decode_ascii at 1. rewrite Hr1, Hp1.
  fold line1.
  set (self1 := exchanged self c line1 false).
  set (c1 := {| is_open := is_open c;
                written := (written c ++ [line1])%list;
                incoming := r2 :: rest |}).
  assert (Hc1 : connection self1 = Some c1).
  { unfold self1, exchanged. now rewrite (readline_write _ _ _ _ Hin). }
  destruct (prints (module self1) ch2 val2) eqn:P2.
  2:{ now rewrite (command_refused 1 (alone dt) cmd2 par2 ch2 val2 t2 self1 c1
                     (alone_acquires dt 0 self1 eq_refl) Hc1 Hopen P2). }
  rewrite (command_exchange 1 (alone dt) cmd2 par2 ch2 val2 t2 self1 c1
             (alone_acquires dt 0 self1 eq_refl) Hc1 Hopen P2 Hl2).
  rewrite (readline_write c1 _ r2 rest eq_refl). cbn [fst].
  unfold Py.decode_ascii. rewrite Hr2.
  unfold exchanged. rewrite (readline_write c1 _ r2 rest eq_refl).
  cbn [snd c1 is_open written module self1 exchanged _num_channels].
  rewrite Hopen, <- app_assoc. cbn [app].
  now destruct (_parse_reply r2 t2).
Qed.

Lemma exchanges_in_order_witness :
  let first := "#BD:00,CMD:OK,VAL:12.5" ++ CRLF in
  let second := "#BD:00,CMD:OK,VAL:0.1" ++ CRLF in
  sent (bindM (voltage 1 (alone 1) 0) (fun _ => measured_voltage 1 (alone 1) 0)
          (bench [first; second]))
  = ["$BD:0,CMD:MON,CH:0,PAR:VSET" ++ CRLF; "$BD:0,CMD:MON,CH:0,PAR:VMON" ++ CRLF].
Proof.
  intros first second. unfold voltage, measured_voltage.
  rewrite (exchanges_in_order 1 "MON" "VSET" (Some 0) PyNone (Some Float)
             "MON" "VMON" (Some 0) PyNone (Some Float) (bench [first; second])
             {| is_open := true; written := []; incoming := [first; second] |}
             first second [] (PyFloat (S754_finite false 7036874417766400 (-49)))
             eq_refl eq_refl eq_refl eq_refl eq_refl eq_refl eq_refl eq_refl
             eq_refl).
  reflexivity.
Defined.

(** X8: once an exchange of a lone caller has raised, whatever the
    exception, every later exchange of that caller on the facade it left is
    still polling or raises TimeoutError: it never gets the channel again. *)
Theorem blocked_after_failure fuel dt cmd par channel value type_ self e self'
    fuel' dt' cmd' par' channel' value' type_' :
  _command fuel (alone dt) cmd par channel value type_ self
  = Some (Raise e, self') ->
  _command fuel' (alone dt') cmd' par' channel' value' type_' self' = None
  \/ _command fuel' (alone dt') cmd' par' channel' value' type_' self'
     = Some (Raise TimeoutError, self').
Proof.
  intros H. apply alone_blocked.
  now rewrite (command_exit_flag _ _ _ _ _ _ _ _ _ _ H).
Qed.

Lemma blocked_after_failure_witness :
  let self := bench ["#BD:00,PAR:ERR" ++ CRLF; "#BD:00,CMD:OK,VAL:1" ++ CRLF] in
  exists self',
    module_name 1 (alone 1) self = Some (Raise ParameterError, self')
    /\ (serial_number 9 (alone 1) self' = None
        \/ serial_number 9 (alone 1) self' = Some (Raise TimeoutError, self')).
Proof.
  intros self. eexists. split; [vm_compute; reflexivity|].
  apply (blocked_after_failure 1 1 "MON" "BDNAME" None PyNone None self
           ParameterError).
  vm_compute. reflexivity.
Defined.

(** ** The lines the decoder reacts to *)

(** What a greedy run followed by the rest of a pattern matched. *)
Lemma rep_inv {A} p s (k : string -> option A) r :
  forall lo, rep p lo None s k = Some r ->
  exists a b, s = a ++ b /\ forallb_str p a = true
              /\ (lo <= String.length a)%nat /\ k b = Some r.
Proof.
  induction s as [|c s IH]; intros lo H.
  - destruct lo; [|discriminate]. now exists "", "".
  - cbn [rep] in H.
    assert (Hstop : match lo with O => k (String c s) | S _ => None end = Some r ->
                    exists a b, String c s = a ++ b /\ forallb_str p a = true
                                /\ (lo <= String.length a)%nat /\ k b = Some r).
    { destruct lo; [|discriminate]. intros Hk. now exists "", (String c s). }
    destruct (p c) eqn:Hc; [|now apply Hstop].
    change (option_map pred None) with (@None nat) in H.
    destruct (rep p (pred lo) None s k) as [r'|] eqn:E; [|now apply Hstop].
    injection H as ->.
    destruct (IH _ E) as (a & b & -> & Ha & Hlo & Hk).
    exists (String c a), b. repeat split; trivial.
    + simpl. now rewrite Hc.
    + simpl. lia.
Qed.

Lemma at_end_cases s : at_end s = true -> s = "" \/ s = String LF "".
Proof.
  destruct s as [|c [|d s]]; simpl; try discriminate; auto.
  destruct (Ascii.eqb_spec c LF) as [->|]; [auto | discriminate].
Qed.

Lemma err_frame_app ds what nl :
  err_frame ds what ++ nl
  = "#BD:" ++ ds ++ String "," (what ++ ":ERR" ++ CRLF ++ nl).
Proof.
  unfold err_frame.
  change ("#BD:" ++ ds ++ "," ++ what ++ ":ERR" ++ CRLF)
    with ("#BD:" ++ (ds ++ (String "," (what ++ (":ERR" ++ CRLF))))).
  rewrite !append_assoc. cbn [append]. now rewrite !append_assoc.
Qed.

(** The lines an error pattern matches. *)
Lemma err_pattern_inv what reply :
  matches (err_pattern what) reply = true ->
  exists ds nl, forallb_str is_digit ds = true /\ ds <> ""
                /\ (nl = "" \/ nl = String LF "")
                /\ reply = err_frame ds what ++ nl.
Proof.
  unfold matches, re_match, err_pattern. cbn [run].
  destruct (lit "#BD:" reply) as [s0|] eqn:E0; [|discriminate].
  apply lit_inv in E0. subst reply.
  destruct (rep is_digit 1 None s0 _) as [r|] eqn:R; [|discriminate].
  intros _. apply rep_inv in R as (ds & b & -> & Hds & Hlen & Hk).
  destruct (lit ("," ++ what ++ ":ERR" ++ CRLF) b) as [nl|] eqn:E1; [|discriminate].
  apply lit_inv in E1. subst b.
  destruct (at_end nl) eqn:Hend; [|discriminate].
  exists ds, nl. repeat split; trivial.
  - intros ->. simpl in Hlen. lia.
  - now apply at_end_cases.
  - rewrite err_frame_app. cbn [append]. now rewrite !append_assoc.
Qed.

Lemma check_error_raises reply e :
  __check_error reply = Raise e ->
  exists what, In (what, e) error_table /\ matches (err_pattern what) reply = true.
Proof.
  unfold __check_error, error_table.
  destruct (matches (err_pattern "CMD") reply) eqn:E1;
    [intros [= <-]; exists "CMD"; simpl; auto|].
  destruct (matches (err_pattern "CH") reply) eqn:E2;
    [intros [= <-]; exists "CH"; simpl; auto|].
  destruct (matches (err_pattern "PAR") reply) eqn:E3;
    [intros [= <-]; exists "PAR"; simpl; auto|].
  destruct (matches (err_pattern "VAL") reply) eqn:E4;
    [intros [= <-]; exists "VAL"; simpl; auto 6|].
  destruct (matches (err_pattern "LOC") reply) eqn:E5;
    [intros [= <-]; exists "LOC"; simpl; auto 7|].
  discriminate.
Qed.

(** An error frame, with or without a newline after it, raises its
    exception. *)
Lemma check_error_frame ds what e nl :
  forallb_str is_digit ds = true -> ds <> "" ->
  In (what, e) error_table ->
  nl = "" \/ nl = String LF "" ->
  __check_error (err_frame ds what ++ nl) = Raise e.
Proof.
  intros Hds Hne Hin Hnl. rewrite err_frame_app. unfold __check_error.
  rewrite !err_pattern_frame by assumption.
  simpl in Hin.
  destruct Hin as [Q|[Q|[Q|[Q|[Q|[]]]]]]; injection Q as <- <-;
    destruct Hnl as [->| ->]; reflexivity.
Qed.

(** X9: [__check_error] raises exactly on the five error frames: the text
    #BD:, one or more digits, a comma, the mnemonic, :ERR and CR LF, alone
    on the line or followed by one newline; the exception is the one of the
    mnemonic.  On any other line it returns, whatever the line holds. *)
Theorem check_error_exactly reply e :
  __check_error reply = Raise e <->
  exists ds what nl,
    forallb_str is_digit ds = true /\ ds <> ""
    /\ In (what, e) error_table
    /\ (nl = "" \/ nl = String LF "")
    /\ reply = err_frame ds what ++ nl.
Proof.
  split.
  - intros H. apply check_error_raises in H as (what & Hin & Hm).
    apply err_pattern_inv in Hm as (ds & nl & Hds & Hne & Hnl & ->).
    now exists ds, what, nl.
  - intros (ds & what & nl & Hds & Hne & Hin & Hnl & ->).
    now apply check_error_frame.
Qed.

(** The groups of a match of the success pattern. *)
Lemma ok_pattern_groups s m :
  re_match ok_pattern s = Some m ->
  exists d1 d2 payload rest,
    is_digit d1 = true /\ is_digit d2 = true
    /\ forallb_str dot payload = true
    /\ s = ok_frame d1 d2 payload rest
    /\ m = [String d1 (String d2 ""); payload].
Proof.
  unfold re_match, ok_pattern. cbn [run].
  destruct (lit "#BD:" s) as [s0|] eqn:E0; [|discriminate].
  apply lit_inv in E0. subst s. intros H.
  apply rep_two_inv in H as (d1 & d2 & s1 & -> & H1 & H2 & H).
  pose proof (take_prefix (String d1 (String d2 "")) s1) as T.
  cbn [append] in T. rewrite T in H. clear T.
  destruct (lit ",CMD:OK,VAL:" s1) as [s2|] eqn:E1; [|discriminate].
  apply lit_inv in E1. subst s1.
  apply rep_inv in H as (payload & b & -> & Hp & _ & H).
  destruct (lit CRLF b) as [rest|] eqn:E2; [|discriminate].
  apply lit_inv in E2. subst b.
  rewrite take_prefix in H. injection H as <-.
  now exists d1, d2, payload, rest.
Qed.

(** X10: without a requested type the decoder returns a text exactly when
    the line, after its leading white space, is a success frame: #BD:, two
    digits, ,CMD:OK,VAL:, the payload, CR LF, and then anything.  The text
    returned is that payload; it holds no newline.  The two digits are not
    compared with the module number of the facade. *)
Theorem decoded_payload reply payload :
  _parse_reply reply None = Ok (PyStr payload) <->
  exists d1 d2 rest,
    is_digit d1 = true /\ is_digit d2 = true
    /\ forallb_str dot payload = true
    /\ lstrip reply = ok_frame d1 d2 payload rest.
Proof.
  split.
  - unfold _parse_reply. destruct (__check_error reply); [|discriminate].
    destruct (re_match ok_pattern (lstrip reply)) as [m|] eqn:E; [|discriminate].
    intros [= <-].
    apply ok_pattern_groups in E as (d1 & d2 & p & rest & H1 & H2 & Hp & Hs & ->).
    now exists d1, d2, rest.
  - intros (d1 & d2 & rest & H1 & H2 & Hp & Hs).
    assert (Hm : re_match ok_pattern (lstrip reply)
                 = Some [String d1 (String d2 ""); payload])
      by (rewrite Hs; now apply ok_pattern_match).
    now destruct (parse_reply_matched reply _ Hm) as (-> & _).
Qed.

(** X11: the decoder raises in two cases only.  It raises the exception of
    an error frame when the line is that frame (alone or followed by one
    newline), and InvalidReplyError when the line is a success frame whose
    payload the requested type cannot convert.  A ValueError thus always
    stands for a VAL:ERR frame of the device, never for a payload that does
    not parse. *)
Theorem decoder_failures reply type_ e :
  _parse_reply reply type_ = Raise e <->
  (exists ds what nl,
      forallb_str is_digit ds = true /\ ds <> ""
      /\ In (what, e) error_table
      /\ (nl = "" \/ nl = String LF "")
      /\ reply = err_frame ds what ++ nl)
  \/ (e = InvalidReplyError
      /\ exists t d1 d2 payload rest,
           type_ = Some t
           /\ is_digit d1 = true /\ is_digit d2 = true
           /\ forallb_str dot payload = true
           /\ lstrip reply = ok_frame d1 d2 payload rest
           /\ call t payload = Raise ValueError).
Proof.
  split.
  - intros H. apply parse_reply_raises in H.
    destruct H as [(what & Hin & Hm)|(-> & _ & m & t & Hm & -> & Hc)].
    + left. apply err_pattern_inv in Hm as (ds & nl & Hds & Hne & Hnl & ->).
      now exists ds, what, nl.
    + right. split; [reflexivity|].
      apply ok_pattern_groups in Hm as (d1 & d2 & p & rest & H1 & H2 & Hp & Hs & ->).
      now exists t, d1, d2, p, rest.
  - intros [(ds & what & nl & Hds & Hne & Hin & Hnl & ->)
           |(-> & t & d1 & d2 & p & rest & -> & H1 & H2 & Hp & Hs & Hc)].
    + unfold _parse_reply. now rewrite (check_error_frame ds what e nl).
    + assert (Hm : re_match ok_pattern (lstrip reply)
                   = Some [String d1 (String d2 ""); p])
        by (rewrite Hs; now apply ok_pattern_match).
      destruct (parse_reply_matched reply _ Hm) as (_ & _ & Hbad).
      now apply (Hbad t ValueError).
Qed.

(** ** Lines that decode to no value *)

Lemma digits_prefix_unique ds ds' x y :
  forallb_str is_digit ds = true -> forallb_str is_digit ds' = true ->
  ds ++ String "," x = ds' ++ String "," y -> ds = ds'.
Proof.
  revert ds'. induction ds as [|c ds IH]; intros [|c' ds'] Hd Hd' E;
    simpl in *; trivial.
  - injection E as <- _. discriminate.
  - injection E as -> _. discriminate.
  - injection E as <- E. apply andb_true_iff in Hd as [_ Hd].
    apply andb_true_iff in Hd' as [_ Hd']. f_equal. now apply IH.
Qed.

(** X12: a success frame is recognised only with a module number of exactly
    two digits.  With one digit, three digits or none, the line decodes to no
    value for every requested type, and its payload is dropped. *)
Theorem success_frame_two_digits ds payload rest type_ :
  forallb_str is_digit ds = true ->
  String.length ds <> 2%nat ->
  _parse_reply ("#BD:" ++ ds ++ ",CMD:OK,VAL:" ++ payload ++ CRLF ++ rest) type_
  = Ok PyNone.
Proof.
  intros Hds Hlen.
  set (reply := "#BD:" ++ ds ++ ",CMD:OK,VAL:" ++ payload ++ CRLF ++ rest).
  assert (Herr : __check_error reply = Ok tt).
  { unfold __check_error, reply. destruct ds as [|c ds'] eqn:Eds.
    - reflexivity.
    - rewrite <- Eds in *.
      assert (Hne : ds <> "") by (intros Q; rewrite Q in Eds; discriminate).
      change ("#BD:" ++ ds ++ ",CMD:OK,VAL:" ++ payload ++ CRLF ++ rest)
        with ("#BD:" ++ ds ++ String "," ("CMD:OK,VAL:" ++ payload ++ CRLF ++ rest)).
      rewrite !err_pattern_frame by assumption. reflexivity. }
  assert (Hok : re_match ok_pattern (lstrip reply) = None).
  { change (lstrip reply) with reply.
    destruct (re_match ok_pattern reply) as [m|] eqn:E; [|reflexivity].
    apply ok_pattern_groups in E as (d1 & d2 & p & r & H1 & H2 & _ & Hs & _).
    unfold reply, ok_frame in Hs. cbn [append] in Hs.
    injection Hs as Hs.
    change (String d1 (String d2 (String "," ?t)))
      with ((String d1 (String d2 "")) ++ String "," t) in Hs.
    apply digits_prefix_unique in Hs; trivial.
    - subst ds. now contradiction Hlen.
    - simpl. now rewrite H1, H2. }
  unfold _parse_reply. now rewrite Herr, Hok.
Qed.

Lemma success_frame_two_digits_witness :
  _parse_reply ("#BD:5,CMD:OK,VAL:12.5" ++ CRLF) (Some Float) = Ok PyNone
  /\ _parse_reply ("#BD:005,CMD:OK,VAL:12.5" ++ CRLF) None = Ok PyNone.
Proof.
  split.
  - apply (success_frame_two_digits "5" "12.5" "" (Some Float)); [reflexivity|].
    simpl. lia.
  - apply (success_frame_two_digits "005" "12.5" "" None); [reflexivity|].
    simpl. lia.
Defined.

(** X13: the acknowledgement of a write, a success frame without a VAL
    field, decodes to no value for every requested type: a typed read that
    is answered by a bare acknowledgement returns no value and raises
    nothing. *)
Theorem acknowledgement_no_value d1 d2 type_ :
  is_digit d1 = true -> is_digit d2 = true ->
  _parse_reply (ack_frame d1 d2) type_ = Ok PyNone.
Proof.
  intros H1 H2.
  assert (Herr : __check_error (ack_frame d1 d2) = Ok tt).
  { unfold __check_error, ack_frame.
    change ("#BD:" ++ String d1 (String d2 (",CMD:OK" ++ CRLF)))
      with ("#BD:" ++ (String d1 (String d2 "")) ++ String "," ("CMD:OK" ++ CRLF)).
    rewrite !err_pattern_frame
      by (try discriminate; simpl; now rewrite H1, H2).
    reflexivity. }
  assert (Hok : re_match ok_pattern (lstrip (ack_frame d1 d2)) = None).
  { change (lstrip (ack_frame d1 d2)) with (ack_frame d1 d2).
    unfold re_match, ok_pattern, ack_frame.
    cbn [run lit append Ascii.eqb Bool.eqb].
    now rewrite rep_two by assumption. }
  unfold _parse_reply. now rewrite Herr, Hok.
Qed.

Lemma acknowledgement_no_value_witness :
  _parse_reply ("#BD:07,CMD:OK" ++ CRLF) (Some Int) = Ok PyNone.
Proof.
  apply (acknowledgement_no_value "0" "7" (Some Int)); reflexivity.
Defined.

(** ** The getters built on the decoder *)

Lemma parse_state_find state :
  ChannelStatus_._parse_state state =
  match find (StatusWord.bit state) StatusWord.priority with
  | Some s => s
  | None => OFF
  end.
Proof.
  unfold ChannelStatus_._parse_state. rewrite scan_find; [reflexivity|].
  intros s _ Hs. destruct s; simpl; try lia; discriminate.
Qed.

(** The decoded status is ON or RAMPING_UP exactly when one of their two
    bits is set and the bit of no later status is. *)
Lemma on_or_ramping_up state :
  (ChannelStatus_.eqb (ChannelStatus_._parse_state state) ON
   || ChannelStatus_.eqb (ChannelStatus_._parse_state state) RAMPING_UP) = true
  <->
  (StatusWord.bit state ON = true \/ StatusWord.bit state RAMPING_UP = true)
  /\ (forall s, ChannelStatus_.value RAMPING_UP < ChannelStatus_.value s ->
                StatusWord.bit state s = false).
Proof.
  rewrite parse_state_find.
  cbv [StatusWord.priority ChannelStatus_.members ChannelStatus_.is_OFF
       filter rev app negb find].
  split.
  - intros H.
    destruct (StatusWord.bit state NO_CALIBRATION) eqn:B14; [discriminate|].
    destruct (StatusWord.bit state INTERLOCKED) eqn:B13; [discriminate|].
    destruct (StatusWord.bit state KILLED) eqn:B12; [discriminate|].
    destruct (StatusWord.bit state DISABLED) eqn:B11; [discriminate|].
    destruct (StatusWord.bit state OVER_TEMPERATURE) eqn:B10; [discriminate|].
    destruct (StatusWord.bit state OVER_POWERED) eqn:B9; [discriminate|].
    destruct (StatusWord.bit state TRIPPED) eqn:B8; [discriminate|].
    destruct (StatusWord.bit state MAX_VOLTAGE) eqn:B7; [discriminate|].
    destruct (StatusWord.bit state UNDER_VOLTAGE) eqn:B6; [discriminate|].
    destruct (StatusWord.bit state OVER_VOLTAGE) eqn:B5; [discriminate|].
    destruct (StatusWord.bit state OVER_CURRENT) eqn:B4; [discriminate|].
    destruct (StatusWord.bit state RAMPING_DOWN) eqn:B3; [discriminate|].
    split.
    + destruct (StatusWord.bit state RAMPING_UP); [now right|].
      destruct (StatusWord.bit state ON); [now left | discriminate].
    + intros s Hs. destruct s; simpl in Hs; try lia; assumption.
  - intros [Hlow Hhigh].
    rewrite !Hhigh by (simpl; lia).
    destruct (StatusWord.bit state RAMPING_UP); [reflexivity|].
    destruct Hlow as [->|Q]; [reflexivity | discriminate].
Qed.

(** X14: [enabled] is true exactly when the status word has the bit of ON
    or of RAMPING_UP set and the bit of no later status: a channel that also
    reports a fault, a ramp down or an interlock is not enabled, on or not.
    (The read is refused with ValueError when the module number or the
    channel is not printed.) *)
Theorem enabled_by_bits fuel env channel self c reply rest state :
  acquires fuel env self ->
  connection self = Some c -> is_open c = true ->
  incoming c = reply :: rest -> is_ascii reply = true ->
  _parse_reply reply (Some Int) = Ok (PyInt state) ->
  exists b,
    enabled fuel env channel self
    = Some (unless_refused self (Some channel) PyNone
              (Ok b,
               exchanged self c
                 (cmd_string (module self) "MON" "STAT" (Some channel) PyNone)
                 false))
    /\ (b = true <->
        (StatusWord.bit state ON = true \/ StatusWord.bit state RAMPING_UP = true)
        /\ (forall s, ChannelStatus_.value RAMPING_UP < ChannelStatus_.value s ->
                      StatusWord.bit state s = false)).
Proof.
  intros Hacq Hc Hopen Hin Hreply Hparse.
  exists (ChannelStatus_.eqb (ChannelStatus_._parse_state state) ON
          || ChannelStatus_.eqb (ChannelStatus_._parse_state state) RAMPING_UP).
  split.
  - unfold enabled, status, bindM.
    rewrite (command_reads fuel env "STAT" (Some channel) (Some Int) self c reply
               rest Hacq Hc Hopen eq_refl Hin Hreply).
    rewrite Hparse. unfold unless_refused.
    now destruct (prints (module self) (Some channel) PyNone).
  - apply on_or_ramping_up.
Qed.

Lemma enabled_by_bits_witness :
  let on_and_tripped := "#BD:00,CMD:OK,VAL:129" ++ CRLF in
  let on := "#BD:00,CMD:OK,VAL:1" ++ CRLF in
  (exists s, enabled 1 (alone 1) 0 (bench [on_and_tripped]) = Some (Ok false, s))
  /\ (exists s, enabled 1 (alone 1) 0 (bench [on]) = Some (Ok true, s)).
Proof.
  intros on_and_tripped on. split.
  - destruct (enabled_by_bits 1 (alone 1) 0 (bench [on_and_tripped])
                {| is_open := true; written := []; incoming := [on_and_tripped] |}
                on_and_tripped [] 129
                eq_refl eq_refl eq_refl eq_refl eq_refl eq_refl)
      as (b & Hrun & Hb).
    rewrite Hrun. destruct b; [|now eexists].
    destruct (proj1 Hb eq_refl) as [_ Hhigh].
    discriminate (Hhigh TRIPPED ltac:(simpl; lia)).
  - destruct (enabled_by_bits 1 (alone 1) 0 (bench [on])
                {| is_open := true; written := []; incoming := [on] |}
                on [] 1
                eq_refl eq_refl eq_refl eq_refl eq_refl eq_refl)
      as (b & Hrun & Hb).
    rewrite Hrun. destruct b; [now eexists|].
    assert (Q : false = true); [|discriminate Q].
    apply Hb. split; [now left|].
    intros s Hs. destruct s; simpl in Hs; try lia; reflexivity.
Defined.

Lemma alarm_lookup_value z a :
  AlarmStatus_.lookup z = Ok a <-> AlarmStatus_.value a = z.
Proof.
  split.
  - unfold AlarmStatus_.lookup.
    destruct (find _ _) as [b|] eqn:F; [|discriminate].
    intros [= <-]. apply find_some in F as [_ F]. now apply Z.eqb_eq in F.
  - intros <-. now destruct a.
Qed.

(** X15: the alarm read returns the member whose value is the integer in the
    payload, and raises ValueError for an integer that is the value of no
    member; the members are 0 and the seven single bits, so a word with two
    or more alarm bits has none.  This ValueError is raised after the
    exchange has returned: the busy flag is clear.  (The read is refused
    with another ValueError, the flag left set, when the module number is
    not printed.) *)
Theorem alarm_status_member fuel env self c reply rest payload z :
  acquires fuel env self ->
  connection self = Some c -> is_open c = true ->
  incoming c = reply :: rest -> is_ascii reply = true ->
  _parse_reply reply None = Ok (PyStr payload) ->
  Py.int_of_str payload = Some z ->
  let after :=
    exchanged self c (cmd_string (module self) "MON" "BDALARM" None PyNone) false in
  alarm_status fuel env self
  = Some (unless_refused self None PyNone
            (match AlarmStatus_.lookup z with
             | Ok a => Ok a
             | Raise _ => Raise ValueError
             end, after))
  /\ __busy after = false
  /\ (forall a, AlarmStatus_.lookup z = Ok a <-> AlarmStatus_.value a = z)
  /\ (AlarmStatus_.lookup z = Raise ValueError
      <-> ~ In z [0; 1; 2; 4; 8; 16; 32; 64]).
Proof.
  intros Hacq Hc Hopen Hin Hreply Hparse Hint after.
  split; [|split; [reflexivity|split]].
  - unfold alarm_status, bindM.
    rewrite (command_reads fuel env "BDALARM" None None self c reply rest
               Hacq Hc Hopen eq_refl Hin Hreply).
    rewrite Hparse. unfold unless_refused.
    destruct (prints (module self) None PyNone); [|reflexivity].
    unfold lift. cbn [Py.int]. rewrite Hint.
    unfold AlarmStatus_.lookup. now destruct (find _ _).
  - intros a. apply alarm_lookup_value.
  - split.
    + intros Hr Hz. apply alarm_lookup_iff in Hz as [a Ha]. congruence.
    + intros Hz. unfold AlarmStatus_.lookup.
      destruct (find _ _) as [a|] eqn:F; [|reflexivity].
      exfalso. apply Hz. apply alarm_lookup_iff. exists a.
      unfold AlarmStatus_.lookup. now rewrite F.
Qed.

Lemma alarm_status_member_witness :
  let power := "#BD:00,CMD:OK,VAL:16" ++ CRLF in
  let both := "#BD:00,CMD:OK,VAL:48" ++ CRLF in
  (exists s, alarm_status 1 (alone 1) (bench [power]) = Some (Ok BOARD_POWER_FAIL, s))
  /\ (exists s, alarm_status 1 (alone 1) (bench [both]) = Some (Raise ValueError, s)
                /\ __busy s = false).
Proof.
  intros power both. split.
  - eexists.
    exact (proj1 (alarm_status_member 1 (alone 1) (bench [power])
                    {| is_open := true; written := []; incoming := [power] |}
                    power [] "16" 16
                    eq_refl eq_refl eq_refl eq_refl eq_refl eq_refl eq_refl)).
  - eexists. split.
    + exact (proj1 (alarm_status_member 1 (alone 1) (bench [both])
                      {| is_open := true; written := []; incoming := [both] |}
                      both [] "48" 48
                      eq_refl eq_refl eq_refl eq_refl eq_refl eq_refl eq_refl)).
    + reflexivity.
Defined.

(** X16: the current range read returns LOW for the payload LOW and HIGH
    for the payload HIGH, and raises ValueError for any other result, the
    missing value and the lower-case spellings included; the range write
    sends these same two texts in its VAL field.  (Either is refused with
    ValueError, and sends nothing, when the module number or the channel is
    not printed.) *)
Theorem imon_range_exact fuel env channel self c reply rest v :
  acquires fuel env self ->
  connection self = Some c -> is_open c = true ->
  incoming c = reply :: rest -> is_ascii reply = true ->
  _parse_reply reply None = Ok v ->
  imon_range fuel env channel self
  = Some (unless_refused self (Some channel) PyNone
            (MonitoringRange_.lookup v,
             exchanged self c
               (cmd_string (module self) "MON" "IMRANGE" (Some channel) PyNone)
               false))
  /\ (forall r, MonitoringRange_.lookup v = Ok r
                <-> v = PyStr (MonitoringRange_.value r))
  /\ ((forall r, v <> PyStr (MonitoringRange_.value r))
      -> MonitoringRange_.lookup v = Raise ValueError)
  /\ (forall r, exists out self' c',
        set_imon_range fuel env channel r self = Some (out, self')
        /\ connection self' = Some c'
        /\ written c'
           = written_after self (Some channel) (PyStr (MonitoringRange_.value r)) c
               (set_line (module self) channel "IMRANGE" (MonitoringRange_.value r))).
Proof.
  intros Hacq Hc Hopen Hin Hreply Hparse.
  assert (Hiff : forall r, MonitoringRange_.lookup v = Ok r
                           <-> v = PyStr (MonitoringRange_.value r)).
  { intros r. unfold MonitoringRange_.lookup, Py.eq_str.
    destruct v as [| | | |t]; try (split; [discriminate | destruct r; discriminate]).
    destruct (String.eqb_spec t "LOW") as [->|N1].
    - split; [intros [= <-]; reflexivity | destruct r; [reflexivity|discriminate]].
    - destruct (String.eqb_spec t "HIGH") as [->|N2].
      + split; [intros [= <-]; reflexivity | destruct r; [discriminate|reflexivity]].
      + split; [discriminate|]. destruct r; intros [= ->]; contradiction. }
  split; [|split; [exact Hiff|split]].
  - unfold imon_range, bindM.
    rewrite (command_reads fuel env "IMRANGE" (Some channel) None self c reply rest
               Hacq Hc Hopen eq_refl Hin Hreply).
    rewrite Hparse. unfold unless_refused.
    destruct (prints (module self) (Some channel) PyNone); [|reflexivity].
    unfold lift. now destruct (MonitoringRange_.lookup v).
  - intros Hno. destruct (MonitoringRange_.lookup v) as [r|e] eqn:E.
    + contradiction (Hno r). now apply Hiff.
    + unfold MonitoringRange_.lookup in E.
      destruct (Py.eq_str v "LOW"); [discriminate|].
      destruct (Py.eq_str v "HIGH"); [discriminate|]. congruence.
  - intros r. unfold set_imon_range.
    apply formatted_write; trivial; now destruct r.
Qed.

Lemma imon_range_exact_witness :
  let high := "#BD:00,CMD:OK,VAL:HIGH" ++ CRLF in
  let low := "#BD:00,CMD:OK,VAL:low" ++ CRLF in
  (exists s, imon_range 1 (alone 1) 1 (bench [high]) = Some (Ok HIGH, s))
  /\ (exists s, imon_range 1 (alone 1) 1 (bench [low]) = Some (Raise ValueError, s)).
Proof.
  intros high low. split; eexists.
  - exact (proj1 (imon_range_exact 1 (alone 1) 1 (bench [high])
                    {| is_open := true; written := []; incoming := [high] |}
                    high [] (PyStr "HIGH")
                    eq_refl eq_refl eq_refl eq_refl eq_refl eq_refl)).
  - exact (proj1 (imon_range_exact 1 (alone 1) 1 (bench [low])
                    {| is_open := true; written := []; incoming := [low] |}
                    low [] (PyStr "low")
                    eq_refl eq_refl eq_refl eq_refl eq_refl eq_refl)).
Defined.

(** ** The command line *)

(** X17: the command line determines its fields.  Two commands whose
    module and channel numbers are not negative and whose mnemonic and value
    text hold no delimiter give the same line only when they have the same
    module, operation, channel, mnemonic and value text.  Nothing is escaped:
    a mnemonic that holds a comma can give the line of another command. *)
Theorem cmd_string_injective :
  (forall m op par ch v m' op' par' ch' v',
      0 <= m -> 0 <= m' ->
      match ch with Some n => 0 <= n | None => True end ->
      match ch' with Some n => 0 <= n | None => True end ->
      Grammar.plain par = true -> Grammar.plain par' = true ->
      match value_text v with Some t => Grammar.plain t = true | None => True end ->
      match value_text v' with Some t => Grammar.plain t = true | None => True end ->
      cmd_string m (Grammar.name op) par ch v
      = cmd_string m' (Grammar.name op') par' ch' v' ->
      m = m' /\ op = op' /\ par = par' /\ ch = ch'
      /\ value_text v = value_text v')
  /\ cmd_string 0 "SET" "TRIP,VAL:1" (Some 2) PyNone
     = cmd_string 0 "SET" "TRIP" (Some 2) (PyInt 1).
Proof.
  split; [|reflexivity].
  intros m op par ch v m' op' par' ch' v' Hm Hm' Hch Hch' Hp Hp' Hv Hv' E.
  pose proof (parse_cmd_string m op par ch v Hm Hch Hp Hv) as P.
  pose proof (parse_cmd_string m' op' par' ch' v' Hm' Hch' Hp' Hv') as P'.
  rewrite E, P' in P. injection P as -> -> -> -> ->. now repeat split.
Qed.

Lemma cmd_string_injective_witness :
  value_text (PyInt 5) = value_text (PyStr "5").
Proof.
  apply (proj1 cmd_string_injective 3 Grammar.SET "ISET" (Some 1) (PyInt 5)
           3 Grammar.SET "ISET" (Some 1) (PyStr "5"));
    try reflexivity; try lia; simpl; lia.
Defined.

Lemma truthy_iff v : Py.truthy v = true <-> counts_as_true v.
Proof.
  destruct v as [|b|z|f|t]; cbn [Py.truthy counts_as_true].
  - split; [discriminate | contradiction].
  - reflexivity.
  - rewrite negb_true_iff. apply Z.eqb_neq.
  - destruct f; split; trivial; try discriminate; contradiction.
  - rewrite negb_true_iff. apply String.eqb_neq.
Qed.

(** X18: the power switch sends the mnemonic ON for a value that counts as
    true and OFF for any other, with the channel and without a VAL field.
    What counts as true is every value but None, False, the integer zero, a
    float zero and the empty text: the texts OFF, False and 0 switch the
    channel on.  (The write is refused with ValueError, and sends nothing,
    when the module number or the channel is not printed.) *)
Theorem set_enabled_line fuel env channel v self c :
  acquires fuel env self ->
  connection self = Some c -> is_open c = true ->
  let sends (par : string) :=
    exists out self' c',
      set_enabled fuel env channel v self = Some (out, self')
      /\ connection self' = Some c'
      /\ written c'
         = written_after self (Some channel) PyNone c
             (bare_line (module self) channel par) in
  (counts_as_true v -> sends "ON")
  /\ (~ counts_as_true v -> sends "OFF").
Proof.
  intros Hacq Hc Hopen sends. subst sends. cbv beta. unfold set_enabled.
  split; intros Hv.
  - apply truthy_iff in Hv. rewrite Hv.
    destruct (command_writes fuel env "SET" "ON" (Some channel) PyNone None
                self c Hacq Hc Hopen) as (out & self' & c' & Hrun & Hc' & Hw).
    { now apply is_ascii_cmd_string. }
    unfold discard, bindM. rewrite Hrun.
    destruct out as [r|e]; eexists _, self', c'; repeat split; trivial.
  - assert (Hf : Py.truthy v = false).
    { destruct (Py.truthy v) eqn:E; [|reflexivity].
      apply truthy_iff in E. contradiction. }
    rewrite Hf.
    destruct (command_writes fuel env "SET" "OFF" (Some channel) PyNone None
                self c Hacq Hc Hopen) as (out & self' & c' & Hrun & Hc' & Hw).
    { now apply is_ascii_cmd_string. }
    unfold discard, bindM. rewrite Hrun.
    destruct out as [r|e]; eexists _, self', c'; repeat split; trivial.
Qed.

Lemma set_enabled_line_witness :
  sent (set_enabled 1 (alone 1) 2 (PyStr "OFF") (bench []))
  = ["$BD:0,CMD:SET,CH:2,PAR:ON" ++ CRLF]
  /\ sent (set_enabled 1 (alone 1) 2 (PyFloat (S754_zero true)) (bench []))
     = ["$BD:0,CMD:SET,CH:2,PAR:OFF" ++ CRLF].
Proof.
  split.
  - destruct (proj1 (set_enabled_line 1 (alone 1) 2 (PyStr "OFF") (bench [])
                       {| is_open := true; written := []; incoming := [] |}
                       eq_refl eq_refl eq_refl))
      as (out & self' & c' & Hrun & Hc' & Hw); [discriminate|].
    rewrite Hrun. unfold sent. now rewrite Hc', Hw.
  - destruct (proj2 (set_enabled_line 1 (alone 1) 2 (PyFloat (S754_zero true))
                       (bench [])
                       {| is_open := true; written := []; incoming := [] |}
                       eq_refl eq_refl eq_refl))
      as (out & self' & c' & Hrun & Hc' & Hw); [intros Q; exact Q|].
    rewrite Hrun. unfold sent. now rewrite Hc', Hw.
Defined.

(** ** Reading back what a formatted write sends *)

(** [float] reads a text of digits, a dot and one digit, with or without a
    minus sign, as the float nearest to the decimal it writes. *)
Lemma float_of_str_decimal s D c :
  forallb_str is_digit D = true -> D <> "" -> is_digit c = true ->
  Py.float_of_str (Py.minus s ++ D ++ "." ++ String c "")
  = Some (Py.float_of_decimal s
            (10 * Py.of_digits (digit_vals D) + digit_val c) (-1)).
Proof.
  intros HD Hne Hc. unfold Py.float_of_str.
  rewrite skip_nothing.
  2:{ rewrite !forallb_str_app. apply andb_true_iff. split.
      - now destruct s.
      - apply andb_true_iff. split.
        + clear Hne. induction D as [|x D IH]; [reflexivity|].
          simpl in *. apply andb_true_iff in HD as [Hx HD].
          now rewrite (digit_not_space x Hx), IH.
        + simpl. now rewrite (digit_not_space c Hc). }
  destruct D as [|x D']; [contradiction|].
  assert (Hx : is_digit x = true) by (simpl in HD; now apply andb_true_iff in HD).
  set (body := String x D' ++ "." ++ String c "").
  assert (Hsign : Py.sign (Py.minus s ++ body) = (s, body)).
  { destruct s; [reflexivity|]. unfold body. cbn [Py.minus append].
    apply is_digit_cases in Hx.
    repeat (destruct Hx as [->|Hx]); try subst x; reflexivity. }
  rewrite Hsign.
  assert (Hword : forall w, w = "inf" \/ w = "infinity" \/ w = "nan" ->
                            String.eqb (Py.lowercase body) w = false).
  { intros w Hw. unfold body. cbn [append Py.lowercase].
    pose proof Hx as Hx'. apply is_digit_cases in Hx'.
    destruct Hw as [->|[->| ->]];
      repeat (destruct Hx' as [->|Hx']); try subst x; reflexivity. }
  rewrite !Hword by tauto. cbn [orb].
  unfold body.
  rewrite (digitpart_digits (String x D') ("." ++ String c "") HD)
    by (right; now eexists).
  cbn [append]. cbn [Py.digitpart]. rewrite Hc.
  cbn [digit_vals app Py.exponent length Z.of_nat].
  do 2 f_equal.
  change (digit_val x :: (digit_vals D' ++ [digit_val c])%list)
    with ((digit_val x :: digit_vals D') ++ [digit_val c])%list.
  now rewrite of_digits_app.
Qed.

Lemma fixed1_reads_back f : Py.float_of_str (Py.fixed1 f) = Some (rounded1 f).
Proof.
  destruct f as [s|s| |s m e]; try (now destruct s); try reflexivity.
  unfold Py.fixed1, rounded1.
  pose proof (tenths_nonneg m e) as Hn.
  set (n := Py.tenths m e) in *.
  assert (Hq : 0 <= n / 10) by (apply Z.div_pos; lia).
  assert (Hr : 0 <= n mod 10 < 10) by (apply Z.mod_pos_bound; lia).
  destruct (str_int_digit (n mod 10) Hr) as (c & Ec & Hc).
  pose proof (of_digits_str_int (n mod 10) (proj1 Hr)) as Er.
  rewrite Ec in Er. cbv [digit_vals Py.of_digits fold_left] in Er.
  rewrite Ec.
  rewrite float_of_str_decimal; trivial.
  - rewrite of_digits_str_int by exact Hq.
    do 2 f_equal. pose proof (Z.div_mod n 10). lia.
  - destruct (str_int_nonneg (n / 10) Hq) as (d & -> & _).
    apply digits_of_uint0.
  - destruct (str_int_nonneg (n / 10) Hq) as (d & -> & _).
    apply nonempty_of_uint0.
Qed.

Lemma fixed1_no_newline f : forallb_str dot (Py.fixed1 f) = true.
Proof.
  destruct f as [s|s| |s m e]; try (now destruct s); try reflexivity.
  unfold Py.fixed1. rewrite !forallb_str_app.
  rewrite !str_int_chars; try reflexivity.
  - now destruct s.
  - intros c Hc. apply is_digit_cases in Hc.
    repeat (destruct Hc as [->|Hc]); try subst c; reflexivity.
  - intros c Hc. apply is_digit_cases in Hc.
    repeat (destruct Hc as [->|Hc]); try subst c; reflexivity.
Qed.

Lemma is_ascii_digit c : is_digit c = true -> (code c <? 128) = true.
Proof.
  intros H. apply is_digit_cases in H.
  repeat (destruct H as [->|H]); try subst c; reflexivity.
Qed.

Lemma ok_frame_ascii d1 d2 payload :
  is_digit d1 = true -> is_digit d2 = true -> is_ascii payload = true ->
  is_ascii (ok_frame d1 d2 payload "") = true.
Proof.
  intros H1 H2 Hp. unfold ok_frame, is_ascii. cbn [append forallb_str].
  rewrite (is_ascii_digit d1 H1), (is_ascii_digit d2 H2).
  cbn. rewrite forallb_str_app. fold (is_ascii payload). now rewrite Hp.
Qed.

Lemma parse_ok_frame d1 d2 payload rest :
  is_digit d1 = true -> is_digit d2 = true -> forallb_str dot payload = true ->
  re_match ok_pattern (lstrip (ok_frame d1 d2 payload rest))
  = Some [String d1 (String d2 ""); payload].
Proof.
  intros H1 H2 Hp.
  change (lstrip (ok_frame d1 d2 payload rest)) with (ok_frame d1 d2 payload rest).
  now apply ok_pattern_match.
Qed.

(** X19: what a formatted write sends can be read back.  The voltage write
    of a float [f] sends the one-decimal text of [f] in its VAL field, and
    when a success frame carries this text as its payload the voltage read
    returns the float nearest to [f] rounded to tenths (infinities, nan and
    zeros come back as they are); it does not raise InvalidReplyError.  The
    same holds for the current limit.  (Each is refused with ValueError when
    the module number or the channel is not printed.) *)
Theorem formatted_value_reads_back fuel env channel self c d1 d2 rest f :
  acquires fuel env self ->
  connection self = Some c -> is_open c = true ->
  is_digit d1 = true -> is_digit d2 = true ->
  incoming c = ok_frame d1 d2 (Py.fixed1 f) "" :: rest ->
  (exists out self' c',
      set_voltage fuel env channel (PyFloat f) self = Some (out, self')
      /\ connection self' = Some c'
      /\ written c'
         = written_after self (Some channel) (PyStr (Py.fixed1 f)) c
             (set_line (module self) channel "VSET" (Py.fixed1 f)))
  /\ voltage fuel env channel self
     = Some (unless_refused self (Some channel) PyNone
               (Ok (PyFloat (rounded1 f)),
                exchanged self c
                  (cmd_string (module self) "MON" "VSET" (Some channel) PyNone)
                  false))
  /\ current_limit fuel env channel self
     = Some (unless_refused self (Some channel) PyNone
               (Ok (PyFloat (rounded1 f)),
                exchanged self c
                  (cmd_string (module self) "MON" "ISET" (Some channel) PyNone)
                  false)).
Proof.
  intros Hacq Hc Hopen H1 H2 Hin.
  assert (Hascii : is_ascii (ok_frame d1 d2 (Py.fixed1 f) "") = true)
    by (apply ok_frame_ascii; trivial; apply fixed1_ascii).
  assert (Hparse : _parse_reply (ok_frame d1 d2 (Py.fixed1 f) "") (Some Float)
                   = Ok (PyFloat (rounded1 f))).
  { destruct (parse_reply_matched _ _
                (parse_ok_frame d1 d2 (Py.fixed1 f) "" H1 H2 (fixed1_no_newline f)))
      as (_ & Hok & _).
    apply Hok. cbn [group nth pred call]. now rewrite fixed1_reads_back. }
  split; [|split].
  - unfold set_voltage, bindM, lift. cbn [Py.format_1f].
    apply formatted_write; trivial. apply fixed1_ascii.
  - unfold voltage.
    rewrite (command_reads fuel env "VSET" (Some channel) (Some Float) self c _ rest
               Hacq Hc Hopen eq_refl Hin Hascii).
    now rewrite Hparse.
  - unfold current_limit.
    rewrite (command_reads fuel env "ISET" (Some channel) (Some Float) self c _ rest
               Hacq Hc Hopen eq_refl Hin Hascii).
    now rewrite Hparse.
Qed.

Lemma formatted_value_reads_back_witness :
  let f := S754_finite false 5066549580791808 (-51) in
  let reply := "#BD:00,CMD:OK,VAL:2.2" ++ CRLF in
  exists s, voltage 1 (alone 1) 2 (bench [reply])
            = Some (Ok (PyFloat (S754_finite false 4953959590107546 (-51))), s).
Proof.
  intros f reply. eexists.
  exact (proj1 (proj2 (formatted_value_reads_back 1 (alone 1) 2 (bench [reply])
                         {| is_open := true; written := []; incoming := [reply] |}
                         "0" "0" [] f
                         eq_refl eq_refl eq_refl eq_refl eq_refl eq_refl))).
Defined.

(** ** The type of what a read returns *)

Lemma parse_reply_value reply type_ v :
  _parse_reply reply type_ = Ok v ->
  v = PyNone
  \/ match type_ with
     | None | Some Str => exists t, v = PyStr t
     | Some Int => exists z, v = PyInt z
     | Some Float => exists f, v = PyFloat f
     end.
Proof.
  unfold _parse_reply. destruct (__check_error reply); [|discriminate].
  destruct (re_match ok_pattern (lstrip reply)) as [m|];
    [|intros [= <-]; now left].
  destruct type_ as [[| |]|]; cbn [call].
  - destruct (Py.int_of_str _); [|discriminate]. intros [= <-]. right. now eexists.
  - destruct (Py.float_of_str _); [|discriminate]. intros [= <-]. right. now eexists.
  - intros [= <-]. right. now eexists.
  - intros [= <-]. right. now eexists.
Qed.

(** X20: a read that returns gives a value of the requested type or no
    value at all: a float (or an integer) read never returns a text, and a
    read without a requested type returns a text or nothing.  The missing
    value is a possible result of every read. *)
Theorem read_returns_type_or_none fuel env cmd par channel value type_ self v self' :
  _command fuel env cmd par channel value type_ self = Some (Ok v, self') ->
  v = PyNone
  \/ match type_ with
     | None | Some Str => exists t, v = PyStr t
     | Some Int => exists z, v = PyInt z
     | Some Float => exists f, v = PyFloat f
     end.
Proof.
  unfold _command.
  destruct (wait fuel env 0 (__busy self)) as [[[u|e] b]|]; try discriminate.
  cbn [connection set_busy].
  destruct (connection self) as [c|]; [|discriminate].
  destruct (is_open c); [|discriminate].
  destruct (prints _ _ _); [|discriminate].
  destruct (Py.encode_ascii _); [|discriminate].
  destruct (readline _) as [l c'].
  destruct (Py.decode_ascii l) as [reply|]; [|discriminate].
  destruct (_parse_reply reply type_) as [r|] eqn:P; [|discriminate].
  intros [= <- _]. now apply (parse_reply_value reply).
Qed.

Lemma read_returns_type_or_none_witness :
  let v := PyFloat (S754_finite false 7036874417766400 (-49)) in
  v = PyNone \/ exists f, v = PyFloat f.
Proof.
  intros v.
  apply (read_returns_type_or_none 1 (alone 1) "MON" "VMON" (Some 0) PyNone
           (Some Float) (bench ["#BD:00,CMD:OK,VAL:12.5" ++ CRLF]) v
           (exchanged (bench ["#BD:00,CMD:OK,VAL:12.5" ++ CRLF])
              {| is_open := true; written := [];
                 incoming := ["#BD:00,CMD:OK,VAL:12.5" ++ CRLF] |}
              (cmd_string 0 "MON" "VMON" (Some 0) PyNone) false)).
  vm_compute. reflexivity.
Defined.
